(** * MonkeyProTest.py: the batched monkey runner

    A shallow embedding of [execute_adb_command] and of its inner
    [run_monkey_command] (src/MonkeyProTest.py, lines 255-316), with the
    Python built-ins they call, and the properties of the batching, of the
    command string, of the error handling and of the thread pool.

    Python [str] values are Rocq strings holding their UTF-8 encoding; Python
    [int] values are [Z]; list lengths and indices are [nat]. *)

From Stdlib Require Import String Ascii List ZArith Lia Bool Arith PeanoNat.
From Stdlib Require Import DecimalString DecimalPos Permutation Sorted.
Import ListNotations.

Local Open Scope string_scope.
Local Open Scope list_scope.
Local Open Scope nat_scope.

(** ** Python built-ins used by the runner *)

Module Py.

(** [range(start, stop, step)] for a positive step.  [fuel] bounds the number
    of elements; [stop - start] is always enough (lemma [range_from_fuel]). *)
Fixpoint range_from (fuel start stop step : nat) : list nat :=
  match fuel with
  | O => []
  | S fuel' =>
      if start <? stop
      then start :: range_from fuel' (start + step) stop step
      else []
  end.

Definition range (start stop step : nat) : list nat :=
  range_from (stop - start) start stop step.

(** [l[i:j]] for [0 <= i <= j]: Python clamps both ends to [len(l)]. *)
Definition slice {A : Type} (l : list A) (i j : nat) : list A :=
  firstn (j - i) (skipn i l).

(** [str(n)] for an [int]: its decimal digits, however many.  (The
    interpreter's limit on the digits of a conversion,
    [sys.set_int_max_str_digits], is taken to be off.) *)
Definition str_int (z : Z) : string :=
  NilZero.string_of_int (Z.to_int z).

Definition str_nat (n : nat) : string := str_int (Z.of_nat n).

(** [s.startswith(p)] *)
Definition startswith (p s : string) : bool := String.prefix p s.

(** [s.split(sep)] for a separator of one character: the fields between the
    occurrences of [sep]; there is always at least one field. *)
Fixpoint split_char (sep : ascii) (s : string) : list string :=
  match s with
  | EmptyString => [EmptyString]
  | String c s' =>
      if Ascii.eqb c sep
      then EmptyString :: split_char sep s'
      else match split_char sep s' with
           | [] => [String c EmptyString]
           | f :: fs => String c f :: fs
           end
  end.

(** The value of a byte of the UTF-8 encoding. *)
Definition byte (c : ascii) : nat := nat_of_ascii c.

(** One-byte line boundaries of [str.splitlines]: LF, VT, FF, FS, GS, RS
    (CR is handled with its CRLF case). *)
Definition is_line_break (c : ascii) : bool :=
  let b := byte c in
  (b =? 10) || (b =? 11) || (b =? 12) || (b =? 28) || (b =? 29) || (b =? 30).

(** [s.splitlines()]: the lines of [s] without their line breaks.  The
    boundaries are LF, CR, CRLF, VT, FF, FS, GS, RS, NEL (U+0085, bytes C2 85),
    LS (U+2028, E2 80 A8) and PS (U+2029, E2 80 A9); a line break at the very
    end opens no further line, and the empty string has no line. *)
Fixpoint splitlines (s : string) : list string :=
  let keep c rest :=
    match rest with
    | [] => [String c EmptyString]
    | l :: ls => String c l :: ls
    end in
  match s with
  | EmptyString => []
  | String c s1 =>
      if is_line_break c then EmptyString :: splitlines s1
      else if byte c =? 13 then
        match s1 with
        | String c1 s2 =>
            if byte c1 =? 10 then EmptyString :: splitlines s2
            else EmptyString :: splitlines s1
        | EmptyString => [EmptyString]
        end
      else if byte c =? 194 then
        match s1 with
        | String c1 s2 =>
            if byte c1 =? 133 then EmptyString :: splitlines s2
            else keep c (splitlines s1)
        | EmptyString => [String c EmptyString]
        end
      else if byte c =? 226 then
        match s1 with
        | String c1 (String c2 s3) =>
            if (byte c1 =? 128) && ((byte c2 =? 168) || (byte c2 =? 169))
            then EmptyString :: splitlines s3
            else keep c (splitlines s1)
        | _ => keep c (splitlines s1)
        end
      else keep c (splitlines s1)
  end.

(** One-byte whitespace of [str.strip]: TAB, LF, VT, FF, CR, FS, GS, RS, US
    and the space. *)
Definition is_space (c : ascii) : bool :=
  let b := byte c in
  ((9 <=? b) && (b <=? 13)) || ((28 <=? b) && (b <=? 32)).

(** [s.lstrip()]: drops the leading whitespace.  Besides the one-byte
    characters these are U+0085 and U+00A0 (C2 85, C2 A0), U+1680 (E1 9A 80),
    U+2000..U+200A, U+2028, U+2029, U+202F (E2 80 80..8A, A8, A9, AF),
    U+205F (E2 81 9F) and U+3000 (E3 80 80). *)
Fixpoint lstrip (s : string) : string :=
  match s with
  | EmptyString => EmptyString
  | String c s1 =>
      if is_space c then lstrip s1
      else
        match s1 with
        | String c1 s2 =>
            if (byte c =? 194) && ((byte c1 =? 133) || (byte c1 =? 160))
            then lstrip s2
            else
              match s2 with
              | String c2 s3 =>
                  let b := byte c in
                  let b1 := byte c1 in
                  let b2 := byte c2 in
                  if ((b =? 225) && (b1 =? 154) && (b2 =? 128))
                     || ((b =? 226) && (b1 =? 128)
                         && (((128 <=? b2) && (b2 <=? 138))
                             || (b2 =? 168) || (b2 =? 169) || (b2 =? 175)))
                     || ((b =? 226) && (b1 =? 129) && (b2 =? 159))
                     || ((b =? 227) && (b1 =? 128) && (b2 =? 128))
                  then lstrip s3
                  else s
              | EmptyString => s
              end
        | EmptyString => s
        end
  end.

(** [s.rstrip()]: a suffix that is all whitespace is dropped. *)
Fixpoint rstrip (s : string) : string :=
  match s with
  | EmptyString => EmptyString
  | String c s1 =>
      match lstrip s with
      | EmptyString => EmptyString
      | _ => String c (rstrip s1)
      end
  end.

(** [s.strip()] *)
Definition strip (s : string) : string := rstrip (lstrip s).

Definition in_range (lo hi : nat) (c : ascii) : bool :=
  (lo <=? byte c) && (byte c <=? hi).

(** Whether a byte string is well-formed UTF-8 (no overlong form, no
    surrogate, nothing above U+10FFFF): what [bytes.decode()] accepts. *)
Fixpoint utf8_valid (s : string) : bool :=
  match s with
  | EmptyString => true
  | String c s1 =>
      if byte c <=? 127 then utf8_valid s1
      else
        match s1 with
        | String c1 s2 =>
            if in_range 194 223 c then in_range 128 191 c1 && utf8_valid s2
            else
              match s2 with
              | String c2 s3 =>
                  if in_range 224 239 c then
                    (if byte c =? 224 then in_range 160 191 c1
                     else if byte c =? 237 then in_range 128 159 c1
                     else in_range 128 191 c1)
                    && in_range 128 191 c2 && utf8_valid s3
                  else
                    match s3 with
                    | String c3 s4 =>
                        in_range 240 244 c
                        && (if byte c =? 240 then in_range 144 191 c1
                            else if byte c =? 244 then in_range 128 143 c1
                            else in_range 128 191 c1)
                        && in_range 128 191 c2 && in_range 128 191 c3
                        && utf8_valid s4
                    | EmptyString => false
                    end
              | EmptyString => false
              end
        | EmptyString => false
        end
  end.

(** The lines that the iteration over a text stream yields, with universal
    newlines: a line ends after LF, CR or CRLF, each of them read as LF; what
    follows the last of them is a line too when it is not empty. *)
Fixpoint text_lines (s : string) : list string :=
  let lf := String "010" EmptyString in
  match s with
  | EmptyString => []
  | String c s1 =>
      if byte c =? 10 then lf :: text_lines s1
      else if byte c =? 13 then
        match s1 with
        | String c1 s2 =>
            if byte c1 =? 10 then lf :: text_lines s2 else lf :: text_lines s1
        | EmptyString => [lf]
        end
      else
        match text_lines s1 with
        | [] => [String c EmptyString]
        | l :: ls => String c l :: ls
        end
  end.

(** *** [float] *)

(** A finite [float]: [mant * 2^expo], with the sign [neg]; [mant] is 0 or
    has 53 bits. *)
Record float : Type := Float { neg : bool; mant : Z; expo : Z }.

(** [z / 1000] for an [int] [z]: the quotient rounded to the nearest float,
    to the one with the even mantissa when two are as near; [None] where the
    result is beyond the floats and Python raises [OverflowError]. *)
Definition div1000 (z : Z) : option float :=
  if (z =? 0)%Z then Some (Float false 0 0)
  else
    let a := Z.abs z in
    (* quotient, remainder and divisor of [a / (1000 * 2^e)] *)
    let quot (e : Z) : Z * Z * Z :=
      if (0 <=? e)%Z
      then (a / (1000 * 2 ^ e), a mod (1000 * 2 ^ e), 1000 * 2 ^ e)%Z
      else ((a * 2 ^ (- e)) / 1000, (a * 2 ^ (- e)) mod 1000, 1000)%Z in
    let e1 := (Z.log2 a - 61)%Z in
    let e := if (fst (fst (quot e1)) <? 2 ^ 52)%Z then (e1 - 1)%Z else e1 in
    let '(q, r, d) := quot e in
    let m := if ((d <? 2 * r) || ((d =? 2 * r) && Z.odd q))%Z
             then (q + 1)%Z else q in
    let '(m, e) := if (m =? 2 ^ 53)%Z then (2 ^ 52, e + 1)%Z else (m, e) in
    if (971 <? e)%Z then None else Some (Float (z <? 0)%Z m e).

(** The digits of [repr]: the shortest decimal [d * 10^p] that reads back as
    the float, and the nearest to it of that length.  The float is [V / den];
    the decimals that read back as it are those between [(V - Lw) / den] and
    [(V + Hw) / den], the ends included when the mantissa is even.  The
    search goes down from the number of digits of the integer part; 17
    digits always suffice. *)
Definition float_digits (f : float) : Z * Z :=
  let m := mant f in
  let e := expo f in
  let den := (if 2 <=? e then 1 else 2 ^ (2 - e))%Z in
  let V := (if 2 <=? e then m * 2 ^ e else 4 * m)%Z in
  let Hw := (if 2 <=? e then 2 ^ (e - 1) else 2)%Z in
  let Lw := (if m =? 2 ^ 52 then Hw / 2 else Hw)%Z in
  let try (p : Z) : option Z :=
    let s := (if p <? 0 then 10 ^ (- p) else 1)%Z in
    let t := (if p <? 0 then 1 else 10 ^ p)%Z in
    let inside (d : Z) : bool :=
      let x := (d * t * den)%Z in
      if Z.even m
      then ((V - Lw) * s <=? x)%Z && (x <=? (V + Hw) * s)%Z
      else ((V - Lw) * s <? x)%Z && (x <? (V + Hw) * s)%Z in
    let d0 := ((V * s) / (den * t))%Z in
    let below := (V * s - d0 * t * den)%Z in
    let above := ((d0 + 1) * t * den - V * s)%Z in
    match (0 <? d0)%Z && inside d0, inside (d0 + 1)%Z with
    | true, true =>
        if (below <? above)%Z then Some d0
        else if (above <? below)%Z then Some (d0 + 1)%Z
        else if Z.even d0 then Some d0 else Some (d0 + 1)%Z
    | true, false => Some d0
    | false, true => Some (d0 + 1)%Z
    | false, false => None
    end in
  let p0 := Z.of_nat (String.length (str_int (V / den))) in
  let fix search (steps : nat) (p : Z) : Z * Z :=
    match steps with
    | O => (0%Z, p)
    | S steps' =>
        match try p with
        | Some d => (d, p)
        | None => search steps' (p - 1)%Z
        end
    end in
  search 40 p0.

Fixpoint zeros (n : nat) : string :=
  match n with
  | O => ""
  | S n' => String "0" (zeros n')
  end.

(** [str(f)], which is [repr(f)]: the digits with the point, or with an
    exponent when the point would stand more than 16 places after the first
    digit or more than 4 before it. *)
Definition str_float (f : float) : string :=
  let sign := if neg f then "-" else "" in
  if (mant f =? 0)%Z then sign ++ "0.0"
  else
    let '(d, p) := float_digits f in
    let digits := str_int d in
    let n := String.length digits in
    let decpt := (Z.of_nat n + p)%Z in
    sign ++
    if ((decpt <=? -4) || (16 <? decpt))%Z then
      let x := (decpt - 1)%Z in
      let xs := str_int (Z.abs x) in
      String.substring 0 1 digits
      ++ (if n =? 1 then "" else "." ++ String.substring 1 (n - 1) digits)
      ++ "e" ++ (if (x <? 0)%Z then "-" else "+")
      ++ (if String.length xs =? 1 then "0" else "") ++ xs
    else if (decpt <=? 0)%Z then
      "0." ++ zeros (Z.to_nat (- decpt)) ++ digits
    else if (decpt <? Z.of_nat n)%Z then
      String.substring 0 (Z.to_nat decpt) digits ++ "."
      ++ String.substring (Z.to_nat decpt) (n - Z.to_nat decpt) digits
    else
      digits ++ zeros (Z.to_nat decpt - n) ++ ".0".

End Py.

(** ** The batching of [execute_adb_command] (lines 306-310) *)

Definition batch_size : nat := 4.
Definition delay : Z := 10.

(** The batch the loop body builds at index [i]: [packages[i:i + batch_size]]. *)
Definition batch_at {A : Type} (bsize : nat) (packages : list A) (i : nat) : list A :=
  Py.slice packages i (i + bsize).

(** The batches in processing order: one per index of
    [range(0, len(packages), batch_size)]. *)
Definition batches_of {A : Type} (bsize : nat) (packages : list A) : list (list A) :=
  map (batch_at bsize packages) (Py.range 0 (length packages) bsize).

Definition batches {A : Type} (packages : list A) : list (list A) :=
  batches_of batch_size packages.

(** ceil(n / b) on naturals. *)
Definition ceil_div (n b : nat) : nat := (n + b - 1) / b.


(** ** Effects: the log, child processes, sleeping and exceptions *)

(** The levels of the [logging] module. *)
Inductive level : Type := DEBUG | INFO | WARNING | ERROR | CRITICAL.

(** The exception classes that can arise in the runner.  All of them derive
    from [Exception]. *)
Inductive exn_class : Type :=
  | CalledProcessError | OSError | UnicodeDecodeError | ValueError
  | AttributeError | TypeError | IndexError | OverflowError.

(** An exception: its class and [str(e)]. *)
Record exn : Type := Exn { exn_cls : exn_class; exn_str : string }.

Inductive result (A : Type) : Type :=
  | Ok (a : A)
  | Raise (e : exn).
Arguments Ok {A} a.
Arguments Raise {A} e.

(** What the runner does to the outside, in the order it does it. *)
Inductive event : Type :=
  | Log (lv : level) (msg : string)   (* logger.info / logger.error *)
  | Exec (cmd : string)               (* subprocess.Popen(cmd, shell=True, ...) *)
  | Sleep (seconds : Z).              (* time.sleep *)

(** A computation: the events it performs, then a value or an exception. *)
Definition M (A : Type) : Type := (list event * result A)%type.

Definition ret {A : Type} (a : A) : M A := ([], Ok a).

Definition raise {A : Type} (e : exn) : M A := ([], Raise e).

Definition bind {A B : Type} (m : M A) (k : A -> M B) : M B :=
  match snd m with
  | Ok a => (fst m ++ fst (k a), snd (k a))
  | Raise e => (fst m, Raise e)
  end.

Notation "x <- m ;; k" := (bind m (fun x => k))
  (at level 61, m at next level, right associativity).
Notation "m ;; k" := (bind m (fun _ => k))
  (at level 61, right associativity).

(** [for x in l: body(x)] *)
Fixpoint for_each {A : Type} (l : list A) (body : A -> M unit) : M unit :=
  match l with
  | [] => ret tt
  | x :: l' => body x ;; for_each l' body
  end.

(** [[f(x) for x in l]] *)
Fixpoint list_comp {A B : Type} (l : list A) (f : A -> M B) : M (list B) :=
  match l with
  | [] => ret []
  | x :: l' => y <- f x ;; ys <- list_comp l' f ;; ret (y :: ys)
  end.

(** [try: body except CalledProcessError as e: h1(e) except Exception as e: h2(e)].
    Every class of [exn_class] derives from [Exception], so the second
    handler takes whatever the first one leaves. *)
Definition try_except {A : Type} (body : M A) (h1 h2 : exn -> M A) : M A :=
  match snd body with
  | Ok a => body
  | Raise e =>
      match exn_cls e with
      | CalledProcessError => (fst body ++ fst (h1 e), snd (h1 e))
      | _ => (fst body ++ fst (h2 e), snd (h2 e))
      end
  end.

(** [logger.info] and [logger.error]: the line is handed to the logger,
    whose handlers are taken to write it without raising. *)
Definition logger_info (msg : string) : M unit := ([Log INFO msg], Ok tt).
Definition logger_error (msg : string) : M unit := ([Log ERROR msg], Ok tt).
Definition time_sleep (seconds : Z) : M unit := ([Sleep seconds], Ok tt).

(** *** Child processes *)

(** The stream a child writes a line to. *)
Inductive fd : Type := Out | Err.

(** What a launched child does: the pieces of output it writes, in order,
    each to one of its two streams; a fault of the reading side after them,
    if any (a decoding error, a broken pipe); and its exit status. *)
Record child : Type := Child {
  child_writes : list (fd * string);
  child_fault : option exn;
  child_returncode : Z
}.

(** Whether the command could be launched at all. *)
Inductive spawn : Type :=
  | SpawnFails (e : exn)
  | Spawns (c : child).

(** The device and the shell: what each command line does. *)
Definition shell : Type := string -> spawn.

(** The [stdout=] and [stderr=] arguments of [Popen]. *)
Inductive redirect : Type := PIPE | STDOUT | INHERIT.

(** The [Popen] object: [stdout] and [stderr] are streams only for the
    arguments that were [PIPE], and [None] otherwise.  A stream is held as
    the pieces that its pipe delivers. *)
Record process : Type := Process {
  proc_stdout : option (list string);
  proc_stderr : option (list string);
  proc_fault : option exn;
  proc_returncode : Z
}.

(** What reaches the stdout pipe: the child's standard output, and its
    standard error too, interleaved, under [stderr=STDOUT]. *)
Definition piped_stdout (stderr_arg : redirect) (c : child) : list string :=
  map snd
    (filter (fun w => match fst w, stderr_arg with
                      | Out, _ => true
                      | Err, STDOUT => true
                      | Err, _ => false
                      end) (child_writes c)).

Definition piped_stderr (c : child) : list string :=
  map snd
    (filter (fun w => match fst w with Err => true | Out => false end)
            (child_writes c)).

(** [subprocess.Popen(cmd, shell=True, stdout=..., stderr=...)] *)
Definition Popen (sh : shell) (cmd : string) (stdout_arg stderr_arg : redirect)
  : M process :=
  ([Exec cmd],
   match sh cmd with
   | SpawnFails e => Raise e
   | Spawns c =>
       Ok {| proc_stdout := match stdout_arg with
                            | PIPE => Some (piped_stdout stderr_arg c)
                            | _ => None
                            end;
             proc_stderr := match stderr_arg with
                            | PIPE => Some (piped_stderr c)
                            | _ => None
                            end;
             proc_fault := child_fault c;
             proc_returncode := child_returncode c |}
   end).

Definition none_not_iterable : exn :=
  Exn TypeError "'NoneType' object is not iterable".

Definition none_has_no (attr : string) : exn :=
  Exn AttributeError ("'NoneType' object has no attribute '" ++ attr ++ "'").

(** [for line in stream: body(line)] on an attribute that may be [None], for
    a stream opened with an [encoding]: a text stream, which cuts what the
    pipe delivers into lines.  The fault of the stream, if any, is raised
    once its lines are read. *)
Definition for_line_in (stream : option (list string)) (fault : option exn)
    (body : string -> M unit) : M unit :=
  match stream with
  | None => raise none_not_iterable
  | Some pieces =>
      for_each (Py.text_lines (String.concat "" pieces)) body ;;
      match fault with
      | Some e => raise e
      | None => ret tt
      end
  end.

(** [stream.read()] on an attribute that may be [None]. *)
Definition stream_read (stream : option (list string)) : M string :=
  match stream with
  | None => raise (none_has_no "read")
  | Some lines => ret (String.concat "" lines)
  end.

(** [process.communicate()]: everything each pipe delivered. *)
Definition communicate (p : process) : M (option string * option string) :=
  ret (option_map (String.concat "") (proc_stdout p),
       option_map (String.concat "") (proc_stderr p)).

(** [data.decode()]: UTF-8, strict.  Python's message names the offending
    byte and its position; here it is shortened. *)
Definition decode (data : option string) : M string :=
  match data with
  | None => raise (none_has_no "decode")
  | Some bytes =>
      if Py.utf8_valid bytes then ret bytes
      else raise (Exn UnicodeDecodeError "'utf-8' codec can't decode byte")
  end.

(** [l[i]] *)
Definition index {A : Type} (l : list A) (i : nat) : M A :=
  match nth_error l i with
  | Some x => ret x
  | None => raise (Exn IndexError "list index out of range")
  end.

(** [ThreadPoolExecutor(max_workers=n)] accepts a positive bound only. *)
Definition ThreadPoolExecutor (max_workers : Z) : M unit :=
  if (max_workers <=? 0)%Z
  then raise (Exn ValueError "max_workers must be greater than 0")
  else ret tt.

(** A future that has run: it holds the value or the exception of its call. *)
Definition future : Type := result unit.

(** [executor.submit(call)], on the schedule where a submitted call runs to
    its end before the caller goes on: the one order of events that every
    pool size allows.  The number of calls, of sleeps and of log lines is the
    same on every schedule; [Pool] below has the others. *)
Definition submit (call : M unit) : M future := (fst call, Ok (snd call)).

(** [future.result()]: the value, or the exception of the call raised again. *)
Definition future_result (f : future) : M unit := ([], f).

(** ** [run_monkey_command] (lines 268-293) *)

(** [z / 1000] (line 272). *)
Definition div_1000 (z : Z) : M Py.float :=
  match Py.div1000 z with
  | Some f => ret f
  | None =>
      raise (Exn OverflowError "integer division result too large for a float")
  end.

(** The command line of line 269. *)
Definition monkey_cmd (device class_path package_name : string)
    (minutes throttle : Z) : string :=
  ("adb -s " ++ device ++ " shell CLASSPATH=" ++ class_path
   ++ " exec app_process /system/bin com.android.commands.monkey.Monkey -p "
   ++ package_name ++ " --agent reuseq --running-minutes " ++ Py.str_int minutes
   ++ " --throttle " ++ Py.str_int throttle ++ " --pct-touch 30 -v -v")%string.

Definition run_monkey_command (sh : shell) (device class_path package_name : string)
    (minutes throttle : Z) : M unit :=
  let cmd := monkey_cmd device class_path package_name minutes throttle in
  logger_info ("执行命令: " ++ cmd) ;;
  interval <- div_1000 throttle ;;
  logger_info ("脚本运行时长(分): " ++ Py.str_int minutes
               ++ ", 执行间隔(秒): " ++ Py.str_float interval) ;;
  try_except
    (process <- Popen sh cmd PIPE STDOUT ;;
     for_line_in (proc_stdout process) (proc_fault process)
       (fun line => logger_info (Py.strip line)) ;;
     (* process.wait() *)
     if negb (proc_returncode process =? 0)%Z then
       stderr_output <- stream_read (proc_stderr process) ;;
       logger_error ("包名 " ++ package_name ++ " 运行出错, 错误信息: "
                     ++ Py.strip stderr_output)
     else
       logger_info ("包名 " ++ package_name ++ " 执行完成"))
    (fun e => logger_error ("命令执行失败: " ++ exn_str e))
    (fun e => logger_error ("未知错误: " ++ exn_str e)).

(** ** [execute_adb_command] (lines 295-316) *)

(** The command of line 297. *)
Definition list_cmd (device : string) : string :=
  ("adb -s " ++ device ++ " shell pm list packages")%string.

(** Lines 296-302: the package list that is processed. *)
Definition resolve_packages (sh : shell) (device package_name : string)
  : M (list string) :=
  if String.eqb package_name "all" then
    process <- Popen sh (list_cmd device) PIPE PIPE ;;
    out <- communicate process ;;
    text <- decode (fst out) ;;
    let lines := filter (Py.startswith "package:") (Py.splitlines text) in
    list_comp lines (fun line => index (Py.split_char ":" line) 1)
  else
    ret [package_name].

(** Lines 311-316: the body of the loop, for one batch. *)
Definition process_batch (sh : shell) (device class_path : string)
    (minutes throttle : Z) (batch : list string) : M unit :=
  for_each batch (fun package => logger_info ("正在执行包名：" ++ package)) ;;
  futures <- list_comp batch (fun package =>
               submit (run_monkey_command sh device class_path package
                         minutes throttle)) ;;
  for_each futures future_result ;;
  time_sleep delay.

(** Lines 306-316: the loop over the batches. *)
Definition run_batches (sh : shell) (device class_path : string)
    (minutes throttle : Z) (packages : list string) : M unit :=
  for_each (Py.range 0 (length packages) batch_size) (fun i =>
    let batch := batch_at batch_size packages i in
    process_batch sh device class_path minutes throttle batch).

Definition execute_adb_command (sh : shell) (device class_path package_name : string)
    (minutes throttle max_workers : Z) : M unit :=
  ThreadPoolExecutor max_workers ;;
  packages <- resolve_packages sh device package_name ;;
  logger_info ("设备上共安装了 " ++ Py.str_nat (length packages) ++ " 个包") ;;
  run_batches sh device class_path minutes throttle packages.

(** *** Reading a trace *)

Definition log_lines (tr : list event) : list (level * string) :=
  flat_map (fun e => match e with Log lv msg => [(lv, msg)] | _ => [] end) tr.

Definition error_lines (tr : list event) : list string :=
  flat_map (fun e => match e with Log ERROR msg => [msg] | _ => [] end) tr.

Definition execs (tr : list event) : list string :=
  flat_map (fun e => match e with Exec cmd => [cmd] | _ => [] end) tr.

Definition sleeps (tr : list event) : list Z :=
  flat_map (fun e => match e with Sleep s => [s] | _ => [] end) tr.

(** *** What the claims say about a run *)

(** A run of one package that fails: the command cannot be launched, the
    reading of its output breaks, or it exits with a status other than 0. *)
Definition run_fails (s : spawn) : Prop :=
  match s with
  | SpawnFails _ => True
  | Spawns c => child_fault c <> None \/ child_returncode c <> 0%Z
  end.

(** The line that the handlers of lines 290-293 log for an exception. *)
Definition report (e : exn) : string :=
  match exn_cls e with
  | CalledProcessError => "命令执行失败: " ++ exn_str e
  | _ => "未知错误: " ++ exn_str e
  end.

(** What [run_monkey_command] does once the command is launched or not. *)
Definition outcome_events (package_name : string) (s : spawn) : list event :=
  match s with
  | SpawnFails e => [Log ERROR (report e)]
  | Spawns c =>
      map (fun line => Log INFO (Py.strip line))
          (Py.text_lines (String.concat "" (piped_stdout STDOUT c)))
      ++ match child_fault c with
         | Some e => [Log ERROR (report e)]
         | None =>
             if (child_returncode c =? 0)%Z
             then [Log INFO ("包名 " ++ package_name ++ " 执行完成")]
             else [Log ERROR (report (none_has_no "read"))]
         end
  end.

(** [sub] occurs in [s] as it is. *)
Definition occurs_in (sub s : string) : Prop :=
  exists pre post, s = (pre ++ sub ++ post)%string.

(** The standard output of the listing command, as [communicate] returns it. *)
Definition listing_stdout (c : child) : string :=
  String.concat "" (piped_stdout PIPE c).

(** The second of the fields that [split(':')] gives. *)
Definition second_field (line : string) : string :=
  nth 1 (Py.split_char ":" line) "".

(** What the comprehension of line 300 computes from the decoded output. *)
Definition listed_packages (text : string) : list string :=
  map second_field (filter (Py.startswith "package:") (Py.splitlines text)).

(** *** The listing, as the claims word it *)

(** The line boundaries of [str.splitlines], in UTF-8: LF, CR LF, CR, VT,
    FF, FS, GS, RS, NEL (U+0085), LS (U+2028) and PS (U+2029). *)
Definition line_boundaries : list string :=
  [String "010" ""; String "013" (String "010" ""); String "013" "";
   String "011" ""; String "012" ""; String "028" ""; String "029" "";
   String "030" ""; String "194" (String "133" "");
   String "226" (String "128" (String "168" ""));
   String "226" (String "128" (String "169" ""))].

Definition starts_with_boundary (s : string) : bool :=
  existsb (fun b => String.prefix b s) line_boundaries.

(** No line boundary begins anywhere in [s]. *)
Fixpoint no_boundary (s : string) : bool :=
  match s with
  | EmptyString => true
  | String _ s' => negb (starts_with_boundary s) && no_boundary s'
  end.

(** [text] is made of [lines]: each of them is followed by a line boundary,
    but perhaps the last one, when it is not empty.  CR LF is one boundary:
    a CR that ends a line is not followed by LF. *)
Inductive lines_of : string -> list string -> Prop :=
  | lines_of_nil : lines_of "" []
  | lines_of_last (line : string) :
      line <> ""%string -> no_boundary line = true -> lines_of line [line]
  | lines_of_cons (line b rest : string) (lines : list string) :
      no_boundary line = true ->
      In b line_boundaries ->
      (b = String "013" "" -> String.prefix (String "010" "") rest = false) ->
      lines_of rest lines ->
      lines_of (line ++ b ++ rest) (line :: lines).

(** What follows a line: nothing, or a boundary. *)
Definition after_line (ext : string) : Prop :=
  ext = ""%string
  \/ exists b rest, In b line_boundaries /\ ext = (b ++ rest)%string.

(** A line of the listing: [package:<name><rest>], or another line. *)
Inductive entry : Type :=
  | PackageLine (name rest : string)
  | OtherLine (line : string).

Definition entry_line (e : entry) : string :=
  match e with
  | PackageLine name rest => ("package:" ++ name ++ rest)%string
  | OtherLine line => line
  end.

Fixpoint no_colon (s : string) : bool :=
  match s with
  | EmptyString => true
  | String c s' => negb (Ascii.eqb c ":") && no_colon s'
  end.

(** In [package:<name><rest>] the name is the second of the fields that the
    colons separate: it has no colon, and what follows it is nothing or
    begins with a colon.  Another line does not begin with [package:]. *)
Definition entry_ok (e : entry) : bool :=
  match e with
  | PackageLine name rest =>
      no_colon name
      && match rest with
         | EmptyString => true
         | String c _ => Ascii.eqb c ":"
         end
  | OtherLine line => negb (String.prefix "package:" line)
  end.

(** The names of the package lines, in the order of the listing. *)
Definition names (entries : list entry) : list string :=
  flat_map (fun e => match e with
                     | PackageLine name _ => [name]
                     | OtherLine _ => []
                     end) entries.

(** *** Sample devices *)

Definition nl : string := String "010" "".

(** A device where every command prints nothing and exits with 0: no
    package is installed. *)
Definition bare_device : shell := fun _ => Spawns (Child [] None 0).

(** The listing of a device: a warning of the linker, then two packages,
    the second with a third field; lines end with CR LF or LF.  The device
    also writes a line to its standard error. *)
Definition sample_listing : list entry :=
  [OtherLine "WARNING: linker"; PackageLine "com.a" "";
   PackageLine "com.b" ":x"].

Definition sample_output : string :=
  ("WARNING: linker" ++ String "013" (String "010" "")
   ++ "package:com.a" ++ String "010" ""
   ++ "package:com.b:x" ++ String "010" "")%string.

Definition listing_device : shell := fun cmd =>
  if String.eqb cmd "adb -s D1 shell pm list packages" then
    Spawns (Child [(Err, ("package:com.err" ++ String "010" "")%string);
                   (Out, sample_output)] None 0)
  else
    Spawns (Child [] None 0).

(** A device with two packages, where [com.a] prints [boom] to its standard
    error and exits with 1, and [com.b] runs well. *)
Definition two_packages : shell := fun cmd =>
  if String.eqb cmd (list_cmd "D1") then
    Spawns (Child [(Out, ("package:com.a" ++ nl)%string); (Out, ("package:com.b" ++ nl)%string)]
                  None 0)
  else if String.eqb cmd (monkey_cmd "D1" "A:B:C" "com.a" 5 500) then
    Spawns (Child [(Out, ("// Monkey" ++ nl)%string); (Err, ("boom" ++ nl)%string)] None 1)
  else
    Spawns (Child [(Out, ("// Monkey" ++ nl)%string)] None 0).

(** ** The thread pool: every schedule of lines 295-316

    [run_batches] above fixes one order of events.  Here the calls of a batch
    run on the workers of [ThreadPoolExecutor(max_workers=W)] while the main
    thread goes on: a step relation over the position of the main thread in
    the loop, the work queue of the pool and the calls that are running.  A
    submitted call waits in the queue until a worker is free; the workers
    take calls in the order of submission; a running call ends at any time:
    with the exit status 0, with a failure that it has logged, or with an
    exception of lines 269-272, which its future holds.  [future.result()]
    goes on once its call has ended, or raises the exception that the future
    holds; the exception then leaves the loop, and the [with] block waits
    for the calls that are queued or running before it lets it go. *)

Module Pool.

(** One call of [run_monkey_command]: the number of its batch in processing
    order, its place in the batch, and its package. *)
Record task : Type := Task { t_batch : nat; t_slot : nat; t_package : string }.

Definition task_eqb (t u : task) : bool :=
  (t_batch t =? t_batch u) && (t_slot t =? t_slot u)
  && String.eqb (t_package t) (t_package u).

(** The calls of batch number [b]. *)
Definition batch_tasks (b : nat) (batch : list string) : list task :=
  map (fun sp => Task b (fst sp) (snd sp)) (combine (seq 0 (length batch)) batch).

Fixpoint number_from (b : nat) (bs : list (list string)) : list (list task) :=
  match bs with
  | [] => []
  | batch :: bs' => batch_tasks b batch :: number_from (S b) bs'
  end.

(** The calls that the loop makes for [packages], batch by batch. *)
Definition task_batches (packages : list string) : list (list task) :=
  number_from 0 (batches packages).

Definition all_tasks (packages : list string) : list task :=
  concat (task_batches packages).

(** How a call ends. *)
Inductive ending : Type :=
  | Completed   (* exit status 0 *)
  | Failed      (* a failure, logged at ERROR *)
  | Raised.     (* an exception, held by the future *)

(** Where the main thread is. *)
Inductive control : Type :=
  | LoopHead                                       (* line 309 *)
  | InBatch (batch to_submit to_join : list task)  (* lines 313-316 *)
  | Leaving        (* an exception goes up; the [with] block waits *)
  | Returned.

Inductive pevent : Type :=
  | EvSubmit (t : task)                 (* executor.submit, line 313 *)
  | EvStart (t : task)                  (* a worker begins the call *)
  | EvFinish (t : task) (how : ending)  (* the call ends *)
  | EvJoin (t : task)                   (* future.result() returns, line 315 *)
  | EvAbort (t : task)                  (* future.result() raises, line 315 *)
  | EvSleep.                            (* time.sleep(delay), line 316 *)

(** [trace] is the history, the latest event first. *)
Record state : Type := State {
  ctrl : control;
  upcoming : list (list task);
  queue : list task;
  running : list task;
  trace : list pevent
}.

Definition init (packages : list string) : state :=
  State LoopHead (task_batches packages) [] [] [].

Definition finished (u : task) (tr : list pevent) : Prop :=
  exists how, In (EvFinish u how) tr.

Inductive step (W : nat) : state -> state -> Prop :=
  | step_next b bs q r tr :
      step W (State LoopHead (b :: bs) q r tr)
             (State (InBatch b b b) bs q r tr)
  | step_return q r tr :
      step W (State LoopHead [] q r tr) (State Returned [] q r tr)
  | step_submit b t ts js up q r tr :
      step W (State (InBatch b (t :: ts) js) up q r tr)
             (State (InBatch b ts js) up (q ++ [t]) r (EvSubmit t :: tr))
  | step_start c up t q r tr :
      length r < W ->
      step W (State c up (t :: q) r tr)
             (State c up q (t :: r) (EvStart t :: tr))
  | step_finish c up q r1 t r2 how tr :
      step W (State c up q (r1 ++ t :: r2) tr)
             (State c up q (r1 ++ r2) (EvFinish t how :: tr))
  | step_join b u js up q r how tr :
      In (EvFinish u how) tr -> how <> Raised ->
      step W (State (InBatch b [] (u :: js)) up q r tr)
             (State (InBatch b [] js) up q r (EvJoin u :: tr))
  | step_abort b u js up q r tr :
      In (EvFinish u Raised) tr ->
      step W (State (InBatch b [] (u :: js)) up q r tr)
             (State Leaving up q r (EvAbort u :: tr))
  | step_sleep b up q r tr :
      step W (State (InBatch b [] []) up q r tr)
             (State LoopHead up q r (EvSleep :: tr))
  | step_leave up tr :
      step W (State Leaving up [] [] tr) (State Returned up [] [] tr).

Inductive reachable (W : nat) (packages : list string) : state -> Prop :=
  | reach_init : reachable W packages (init packages)
  | reach_step s s' :
      reachable W packages s -> step W s s' -> reachable W packages s'.

(** *** The same steps as a function, to run a schedule *)

Inductive choice : Type :=
  | DoNext | DoReturn | DoSubmit | DoStart
  | DoFinish (i : nat) (how : ending)  (* the running call at index [i] ends *)
  | DoJoin | DoSleep | DoLeave.

(** How the call [u] ended, by the latest of its endings in the history. *)
Fixpoint ending_of (u : task) (tr : list pevent) : option ending :=
  match tr with
  | [] => None
  | EvFinish t how :: tr' => if task_eqb t u then Some how else ending_of u tr'
  | _ :: tr' => ending_of u tr'
  end.

Definition exec (W : nat) (c : choice) (s : state) : option state :=
  match c, s with
  | DoNext, State LoopHead (b :: bs) q r tr =>
      Some (State (InBatch b b b) bs q r tr)
  | DoReturn, State LoopHead [] q r tr =>
      Some (State Returned [] q r tr)
  | DoSubmit, State (InBatch b (t :: ts) js) up q r tr =>
      Some (State (InBatch b ts js) up (q ++ [t]) r (EvSubmit t :: tr))
  | DoStart, State c up (t :: q) r tr =>
      if length r <? W
      then Some (State c up q (t :: r) (EvStart t :: tr))
      else None
  | DoFinish i how, State c up q r tr =>
      match nth_error r i with
      | Some t => Some (State c up q (firstn i r ++ skipn (S i) r)
                              (EvFinish t how :: tr))
      | None => None
      end
  | DoJoin, State (InBatch b [] (u :: js)) up q r tr =>
      match ending_of u tr with
      | Some Raised => Some (State Leaving up q r (EvAbort u :: tr))
      | Some _ => Some (State (InBatch b [] js) up q r (EvJoin u :: tr))
      | None => None
      end
  | DoSleep, State (InBatch b [] []) up q r tr =>
      Some (State LoopHead up q r (EvSleep :: tr))
  | DoLeave, State Leaving up [] [] tr =>
      Some (State Returned up [] [] tr)
  | _, _ => None
  end.

Fixpoint run (W : nat) (cs : list choice) (s : state) : option state :=
  match cs with
  | [] => Some s
  | c :: cs' =>
      match exec W c s with
      | Some s' => run W cs' s'
      | None => None
      end
  end.

(** *** What the claims say about a history *)

(** Every call of an earlier batch has ended before a call is submitted or
    starts. *)
Definition barrier (univ : list task) (tr : list pevent) : Prop :=
  forall tr2 e t tr1 u,
    tr = tr2 ++ e :: tr1 ->
    e = EvSubmit t \/ e = EvStart t ->
    In u univ -> t_batch u < t_batch t ->
    finished u tr1.

(** Every call of a batch has started before any other call of the batch
    ends. *)
Definition lifetimes_overlap (univ : list task) (tr : list pevent) : Prop :=
  forall tr2 u how tr1 t,
    tr = tr2 ++ EvFinish u how :: tr1 ->
    In t univ -> In u univ -> t_batch t = t_batch u -> t <> u ->
    In (EvStart t) tr1.

(** *** What holds of every state that the pool reaches *)

(** The calls of the current batch that have not ended: not submitted yet,
    queued, or running. *)
Definition pending (s : state) : list task :=
  match ctrl s with
  | InBatch _ ts _ => ts
  | _ => []
  end ++ queue s ++ running s.

(** The calls of the first [m] batches have ended. *)
Definition all_finished (tbs : list (list task)) (m : nat) (tr : list pevent)
  : Prop :=
  forall i b u, i < m -> nth_error tbs i = Some b -> In u b -> finished u tr.

(** The batches are numbered in order, and no call is twice in a batch. *)
Definition numbered (tbs : list (list task)) : Prop :=
  (forall i b t, nth_error tbs i = Some b -> In t b -> t_batch t = i)
  /\ (forall b, In b tbs -> NoDup b).

(** [n] batches have been taken from the list; the calls that have ended
    are among theirs; the calls that are pending have not ended. *)
Definition invariant (tbs : list (list task)) (s : state) : Prop :=
  exists n,
    upcoming s = skipn n tbs
    /\ (forall t how, In (EvFinish t how) (trace s) -> t_batch t < n)
    /\ NoDup (pending s)
    /\ (forall t, In t (pending s) -> ~ finished t (trace s))
    /\ barrier (concat tbs) (trace s)
    /\ match ctrl s with
       | LoopHead =>
           all_finished tbs n (trace s) /\ queue s = [] /\ running s = []
       | Returned => queue s = [] /\ running s = []
       | InBatch b ts js =>
           exists k,
             n = S k /\ nth_error tbs k = Some b
             /\ all_finished tbs k (trace s)
             /\ (forall u, In u b -> In u js \/ finished u (trace s))
             /\ incl (pending s) b
       | Leaving =>
           exists k b,
             n = S k /\ nth_error tbs k = Some b
             /\ all_finished tbs k (trace s)
             /\ incl (pending s) b
       end.

(** *** Sample schedules *)

(** Two packages: the first call ends before the second is submitted. *)
Definition one_after_the_other : list choice :=
  [DoNext; DoSubmit; DoStart; DoFinish 0 Completed;
   DoSubmit; DoStart; DoFinish 0 Failed; DoJoin; DoJoin; DoSleep; DoReturn].

(** Five packages: the four calls of the first batch are running together
    when the first of them ends; the fifth call starts after the sleep. *)
Definition all_at_once : list choice :=
  [DoNext; DoSubmit; DoSubmit; DoSubmit; DoSubmit;
   DoStart; DoStart; DoStart; DoStart;
   DoFinish 3 Completed; DoFinish 0 Failed; DoFinish 0 Completed;
   DoFinish 0 Completed; DoJoin; DoJoin; DoJoin; DoJoin; DoSleep;
   DoNext; DoSubmit; DoStart; DoFinish 0 Completed; DoJoin; DoSleep; DoReturn].

(** Two packages, both submitted, none started. *)
Definition two_submitted : list choice := [DoNext; DoSubmit; DoSubmit].

(** Two packages whose calls raise: [future.result()] raises at the first. *)
Definition both_raise : list choice :=
  [DoNext; DoSubmit; DoSubmit; DoStart; DoFinish 0 Raised; DoJoin;
   DoStart; DoFinish 0 Raised; DoLeave].

End Pool.

(** ** The functions around the runner: devices, resolution, unlocking,
    pushing the libraries, and the script itself (lines 195-253, 318-400) *)

Module Host.

(** A launch: a line given to the shell ([shell=True]) or a list of
    arguments. *)
Inductive call : Type :=
  | Shell (cmd : string)
  | Argv (args : list string).

(** The machine the script runs on: what each launch does, and what
    [os.listdir] finds. *)
Record host : Type := Host {
  launch : call -> spawn;
  listdir : string -> result (list string)
}.

(** What is left to the Python library and to the platform: [os.path.join]
    of two parts; [str()] of the [CalledProcessError] for a call and its exit
    status; the value of a character (given by its UTF-8 encoding) that is a
    decimal digit (category Nd), as [\d] and [int()] read it; and the limit
    of [int()] on the number of digits, where the version has one. *)
Record pylib : Type := PyLib {
  path_join : string -> string -> string;
  cpe_str : call -> Z -> string;
  digit_value : string -> option nat;
  int_max_str_digits : option nat
}.

(** What the script does to the outside, in the order it does it. *)
Inductive hevent : Type :=
  | Run (c : call)                    (* subprocess.run / subprocess.Popen *)
  | HLog (lv : level) (msg : string)  (* logger.info / logger.error *)
  | HSleep (seconds : Z).             (* time.sleep *)

(** The events of the runner are events of the script; its commands go to
    the shell. *)
Definition of_event (e : event) : hevent :=
  match e with
  | Log lv msg => HLog lv msg
  | Exec cmd => Run (Shell cmd)
  | Sleep seconds => HSleep seconds
  end.

(** A value, an exception, or [exit(code)]. *)
Inductive outcome (A : Type) : Type :=
  | Done (a : A)
  | Raised (e : exn)
  | Exited (code : Z).
Arguments Done {A} a.
Arguments Raised {A} e.
Arguments Exited {A} code.

Definition H (A : Type) : Type := (list hevent * outcome A)%type.

Definition ret {A : Type} (a : A) : H A := ([], Done a).
Definition raise {A : Type} (e : exn) : H A := ([], Raised e).
Definition exit {A : Type} (code : Z) : H A := ([], Exited code).

Definition bind {A B : Type} (m : H A) (k : A -> H B) : H B :=
  match snd m with
  | Done a => (fst m ++ fst (k a), snd (k a))
  | Raised e => (fst m, Raised e)
  | Exited c => (fst m, Exited c)
  end.

(** [try: body except Exception as e: handler(e)]; [exit()] goes through. *)
Definition try_except {A : Type} (body : H A) (handler : exn -> H A) : H A :=
  match snd body with
  | Raised e => (fst body ++ fst (handler e), snd (handler e))
  | _ => body
  end.

Fixpoint for_each {A : Type} (l : list A) (body : A -> H unit) : H unit :=
  match l with
  | [] => ret tt
  | x :: l' => bind (body x) (fun _ => for_each l' body)
  end.

Definition logger_info (msg : string) : H unit := ([HLog INFO msg], Done tt).
Definition logger_error (msg : string) : H unit := ([HLog ERROR msg], Done tt).

(** A computation of the runner, inside the script. *)
Definition lift_core {A : Type} (m : M A) : H A :=
  (map of_event (fst m),
   match snd m with
   | Ok a => Done a
   | Raise e => Raised e
   end).

(** The shell of the runner on this machine. *)
Definition shell_of (h : host) : shell := fun cmd => launch h (Shell cmd).

(** *** More built-ins *)

(** [s.endswith(suffix)] *)
Fixpoint endswith (suffix s : string) : bool :=
  if String.eqb s suffix then true
  else match s with
       | EmptyString => false
       | String _ s' => endswith suffix s'
       end.

(** [x in l] for strings. *)
Definition inb (x : string) (l : list string) : bool :=
  existsb (String.eqb x) l.

(** The first [n] bytes of [s], and [s] without them. *)
Fixpoint take (n : nat) (s : string) : string :=
  match n, s with
  | S n', String c s' => String c (take n' s')
  | _, _ => EmptyString
  end.

Fixpoint drop (n : nat) (s : string) : string :=
  match n, s with
  | S n', String _ s' => drop n' s'
  | _, _ => s
  end.

Definition tab : ascii := "009"%char.
Definition newline : ascii := "010"%char.

(** What [text=True] does to the bytes read from a pipe, once decoded: CRLF
    and a CR alone become LF. *)
Fixpoint universal_newlines (s : string) : string :=
  match s with
  | EmptyString => EmptyString
  | String c s1 =>
      if Py.byte c =? 13 then
        String newline
          match s1 with
          | String c1 s2 =>
              if Py.byte c1 =? 10 then universal_newlines s2
              else universal_newlines s1
          | EmptyString => EmptyString
          end
      else String c (universal_newlines s1)
  end.

(** The [CompletedProcess] of [subprocess.run]. *)
Record completed : Type := Completed {
  cp_returncode : Z;
  cp_stdout : option string
}.

(** What [capture_output=True, text=True] gives as [stdout]. *)
Definition captured (ch : child) : string :=
  universal_newlines (String.concat "" (piped_stdout PIPE ch)).

(** [subprocess.run(call, check=check)], with [capture_output=True,
    text=True] when [capture] is set: the launch may fail; what is captured
    is decoded, which may fail; with [check] an exit status other than 0
    raises [CalledProcessError].  Without [capture] the result has no
    [stdout]. *)
Definition subprocess_run (py : pylib) (h : host) (c : call)
    (capture check : bool) : H completed :=
  ([Run c],
   match launch h c with
   | SpawnFails e => Raised e
   | Spawns ch =>
       match (if capture then child_fault ch else None) with
       | Some e => Raised e
       | None =>
           if check && negb (child_returncode ch =? 0)%Z
           then Raised (Exn CalledProcessError (cpe_str py c (child_returncode ch)))
           else Done {| cp_returncode := child_returncode ch;
                        cp_stdout := if capture then Some (captured ch) else None |}
       end
   end).

(** An attribute that is a string, or [None] without the method asked. *)
Definition str_attr (attr : string) (v : option string) : H string :=
  match v with
  | Some s => ret s
  | None => raise (none_has_no attr)
  end.

(** *** [get_connected_devices] (lines 344-358) *)

(** The body of the loop of lines 354-357, for one line. *)
Definition device_of_line (line : string) : list string :=
  let device_info := Py.split_char tab line in
  if (length device_info =? 2) && String.eqb (nth 1 device_info "") "device"
  then [nth 0 device_info ""]
  else [].

(** Lines 352-358: the devices that the output of [adb devices] lists. *)
Definition parse_devices (stdout : string) : list string :=
  let output_lines := Py.split_char newline (Py.strip stdout) in
  flat_map device_of_line (tl output_lines).

Definition adb_devices : call := Argv ["adb"; "devices"].

Definition get_connected_devices (py : pylib) (h : host) : H (list string) :=
  bind (subprocess_run py h adb_devices true false) (fun result =>
  bind (str_attr "strip" (cp_stdout result)) (fun stdout =>
  ret (parse_devices stdout))).

(** *** [check_device_online] (lines 360-376) *)

(** [True] is returned inside the [try] when the device is in the list;
    every other path ends at the [return False] of line 376. *)
Definition check_device_online (py : pylib) (h : host) (device_id : string)
  : H bool :=
  try_except
    (bind (get_connected_devices py h) (fun device_list =>
     ret (inb device_id device_list)))
    (fun e =>
       bind (logger_error ("检查设备状态时发生错误: " ++ exn_str e)) (fun _ =>
       ret false)).

(** *** [get_device_resolution] (lines 195-221) *)

(** The number of bytes of the character that starts with the byte [c]. *)
Definition char_width (c : ascii) : nat :=
  let b := Py.byte c in
  if b <? 192 then 1 else if b <? 224 then 2 else if b <? 240 then 3 else 4.

(** The longest run of decimal digits at the head of [s], as their values,
    with the rest of [s].  [fuel] bounds the number of digits; the length of
    [s] is always enough. *)
Fixpoint read_digits (py : pylib) (fuel : nat) (s : string)
  : list nat * string :=
  match fuel, s with
  | S fuel', String c _ =>
      match digit_value py (take (char_width c) s) with
      | Some d =>
          let r := read_digits py fuel' (drop (char_width c) s) in
          (d :: fst r, snd r)
      | None => ([], s)
      end
  | _, _ => ([], s)
  end.

(** [re.match(r'Physical size: (\d+)x(\d+)', line)]: the two groups, as
    the values of their digits.  An [x] is no digit, so the first group can
    only be the longest run of digits after the prefix, and the second, which
    nothing follows in the pattern, is the longest run after the [x]. *)
Definition match_physical_size (py : pylib) (line : string)
  : option (list nat * list nat) :=
  if Py.startswith "Physical size: " line then
    let after := drop 15 line in
    let w := read_digits py (String.length after) after in
    match fst w, snd w with
    | _ :: _, String c rest =>
        if Ascii.eqb c "x" then
          let h := read_digits py (String.length rest) rest in
          match fst h with
          | _ :: _ => Some (fst w, fst h)
          | [] => None
          end
        else None
    | _, _ => None
    end
  else None.

(** The number that a run of digits writes. *)
Definition digits_value (digits : list nat) : nat :=
  fold_left (fun acc d => 10 * acc + d) digits 0.

(** [int(s)] for a string of digits. *)
Definition py_int (py : pylib) (digits : list nat) : H Z :=
  match int_max_str_digits py with
  | Some limit =>
      if limit <? length digits
      then raise (Exn ValueError
                    ("Exceeds the limit (" ++ Py.str_nat limit
                     ++ " digits) for integer string conversion: value has "
                     ++ Py.str_nat (length digits)
                     ++ " digits; use sys.set_int_max_str_digits() to increase the limit"))
      else ret (Z.of_nat (digits_value digits))
  | None => ret (Z.of_nat (digits_value digits))
  end.

(** Whether [int()] takes the digits of [str(z)]. *)
Definition int_fits (py : pylib) (z : Z) : Prop :=
  match int_max_str_digits py with
  | Some limit => String.length (Py.str_int z) <= limit
  | None => True
  end.

(** The loop of lines 211-215: the first line that matches decides. *)
Fixpoint first_physical_size (py : pylib) (lines : list string)
  : option (list nat * list nat) :=
  match lines with
  | [] => None
  | line :: rest =>
      match match_physical_size py line with
      | Some m => Some m
      | None => first_physical_size py rest
      end
  end.

Definition wm_size_call (device_id : string) : call :=
  Argv ["adb"; "-s"; device_id; "shell"; "wm"; "size"].

Definition get_device_resolution (py : pylib) (h : host) (device_id : string)
  : H (option Z * option Z) :=
  try_except
    (bind (subprocess_run py h (wm_size_call device_id) true false)
       (fun result =>
     bind (str_attr "split" (cp_stdout result)) (fun stdout =>
     let output_lines := Py.split_char newline stdout in
     match first_physical_size py output_lines with
     | Some (width, height) =>
         bind (py_int py width) (fun w =>
         bind (py_int py height) (fun h' =>
         ret (Some w, Some h')))
     | None =>
         bind (logger_error "无法解析设备的屏幕分辨率") (fun _ =>
         ret (None, None))
     end)))
    (fun e =>
       bind (logger_error ("获取设备分辨率时发生错误: " ++ exn_str e)) (fun _ =>
       ret (None, None))).

(** *** [unlock_device_slide] (lines 235-253) *)

Definition swipe_call (device_id : string) (target : Z) : call :=
  Argv ["adb"; "-s"; device_id; "shell"; "input"; "swipe";
        "1"; Py.str_int (target - 100); "1"; "1"; "200"].

Definition unlock_device_slide (py : pylib) (h : host) (device_id : string)
    (width height : option Z) : H unit :=
  match width, height with
  | Some w, Some h' =>
      try_except
        (let target := Z.min w h' in
         bind (subprocess_run py h (swipe_call device_id target) false false)
           (fun _ =>
         logger_info ("设备 " ++ device_id ++ " 使用滑动解锁成功")))
        (fun e => logger_error ("解锁设备时发生错误: " ++ exn_str e))
  | _, _ =>
      logger_error ("设备 " ++ device_id ++ " 的屏幕宽度或高度无效，无法解锁")
  end.

(** *** [wake_up_and_unlock] (lines 223-233) *)

Definition stayon_call (device_id : string) : call :=
  Argv ["adb"; "-s"; device_id; "shell"; "svc"; "power"; "stayon"; "true"].

Definition wake_up_and_unlock (py : pylib) (h : host) (device_id : string)
  : H unit :=
  bind (get_device_resolution py h device_id) (fun size =>
  bind (subprocess_run py h (stayon_call device_id) true false) (fun _ =>
  bind (logger_info ("设备 " ++ device_id ++ " 已唤醒")) (fun _ =>
  unlock_device_slide py h device_id (fst size) (snd size)))).

(** *** [push_library] (lines 318-342) *)

(** The command of line 333 for one jar. *)
Definition jar_push_call (py : pylib) (base_file_path device_id jar_file : string)
  : call :=
  Shell ("adb -s " ++ device_id ++ " push "
         ++ path_join py base_file_path jar_file ++ " " ++ "/sdcard/").

(** The command of line 337. *)
Definition libs_push_call (py : pylib) (dir_path device_id : string) : call :=
  Argv ["adb"; "-s"; device_id; "push";
        path_join py (path_join py dir_path "FastBot") "libs";
        "/data/local/tmp/"].

(** [dir_path] is the directory of the script (line 325). *)
Definition push_library (py : pylib) (h : host) (dir_path device_id : string)
  : H bool :=
  let base_file_path := path_join py dir_path "FastBot" in
  try_except
    (bind (match listdir h base_file_path with
           | Ok names => ret names
           | Raise e => raise e
           end) (fun names =>
     let jar_files := filter (endswith ".jar") names in
     bind (for_each jar_files (fun jar_file =>
             bind (subprocess_run py h
                     (jar_push_call py base_file_path device_id jar_file)
                     false true) (fun _ => ret tt))) (fun _ =>
     bind (subprocess_run py h (libs_push_call py dir_path device_id)
             false true) (fun _ =>
     bind (logger_info "成功推送库文件") (fun _ =>
     ret true)))))
    (fun e =>
       bind (logger_error ("推送库文件失败: " ++ exn_str e)) (fun _ =>
       ret false)).

(** *** The script (lines 379-400), once the logger is set up *)

Definition device_id : string := "7NH26450903CG".

Definition main_class_path : string :=
  "/sdcard/monkeyq.jar:/sdcard/framework.jar:/sdcard/fastbot-thirdpart.jar".

Definition main (py : pylib) (h : host) (dir_path : string) : H unit :=
  bind (check_device_online py h device_id) (fun online =>
  if negb online then
    bind (logger_error ("设备 " ++ device_id ++ " 不在线")) (fun _ =>
    exit 0)
  else
    bind (push_library py h dir_path device_id) (fun _ =>
    bind (wake_up_and_unlock py h device_id) (fun _ =>
    lift_core (execute_adb_command (shell_of h) device_id main_class_path
                 "all" 5 500 1)))).

(** *** Reading a trace of the script *)

Definition runs (tr : list hevent) : list call :=
  flat_map (fun e => match e with Run c => [c] | _ => [] end) tr.

Definition hlog_lines (tr : list hevent) : list (level * string) :=
  flat_map (fun e => match e with HLog lv msg => [(lv, msg)] | _ => [] end) tr.

(** Whether a launch with [check=True] and no capture goes through. *)
Definition launch_ok (h : host) (c : call) : bool :=
  match launch h c with
  | Spawns ch => (child_returncode ch =? 0)%Z
  | SpawnFails _ => false
  end.

(** The calls up to and including the first one that does not go through. *)
Fixpoint until_failure (h : host) (cs : list call) : list call :=
  match cs with
  | [] => []
  | c :: cs' => if launch_ok h c then c :: until_failure h cs' else [c]
  end.

(** *** What [adb devices] prints *)

(** A field of the listing: not empty, of printable characters other than
    the space. *)
Definition plain_char (c : ascii) : bool :=
  (33 <=? Py.byte c) && (Py.byte c <=? 126).

Fixpoint all_chars (p : ascii -> bool) (s : string) : bool :=
  match s with
  | EmptyString => true
  | String c s' => p c && all_chars p s'
  end.

Definition all_plain (s : string) : bool := all_chars plain_char s.

Definition plain (s : string) : Prop := s <> EmptyString /\ all_plain s = true.

(** The line of a device: [serial<TAB>state]. *)
Definition device_line (e : string * string) : string :=
  (fst e ++ String tab (snd e))%string.

(** The header, the line of each device, and an empty line. *)
Definition devices_listing (entries : list (string * string)) : string :=
  ("List of devices attached" ++ String newline ""
   ++ String.concat ""
        (map (fun e => device_line e ++ String newline "") entries)
   ++ String newline "")%string.

(** The serials of the entries in state [device]. *)
Definition online (entries : list (string * string)) : list string :=
  map fst (filter (fun e => String.eqb (snd e) "device") entries).

(** *** Sample machines *)

(** The digits 0 to 9. *)
Definition ascii_digit (c : ascii) : option nat :=
  if (48 <=? Py.byte c) && (Py.byte c <=? 57)
  then Some (Py.byte c - 48)
  else None.

(** A library reads the one-byte characters as Python does. *)
Definition reads_ascii (py : pylib) : Prop :=
  forall c, Py.byte c < 128 -> digit_value py (String c EmptyString) = ascii_digit c.

(** A platform with [/] between the parts of a path, and no digit beyond
    0 to 9. *)
Definition posix : pylib :=
  {| path_join := fun a b => (a ++ "/" ++ b)%string;
     cpe_str := fun _ rc =>
       ("Command returned non-zero exit status " ++ Py.str_int rc ++ ".")%string;
     digit_value := fun ch =>
       match ch with
       | String c EmptyString => ascii_digit c
       | _ => None
       end;
     int_max_str_digits := Some 4300 |}.

(** A machine with the device of the script attached, 1080x2400, an offline
    second device, and two jars to push, the second of which fails. *)
Definition lab : host :=
  {| launch := fun c =>
       match c with
       | Argv ["adb"; "devices"] =>
           Spawns (Child [(Out, devices_listing [("7NH26450903CG", "device");
                                                 ("emulator-5554", "offline")])]
                         None 0)
       | Argv ["adb"; "-s"; _; "shell"; "wm"; "size"] =>
           Spawns (Child [(Out, ("Physical size: 1080x2400" ++ String newline ""
                                 ++ "Override size: 720x1600" ++ String newline "")%string)]
                         None 0)
       | Shell cmd =>
           if String.eqb cmd "adb -s 7NH26450903CG push /opt/FastBot/b.jar /sdcard/"
           then Spawns (Child [] None 1)
           else Spawns (Child [] None 0)
       | _ => Spawns (Child [] None 0)
       end;
     listdir := fun _ => Ok ["a.jar"; "notes.txt"; "b.jar"; "c.jar"] |}.

(** The same machine, where the swipe exits with status 1. *)
Definition locked : host :=
  {| launch := fun c =>
       match c with
       | Argv ("adb" :: "-s" :: _ :: "shell" :: "input" :: _) =>
           Spawns (Child [] None 1)
       | _ => launch lab c
       end;
     listdir := listdir lab |}.

(** The same machine, where what the stay-on command prints cannot be
    decoded. *)
Definition garbled : host :=
  {| launch := fun c =>
       match c with
       | Argv ("adb" :: "-s" :: _ :: "shell" :: "svc" :: _) =>
           Spawns (Child [(Out, String "255" "")]
                         (Some (Exn UnicodeDecodeError
                                  "'utf-8' codec can't decode byte 0xff in position 0: invalid start byte"))
                         0)
       | _ => launch lab c
       end;
     listdir := listdir lab |}.

(** A machine where every command prints nothing and exits with 0. *)
Definition blank : host :=
  {| launch := fun _ => Spawns (Child [] None 0);
     listdir := fun _ => Ok [] |}.

(** A machine where no command can be launched. *)
Definition no_adb : host :=
  {| launch := fun _ => SpawnFails (Exn OSError "[Errno 2] No such file or directory: 'adb'");
     listdir := fun _ => Raise (Exn OSError "[Errno 2] No such file or directory") |}.

End Host.

(** ** The logger: colours, the rotating file handler and the dispatch of a
    record (lines 15-94 and 140-193) *)

Module Logs.

(** *** Records and formatters *)

(** A [LogRecord], as far as the formatters read it.  [msg] is the one field
    that the code assigns; [asctime] stands for the creation time as
    [Formatter.formatTime] prints it. *)
Record record : Type := LogRecord {
  levelno : Z;
  msg : string;
  asctime : string
}.

(** [logging.DEBUG] and the others. *)
Definition level_no (lv : level) : Z :=
  match lv with
  | DEBUG => 10
  | INFO => 20
  | WARNING => 30
  | ERROR => 40
  | CRITICAL => 50
  end.

(** [logging.getLevelName]. *)
Definition levelname (no : Z) : string :=
  if (no =? 50)%Z then "CRITICAL"
  else if (no =? 40)%Z then "ERROR"
  else if (no =? 30)%Z then "WARNING"
  else if (no =? 20)%Z then "INFO"
  else if (no =? 10)%Z then "DEBUG"
  else if (no =? 0)%Z then "NOTSET"
  else ("Level " ++ Py.str_int no)%string.

(** The escape sequences of colorama. *)
Definition esc : string := String "027" "[".
Definition Fore_CYAN : string := (esc ++ "36m")%string.
Definition Fore_GREEN : string := (esc ++ "32m")%string.
Definition Fore_YELLOW : string := (esc ++ "33m")%string.
Definition Fore_RED : string := (esc ++ "31m")%string.
Definition Style_BRIGHT : string := (esc ++ "1m")%string.
Definition Style_RESET_ALL : string := (esc ++ "0m")%string.

(** [logging.Formatter('%(asctime)s - %(levelname)s - %(message)s').format];
    the message of a record logged without arguments is its [msg]. *)
Definition Formatter_format (r : record) : string :=
  (asctime r ++ " - " ++ levelname (levelno r) ++ " - " ++ msg r)%string.

(** The default formatter of a handler, ['%(message)s']. *)
Definition default_format (r : record) : string := msg r.

(** The formatter of [logging.basicConfig],
    ['%(levelname)s:%(name)s:%(message)s'], for the logger of line 153. *)
Definition logger_name : string := "device_test_logger".

Definition basic_format (r : record) : string :=
  (levelname (levelno r) ++ ":" ++ logger_name ++ ":" ++ msg r)%string.

Definition set_msg (r : record) (m : string) : record :=
  {| levelno := levelno r; msg := m; asctime := asctime r |}.

(** [ColorFormatter.format] (lines 19-30): the record it leaves, with [msg]
    assigned, and the line. *)
Definition ColorFormatter_format (r : record) : record * string :=
  let r' :=
    if (levelno r =? level_no DEBUG)%Z then
      set_msg r (Fore_CYAN ++ msg r ++ Style_RESET_ALL)
    else if (levelno r =? level_no INFO)%Z then
      set_msg r (Fore_GREEN ++ msg r ++ Style_RESET_ALL)
    else if (levelno r =? level_no WARNING)%Z then
      set_msg r (Fore_YELLOW ++ msg r ++ Style_RESET_ALL)
    else if (levelno r =? level_no ERROR)%Z then
      set_msg r (Fore_RED ++ msg r ++ Style_RESET_ALL)
    else if (levelno r =? level_no CRITICAL)%Z then
      set_msg r (Fore_RED ++ Style_BRIGHT ++ msg r ++ Style_RESET_ALL)
    else r in
  (r', Formatter_format r').

(** *** Effects *)

(** What the logger does to the outside. *)
Inductive lev : Type :=
  | Open (name : string)                   (* logging.FileHandler(name): mode 'a' *)
  | Close (name : string)
  | Append (name : string) (bytes : string)
  | Remove (name : string)                 (* os.remove *)
  | Stderr (bytes : string).               (* what a StreamHandler writes to
                                              sys.stderr, the stream that
                                              colorama wraps (line 13) *)

Definition L (A : Type) : Type := (list lev * result A)%type.

Definition ret {A : Type} (a : A) : L A := ([], Ok a).
Definition raise {A : Type} (e : exn) : L A := ([], Raise e).
Definition emits (e : lev) : L unit := ([e], Ok tt).

Definition bind {A B : Type} (m : L A) (k : A -> L B) : L B :=
  match snd m with
  | Ok a => (fst m ++ fst (k a), snd (k a))
  | Raise e => (fst m, Raise e)
  end.

(** What a call finds outside: the time, as
    [strftime('%Y-%m-%d_%H-%M-%S')] prints it; the files that the glob of
    line 65 yields, each with its [os.path.getctime]; and the files that
    [os.remove] fails on. *)
Record env : Type := Env {
  now : string;
  found : list (string * Z);
  remove_error : string -> option exn
}.

(** *** [TimedRotatingFileHandler] (lines 32-94) *)

(** The handler, and whether the root logger has a handler: the module-level
    [logging.info] of line 71 gives it one. *)
Record handler : Type := Handler {
  log_file : string;
  maxBytes : Z;
  maxFiles : Z;
  current_file : string;
  current_size : Z;
  formatter : option (record -> string);
  root_has_handler : bool
}.

(** [s.rsplit('.', 1)]: the part before the last dot and the part after it,
    or [s] alone. *)
Fixpoint rsplit_dot (s : string) : list string :=
  match s with
  | EmptyString => [EmptyString]
  | String c s' =>
      match rsplit_dot s' with
      | [base; ext] => [String c base; ext]
      | _ => if Ascii.eqb c "." then [EmptyString; s'] else [s]
      end
  end.

(** [_get_new_filename] (lines 46-50). *)
Definition get_new_filename (log_file now : string) : L string :=
  match rsplit_dot log_file with
  | [base; ext] => ret (base ++ "_" ++ now ++ "." ++ ext)%string
  | _ => raise (Exn ValueError "not enough values to unpack (expected 2, got 1)")
  end.

(** [sorted(..., key=os.path.getctime)]: the sort is stable. *)
Fixpoint insert_by_ctime (x : string * Z) (l : list (string * Z))
  : list (string * Z) :=
  match l with
  | [] => [x]
  | y :: l' =>
      if (snd x <=? snd y)%Z then x :: l else y :: insert_by_ctime x l'
  end.

Definition sorted_by_ctime (l : list (string * Z)) : list (string * Z) :=
  fold_right insert_by_ctime [] l.

(** The loop of lines 68-71.  [logging.info] goes to the root logger, whose
    level is WARNING: the line is not printed; but the call gives the root
    logger a handler when it has none.  With a negative [maxFiles] the loop
    goes on when the list is empty, and [pop] raises. *)
Fixpoint remove_oldest (e : env) (maxFiles : Z) (log_files : list (string * Z))
  : L nat :=
  match log_files with
  | [] =>
      if (maxFiles <? 0)%Z then raise (Exn IndexError "pop from empty list")
      else ret 0
  | oldest_file :: rest =>
      if (maxFiles <? Z.of_nat (length log_files))%Z then
        match remove_error e (fst oldest_file) with
        | Some err => raise err
        | None =>
            bind (emits (Remove (fst oldest_file))) (fun _ =>
            bind (remove_oldest e maxFiles rest) (fun n =>
            ret (S n)))
        end
      else ret 0
  end.

Definition basicConfig (h : handler) : handler :=
  {| log_file := log_file h; maxBytes := maxBytes h; maxFiles := maxFiles h;
     current_file := current_file h; current_size := current_size h;
     formatter := formatter h; root_has_handler := true |}.

(** [_manage_old_files] (lines 58-71); the root logger gets its handler at
    the first file removed. *)
Definition manage_old_files (h : handler) (e : env) : L handler :=
  let log_files := sorted_by_ctime (found e) in
  match remove_oldest e (maxFiles h) log_files with
  | (tr, Ok 0) => (tr, Ok h)
  | (tr, Ok (S _)) => (tr, Ok (basicConfig h))
  | (tr, Raise err) => (tr, Raise err)
  end.

(** [__init__] (lines 33-44), in a program where nothing has given the root
    logger a handler. *)
Definition init (log_file : string) (maxBytes maxFiles : Z) (e : env)
  : L handler :=
  bind (get_new_filename log_file (now e)) (fun name =>
  bind (emits (Open name)) (fun _ =>
  manage_old_files
    {| log_file := log_file; maxBytes := maxBytes; maxFiles := maxFiles;
       current_file := name; current_size := 0;
       formatter := None; root_has_handler := false |} e)).

(** [setFormatter]. *)
Definition setFormatter (h : handler) (f : record -> string) : handler :=
  {| log_file := log_file h; maxBytes := maxBytes h; maxFiles := maxFiles h;
     current_file := current_file h; current_size := current_size h;
     formatter := Some f; root_has_handler := root_has_handler h |}.

(** [Handler.format]: the formatter that was set, or the default one. *)
Definition format (h : handler) (r : record) : string :=
  match formatter h with
  | Some f => f r
  | None => default_format r
  end.

(** The rotation of lines 80-86. *)
Definition rotate (h : handler) (e : env) : L handler :=
  bind (emits (Close (current_file h))) (fun _ =>
  bind (get_new_filename (log_file h) (now e)) (fun name =>
  bind (emits (Open name)) (fun _ =>
  manage_old_files
    {| log_file := log_file h; maxBytes := maxBytes h; maxFiles := maxFiles h;
       current_file := name; current_size := 0;
       formatter := formatter h; root_has_handler := root_has_handler h |} e))).

(** [emit] (lines 73-89).  The file handler of line 54 writes the line of
    its own formatter and a line feed. *)
Definition emit (h : handler) (e : env) (r : record) : L handler :=
  let msg := format h r in
  let msg_size := (Z.of_nat (String.length msg) + 1)%Z in
  bind (if (maxBytes h <? current_size h + msg_size)%Z
        then rotate h e else ret h) (fun h1 =>
  bind (emits (Append (current_file h1)
                 (Formatter_format r ++ String "010" ""))) (fun _ =>
  ret {| log_file := log_file h1; maxBytes := maxBytes h1;
         maxFiles := maxFiles h1; current_file := current_file h1;
         current_size := (current_size h1 + msg_size)%Z;
         formatter := formatter h1;
         root_has_handler := root_has_handler h1 |})).

(** *** [setup_logger] (lines 140-193) and the dispatch of a record *)

(** The logger: its file handler with its level, and the level of its
    console handler. *)
Record logger : Type := Logger {
  file_handler : handler;
  file_level : Z;
  console_level : Z
}.

Definition setup_logger (log_file : string) (console_level file_level : Z)
    (e : env) : L logger :=
  bind (init log_file (10 * 1024 * 1024) 10 e) (fun h =>
  ret {| file_handler := setFormatter h Formatter_format;
         file_level := file_level;
         console_level := console_level |}).

(** [logger.log(levelno, msg)]: the logger, at level DEBUG, hands the record
    to its handlers in the order of lines 190-191, the file handler and then
    the console handler, and then to the handlers of the root logger. *)
Definition log (lg : logger) (e : env) (r : record) : L logger :=
  if (levelno r <? level_no DEBUG)%Z then ret lg
  else
    bind (if (levelno r <? file_level lg)%Z then ret (file_handler lg)
          else emit (file_handler lg) e r) (fun h =>
    let shown := ColorFormatter_format r in
    bind (if (levelno r <? console_level lg)%Z then ret r
          else bind (emits (Stderr (snd shown ++ String "010" ""))) (fun _ =>
               ret (fst shown))) (fun r1 =>
    bind (if root_has_handler h
          then emits (Stderr (basic_format r1 ++ String "010" ""))
          else ret tt) (fun _ =>
    ret {| file_handler := h;
           file_level := file_level lg;
           console_level := console_level lg |}))).

(** Records logged one after the other, each with what it finds outside. *)
Fixpoint log_all (lg : logger) (l : list (env * record)) : L logger :=
  match l with
  | [] => ret lg
  | (e, r) :: l' => bind (log lg e r) (fun lg' => log_all lg' l')
  end.

(** *** Reading a trace *)

(** The number of bytes that a trace appends to the file [name] after it
    opened it last, from [acc] bytes. *)
Fixpoint appended_since_open (name : string) (tr : list lev) (acc : Z) : Z :=
  match tr with
  | [] => acc
  | Open n :: tr' =>
      appended_since_open name tr' (if String.eqb n name then 0%Z else acc)
  | Append n bytes :: tr' =>
      appended_since_open name tr'
        (if String.eqb n name
         then (acc + Z.of_nat (String.length bytes))%Z else acc)
  | _ :: tr' => appended_since_open name tr' acc
  end.

Definition removed (tr : list lev) : list string :=
  flat_map (fun e => match e with Remove n => [n] | _ => [] end) tr.

Definition stderr_lines (tr : list lev) : list string :=
  flat_map (fun e => match e with Stderr b => [b] | _ => [] end) tr.

Definition appended (tr : list lev) : list (string * string) :=
  flat_map (fun e => match e with Append n b => [(n, b)] | _ => [] end) tr.

(** *** Sample surroundings *)

(** An empty directory. *)
Definition fresh (stamp : string) : env :=
  {| now := stamp; found := []; remove_error := fun _ => None |}.

(** A directory with the log files of twelve earlier runs, and the one
    just opened. *)
Definition crowded (stamp : string) : env :=
  {| now := stamp;
     found := (("device_test_" ++ stamp ++ ".log")%string, 13%Z)
              :: map (fun n => (("device_test_" ++ Py.str_nat n ++ ".log")%string,
                                Z.of_nat n)) (seq 1 12);
     remove_error := fun _ => None |}.

Definition hello : record :=
  {| levelno := 20; msg := "hello"; asctime := "2025-01-01 10:00:00,000" |}.

End Logs.
(** * Properties *)

(** ** The Python built-ins on sample inputs *)

Example utf8_literal : String.length "包名" = 6.
Proof. reflexivity. Qed.

Example splitlines_ex :
  Py.splitlines ("package:com.a" ++ String "013" (String "010" "package:com.b")
                 ++ String "010" "")%string = ["package:com.a"; "package:com.b"].
Proof. reflexivity. Qed.

Example strip_ex : Py.strip ("  a b" ++ String "010" "")%string = "a b".
Proof. reflexivity. Qed.

Example text_lines_ex :
  Py.text_lines ("a" ++ String "013" (String "010" "b") ++ String "013" "c"
                 ++ String "010" "d")%string
  = [("a" ++ String "010" "")%string; ("b" ++ String "010" "")%string;
     ("c" ++ String "010" "")%string; "d"].
Proof. reflexivity. Qed.

Example div1000_ex :
  option_map Py.str_float (Py.div1000 500) = Some "0.5"
  /\ option_map Py.str_float (Py.div1000 1000) = Some "1.0"
  /\ option_map Py.str_float (Py.div1000 (-1250)) = Some "-1.25"
  /\ option_map Py.str_float (Py.div1000 0) = Some "0.0"
  /\ option_map Py.str_float (Py.div1000 12001) = Some "12.001"
  /\ option_map Py.str_float (Py.div1000 (10 ^ 18 + 1)) = Some "1000000000000000.0"
  /\ option_map Py.str_float (Py.div1000 (123456789 * 10 ^ 20)) = Some "1.23456789e+25"
  /\ Py.div1000 (10 ^ 400) = None.
Proof. vm_compute. repeat split. Qed.

Example utf8_ex : Py.utf8_valid "包名 ok" = true /\ Py.utf8_valid (String "255" "") = false.
Proof. split; reflexivity. Qed.

(** ** The monad *)

Lemma for_each_map {A B : Type} (f : A -> B) (l : list A) (body : B -> M unit) :
  for_each (map f l) body = for_each l (fun x => body (f x)).
Proof.
  induction l as [|x l IH]; simpl; [reflexivity|].
  now rewrite IH.
Qed.

Lemma fst_bind {A B : Type} (m : M A) (k : A -> M B) (a : A) :
  snd m = Ok a -> fst (bind m k) = fst m ++ fst (k a).
Proof. unfold bind; intros ->; reflexivity. Qed.

Lemma snd_bind {A B : Type} (m : M A) (k : A -> M B) (a : A) :
  snd m = Ok a -> snd (bind m k) = snd (k a).
Proof. unfold bind; intros ->; reflexivity. Qed.

Lemma bind_raise {A B : Type} (m : M A) (k : A -> M B) (e : exn) :
  snd m = Raise e -> bind m k = (fst m, Raise e).
Proof. unfold bind; intros ->; reflexivity. Qed.

(** ** The batching (lines 306-310) *)

Section Batching.

Variable bsize : nat.
Hypothesis bsize_pos : 0 < bsize.

Lemma ceil_div_0 : ceil_div 0 bsize = 0.
Proof.
  unfold ceil_div. apply Nat.div_small. lia.
Qed.

Lemma ceil_div_step (m : nat) :
  0 < m -> ceil_div m bsize = S (ceil_div (m - bsize) bsize).
Proof.
  intros Hm. unfold ceil_div.
  destruct (le_lt_dec bsize m) as [Hle|Hlt].
  - replace (m + bsize - 1) with ((m - bsize + bsize - 1) + 1 * bsize) by lia.
    rewrite Nat.div_add by lia. lia.
  - replace (m - bsize) with 0 by lia.
    replace (0 + bsize - 1) with (bsize - 1) by lia.
    rewrite (Nat.div_small (bsize - 1)) by lia.
    replace (m + bsize - 1) with ((m - 1) + 1 * bsize) by lia.
    rewrite Nat.div_add by lia.
    rewrite Nat.div_small by lia. reflexivity.
Qed.

(** [ceil_div n bsize] is the least [k] with [n <= k * bsize]. *)
Lemma ceil_div_is_ceiling (n k : nat) :
  ceil_div n bsize <= k <-> n <= k * bsize.
Proof.
  revert n. induction k as [|k IH]; intros n.
  - destruct n as [|n].
    + rewrite ceil_div_0. lia.
    + rewrite ceil_div_step by lia. lia.
  - destruct n as [|n].
    + rewrite ceil_div_0. lia.
    + rewrite ceil_div_step by lia.
      specialize (IH (S n - bsize)). rewrite Nat.mul_succ_l. lia.
Qed.

Lemma div_lt_ceil_div (n i : nat) : i < n -> i / bsize < ceil_div n bsize.
Proof.
  intros Hi.
  destruct (le_lt_dec (ceil_div n bsize) (i / bsize)) as [Hle|]; [|assumption].
  apply ceil_div_is_ceiling in Hle.
  pose proof (Nat.div_mod_eq i bsize) as E.
  pose proof (Nat.mod_upper_bound i bsize ltac:(lia)) as U.
  nia.
Qed.

(** The indices of [range(start, stop, bsize)]. *)
Lemma range_from_eq (fuel start stop : nat) :
  stop - start <= fuel ->
  Py.range_from fuel start stop bsize
  = map (fun k => start + k * bsize) (seq 0 (ceil_div (stop - start) bsize)).
Proof.
  revert start. induction fuel as [|fuel IH]; intros start Hfuel; simpl.
  - replace (stop - start) with 0 by lia. now rewrite ceil_div_0.
  - destruct (Nat.ltb_spec start stop) as [Hlt|Hge].
    + rewrite ceil_div_step by lia.
      rewrite IH by lia.
      replace (stop - (start + bsize)) with (stop - start - bsize) by lia.
      simpl. f_equal; [lia|].
      rewrite <- seq_shift, map_map.
      apply map_ext. intros k. simpl. lia.
    + replace (stop - start) with 0 by lia. now rewrite ceil_div_0.
Qed.

Lemma range_eq (stop : nat) :
  Py.range 0 stop bsize = map (fun k => k * bsize) (seq 0 (ceil_div stop bsize)).
Proof.
  unfold Py.range. rewrite range_from_eq by lia.
  now rewrite Nat.sub_0_r.
Qed.

Context {A : Type}.
Variable packages : list A.

Lemma batches_of_length :
  length (batches_of bsize packages) = ceil_div (length packages) bsize.
Proof.
  unfold batches_of. rewrite range_eq.
  now rewrite !length_map, length_seq.
Qed.

Lemma batch_at_length (i : nat) :
  length (batch_at bsize packages i) = Nat.min bsize (length packages - i).
Proof.
  unfold batch_at, Py.slice.
  rewrite length_firstn, length_skipn.
  replace (i + bsize - i) with bsize by lia. reflexivity.
Qed.

Lemma batches_of_bounds :
  Forall (fun b => 1 <= length b <= bsize) (batches_of bsize packages).
Proof.
  unfold batches_of. rewrite range_eq.
  apply Forall_forall. intros b Hb.
  apply in_map_iff in Hb as [i [<- Hi]].
  apply in_map_iff in Hi as [k [<- Hk]].
  apply in_seq in Hk. rewrite batch_at_length.
  assert (k * bsize < length packages).
  { destruct (le_lt_dec (length packages) (k * bsize)) as [Hle|]; [|assumption].
    apply ceil_div_is_ceiling in Hle. lia. }
  lia.
Qed.

Lemma concat_batches_from (fuel start : nat) :
  length packages - start <= fuel ->
  concat (map (batch_at bsize packages)
              (Py.range_from fuel start (length packages) bsize))
  = skipn start packages.
Proof.
  revert start. induction fuel as [|fuel IH]; intros start Hfuel; simpl.
  - symmetry. apply skipn_all2. lia.
  - destruct (Nat.ltb_spec start (length packages)) as [Hlt|Hge]; simpl.
    + rewrite IH by lia.
      unfold batch_at, Py.slice.
      replace (start + bsize - start) with bsize by lia.
      rewrite (Nat.add_comm start bsize), <- skipn_skipn.
      apply firstn_skipn.
    + symmetry. now apply skipn_all2.
Qed.

Lemma concat_batches_of : concat (batches_of bsize packages) = packages.
Proof.
  unfold batches_of, Py.range.
  now rewrite concat_batches_from by lia.
Qed.

(** The package at index [i] is at offset [i mod bsize] of batch [i / bsize]. *)
Lemma batches_of_position (i : nat) :
  i < length packages ->
  nth_error (nth (i / bsize) (batches_of bsize packages) []) (i mod bsize)
  = nth_error packages i.
Proof.
  intros Hi. unfold batches_of. rewrite range_eq, map_map.
  pose proof (div_lt_ceil_div _ _ Hi) as Hk.
  rewrite (nth_indep _ [] (batch_at bsize packages (0 * bsize)))
    by now rewrite length_map, length_seq.
  rewrite (map_nth (fun k => batch_at bsize packages (k * bsize))).
  rewrite seq_nth by assumption. simpl.
  unfold batch_at, Py.slice.
  replace (i / bsize * bsize + bsize - i / bsize * bsize) with bsize by lia.
  rewrite nth_error_firstn.
  pose proof (Nat.mod_upper_bound i bsize ltac:(lia)) as U.
  destruct (Nat.ltb_spec (i mod bsize) bsize); [|lia].
  rewrite nth_error_skipn. f_equal.
  pose proof (Nat.div_mod_eq i bsize). lia.
Qed.

End Batching.

Lemma run_batches_over_batches sh device class_path minutes throttle packages :
  run_batches sh device class_path minutes throttle packages
  = for_each (batches packages)
      (process_batch sh device class_path minutes throttle).
Proof.
  unfold run_batches, batches, batches_of.
  now rewrite for_each_map.
Qed.

Example batches_five : batches [1; 2; 3; 4; 5] = [[1; 2; 3; 4]; [5]].
Proof. reflexivity. Qed.

Example batches_eight :
  batches [1; 2; 3; 4; 5; 6; 7; 8] = [[1; 2; 3; 4]; [5; 6; 7; 8]].
Proof. reflexivity. Qed.

(** C1. The loop of [execute_adb_command] cuts the package list into
    ceil(N/4) batches, each of one to four packages, whose concatenation in
    processing order is the list itself: the package at index [i] is at offset
    [i mod 4] of batch [i / 4], so it is in exactly one batch, none is left
    out and the order is kept; and the loop runs its body once for each of
    these batches, in this order. *)
Theorem batches_partition (packages : list string) :
  length (batches packages) = ceil_div (length packages) batch_size
  /\ Forall (fun b => 1 <= length b <= batch_size) (batches packages)
  /\ concat (batches packages) = packages
  /\ (forall i, i < length packages ->
        nth_error (nth (i / batch_size) (batches packages) []) (i mod batch_size)
        = nth_error packages i)
  /\ (forall sh device class_path minutes throttle,
        run_batches sh device class_path minutes throttle packages
        = for_each (batches packages)
            (process_batch sh device class_path minutes throttle)).
Proof.
  assert (Hpos : 0 < batch_size) by (unfold batch_size; lia).
  repeat split.
  - now apply batches_of_length.
  - now apply batches_of_bounds.
  - now apply concat_batches_of.
  - intros i Hi. now apply batches_of_position.
  - intros. apply run_batches_over_batches.
Qed.

(** ** [run_monkey_command] (lines 268-293) *)

Lemma for_each_logger_info {A : Type} (f : A -> string) (l : list A) :
  for_each l (fun x => logger_info (f x))
  = (map (fun x => Log INFO (f x)) l, Ok tt).
Proof.
  induction l as [|x l IH]; simpl; [reflexivity|].
  rewrite IH. reflexivity.
Qed.

Lemma for_line_in_logger_info (f : string -> string) pieces fault :
  for_line_in (Some pieces) fault (fun line => logger_info (f line))
  = (map (fun line => Log INFO (f line))
         (Py.text_lines (String.concat "" pieces)),
     match fault with Some e => Raise e | None => Ok tt end).
Proof.
  unfold for_line_in. rewrite for_each_logger_info.
  destruct fault; unfold bind; simpl; now rewrite ?app_nil_r.
Qed.

Lemma bind_Ok {A B : Type} (tr : list event) (a : A) (k : A -> M B) :
  bind (tr, Ok a) k = (tr ++ fst (k a), snd (k a)).
Proof. reflexivity. Qed.

Lemma bind_Raise {A B : Type} (tr : list event) (e : exn) (k : A -> M B) :
  bind (tr, Raise e) k = (tr, Raise e).
Proof. reflexivity. Qed.

Lemma logger_info_then {A : Type} (msg : string) (k : M A) :
  (logger_info msg ;; k) = (Log INFO msg :: fst k, snd k).
Proof. reflexivity. Qed.

Lemma try_except_Ok {A : Type} (tr : list event) (a : A) (h1 h2 : exn -> M A) :
  try_except (tr, Ok a) h1 h2 = (tr, Ok a).
Proof. reflexivity. Qed.

Lemma try_except_Raise {A : Type} (tr : list event) (e : exn) (h1 h2 : exn -> M A) :
  try_except (tr, Raise e) h1 h2
  = match exn_cls e with
    | CalledProcessError => (tr ++ fst (h1 e), snd (h1 e))
    | _ => (tr ++ fst (h2 e), snd (h2 e))
    end.
Proof. reflexivity. Qed.

(** When [throttle / 1000] is beyond the floats, line 272 raises before the
    [try]: the call logs the command line, launches nothing and raises
    [OverflowError]. *)
Lemma run_monkey_command_overflow sh device class_path package_name minutes throttle :
  Py.div1000 throttle = None ->
  run_monkey_command sh device class_path package_name minutes throttle
  = ([Log INFO ("执行命令: "
                ++ monkey_cmd device class_path package_name minutes throttle)],
     Raise (Exn OverflowError "integer division result too large for a float")).
Proof.
  intros Hdiv. unfold run_monkey_command, div_1000. rewrite Hdiv.
  reflexivity.
Qed.

(** The whole of a call once lines 269-272 went through: two lines of log,
    the launch, and what follows. *)
Lemma run_monkey_command_trace sh device class_path package_name minutes throttle
    interval :
  Py.div1000 throttle = Some interval ->
  let cmd := monkey_cmd device class_path package_name minutes throttle in
  run_monkey_command sh device class_path package_name minutes throttle
  = (Log INFO ("执行命令: " ++ cmd)
     :: Log INFO ("脚本运行时长(分): " ++ Py.str_int minutes
                  ++ ", 执行间隔(秒): " ++ Py.str_float interval)
     :: Exec cmd
     :: outcome_events package_name (sh cmd),
     Ok tt).
Proof.
  intros Hdiv cmd. unfold run_monkey_command, div_1000. fold cmd.
  rewrite Hdiv. unfold ret at 1. rewrite logger_info_then, bind_Ok.
  cbn [fst snd app]. rewrite logger_info_then.
  unfold outcome_events, report, Popen.
  destruct (sh cmd) as [e|c].
  - rewrite bind_Raise, try_except_Raise.
    destruct (exn_cls e); reflexivity.
  - rewrite bind_Ok.
    cbn [proc_stdout proc_stderr proc_fault proc_returncode].
    rewrite for_line_in_logger_info.
    destruct (child_fault c) as [e|].
    + rewrite bind_Raise. cbn [fst snd]. rewrite try_except_Raise.
      destruct (exn_cls e); rewrite ?logger_info_then;
        cbn [fst snd app logger_error]; now rewrite <- ?app_assoc.
    + rewrite bind_Ok.
      destruct (child_returncode c =? 0)%Z; cbn [negb].
      * cbn [fst snd logger_info]. rewrite try_except_Ok. reflexivity.
      * unfold stream_read, raise. rewrite bind_Raise.
        cbn [fst snd]. rewrite try_except_Raise.
        rewrite ?logger_info_then.
        cbn [fst snd app none_has_no exn_cls logger_error].
        now rewrite app_nil_r, <- ?app_assoc.
Qed.

Lemma run_monkey_command_returns sh device class_path package_name minutes throttle
    interval :
  Py.div1000 throttle = Some interval ->
  snd (run_monkey_command sh device class_path package_name minutes throttle)
  = Ok tt.
Proof. intros Hdiv. now rewrite (run_monkey_command_trace _ _ _ _ _ _ _ Hdiv). Qed.

Lemma execs_app (a b : list event) : execs (a ++ b) = execs a ++ execs b.
Proof. apply flat_map_app. Qed.

Lemma sleeps_app (a b : list event) : sleeps (a ++ b) = sleeps a ++ sleeps b.
Proof. apply flat_map_app. Qed.

Lemma error_lines_app (a b : list event) :
  error_lines (a ++ b) = error_lines a ++ error_lines b.
Proof. apply flat_map_app. Qed.

Lemma log_lines_app (a b : list event) :
  log_lines (a ++ b) = log_lines a ++ log_lines b.
Proof. apply flat_map_app. Qed.

Lemma info_lines_quiet {A : Type} (f : A -> string) (l : list A) :
  execs (map (fun x => Log INFO (f x)) l) = []
  /\ sleeps (map (fun x => Log INFO (f x)) l) = []
  /\ error_lines (map (fun x => Log INFO (f x)) l) = [].
Proof.
  induction l as [|x l [IH1 [IH2 IH3]]]; simpl; auto.
Qed.

Lemma outcome_events_quiet package_name s :
  execs (outcome_events package_name s) = []
  /\ sleeps (outcome_events package_name s) = [].
Proof.
  unfold outcome_events.
  destruct s as [e|c]; [split; reflexivity|].
  rewrite execs_app, sleeps_app.
  destruct (info_lines_quiet Py.strip
              (Py.text_lines (String.concat "" (piped_stdout STDOUT c)))) as [-> [-> _]].
  destruct (child_fault c); [split; reflexivity|].
  destruct (child_returncode c =? 0)%Z; split; reflexivity.
Qed.

(** A failed run logs exactly one line at ERROR. *)
Lemma outcome_events_error package_name s :
  run_fails s -> exists msg, error_lines (outcome_events package_name s) = [msg].
Proof.
  unfold outcome_events, run_fails.
  destruct s as [e|c]; intros H.
  - eexists. reflexivity.
  - rewrite error_lines_app.
    destruct (info_lines_quiet Py.strip
              (Py.text_lines (String.concat "" (piped_stdout STDOUT c)))) as [_ [_ ->]].
    destruct (child_fault c) as [e|].
    + eexists. reflexivity.
    + destruct (Z.eqb_spec (child_returncode c) 0) as [E|_].
      * destruct H as [H|H]; [now elim H | now elim H].
      * eexists. reflexivity.
Qed.

Lemma run_monkey_command_execs sh device class_path package_name minutes throttle
    interval :
  Py.div1000 throttle = Some interval ->
  execs (fst (run_monkey_command sh device class_path package_name minutes throttle))
  = [monkey_cmd device class_path package_name minutes throttle].
Proof.
  intros Hdiv. rewrite (run_monkey_command_trace _ _ _ _ _ _ _ Hdiv).
  cbn [fst]. change (?a :: ?b :: ?c :: ?d) with ([a; b; c] ++ d).
  rewrite execs_app. cbn [execs flat_map app].
  now destruct (outcome_events_quiet package_name
    (sh (monkey_cmd device class_path package_name minutes throttle))) as [-> _].
Qed.

Lemma run_monkey_command_sleeps sh device class_path package_name minutes throttle
    interval :
  Py.div1000 throttle = Some interval ->
  sleeps (fst (run_monkey_command sh device class_path package_name minutes throttle))
  = [].
Proof.
  intros Hdiv. rewrite (run_monkey_command_trace _ _ _ _ _ _ _ Hdiv).
  cbn [fst]. change (?a :: ?b :: ?c :: ?d) with ([a; b; c] ++ d).
  rewrite sleeps_app. cbn [sleeps flat_map app].
  now destruct (outcome_events_quiet package_name
    (sh (monkey_cmd device class_path package_name minutes throttle))) as [_ ->].
Qed.

(** ** The loop of [execute_adb_command] (lines 309-316) *)

Section Loop.

Variable sh : shell.
Variables device class_path : string.
Variables minutes throttle : Z.

(** Lines 269-272 go through: [throttle / 1000] is a float. *)
Variable interval : Py.float.
Hypothesis Hdiv : Py.div1000 throttle = Some interval.

Let call (package : string) : M unit :=
  run_monkey_command sh device class_path package minutes throttle.

Lemma call_returns (package : string) : snd (call package) = Ok tt.
Proof. unfold call. exact (run_monkey_command_returns _ _ _ _ _ _ _ Hdiv). Qed.

Lemma call_execs (package : string) :
  execs (fst (call package))
  = [monkey_cmd device class_path package minutes throttle].
Proof. unfold call. exact (run_monkey_command_execs _ _ _ _ _ _ _ Hdiv). Qed.

Lemma call_sleeps (package : string) : sleeps (fst (call package)) = [].
Proof. unfold call. exact (run_monkey_command_sleeps _ _ _ _ _ _ _ Hdiv). Qed.

(** The futures of a batch all hold a normal return. *)
Lemma submit_batch (batch : list string) :
  list_comp batch (fun package => submit (call package))
  = (concat (map (fun package => fst (call package)) batch),
     Ok (map (fun _ => Ok tt) batch)).
Proof.
  induction batch as [|p batch IH]; cbn [list_comp map concat]; [reflexivity|].
  rewrite IH. unfold submit at 1. rewrite !bind_Ok.
  cbn [ret fst snd]. rewrite call_returns. now rewrite app_nil_r.
Qed.

Lemma join_batch {A : Type} (batch : list A) :
  for_each (map (fun _ => Ok tt) batch) future_result = ([], Ok tt).
Proof.
  induction batch as [|p batch IH]; cbn [map for_each]; [reflexivity|].
  now rewrite IH.
Qed.

Lemma process_batch_trace (batch : list string) :
  process_batch sh device class_path minutes throttle batch
  = (map (fun package => Log INFO ("正在执行包名：" ++ package)) batch
     ++ concat (map (fun package => fst (call package)) batch)
     ++ [Sleep delay],
     Ok tt).
Proof.
  unfold process_batch. rewrite for_each_logger_info.
  fold call. rewrite submit_batch, !bind_Ok.
  rewrite join_batch, bind_Ok.
  reflexivity.
Qed.

Lemma for_each_batches (bs : list (list string)) :
  for_each bs (process_batch sh device class_path minutes throttle)
  = (concat (map (fun batch =>
                    fst (process_batch sh device class_path minutes throttle batch))
                 bs),
     Ok tt).
Proof.
  induction bs as [|b bs IH]; cbn [for_each map concat]; [reflexivity|].
  rewrite IH. unfold bind. now rewrite process_batch_trace.
Qed.

Lemma run_batches_returns (packages : list string) :
  snd (run_batches sh device class_path minutes throttle packages) = Ok tt.
Proof.
  now rewrite run_batches_over_batches, for_each_batches.
Qed.

Lemma execs_calls (l : list string) :
  execs (concat (map (fun package => fst (call package)) l))
  = map (fun package => monkey_cmd device class_path package minutes throttle) l.
Proof.
  induction l as [|p l IH]; cbn [map concat]; [reflexivity|].
  now rewrite execs_app, IH, call_execs.
Qed.

Lemma sleeps_calls (l : list string) :
  sleeps (concat (map (fun package => fst (call package)) l)) = [].
Proof.
  induction l as [|p l IH]; cbn [map concat]; [reflexivity|].
  now rewrite sleeps_app, IH, call_sleeps.
Qed.

Lemma process_batch_execs (batch : list string) :
  execs (fst (process_batch sh device class_path minutes throttle batch))
  = map (fun package => monkey_cmd device class_path package minutes throttle) batch.
Proof.
  rewrite process_batch_trace. cbn [fst].
  rewrite !execs_app, execs_calls.
  pose proof (info_lines_quiet (fun package => "正在执行包名：" ++ package)%string batch)
    as [E _].
  cbv beta in E. rewrite E.
  cbn [execs flat_map app]. now rewrite app_nil_r.
Qed.

Lemma process_batch_sleeps (batch : list string) :
  sleeps (fst (process_batch sh device class_path minutes throttle batch)) = [delay].
Proof.
  rewrite process_batch_trace. cbn [fst].
  rewrite !sleeps_app, sleeps_calls.
  pose proof (info_lines_quiet (fun package => "正在执行包名：" ++ package)%string batch)
    as [_ [E _]].
  cbv beta in E. rewrite E. reflexivity.
Qed.

(** Every package is run, in the order of the list, whatever the runs do. *)
Lemma run_batches_execs (packages : list string) :
  execs (fst (run_batches sh device class_path minutes throttle packages))
  = map (fun package => monkey_cmd device class_path package minutes throttle)
        packages.
Proof.
  rewrite run_batches_over_batches, for_each_batches. cbn [fst].
  rewrite <- (concat_batches_of batch_size ltac:(unfold batch_size; lia) packages)
    at 2.
  fold (batches packages).
  induction (batches packages) as [|b bs IH]; simpl; [reflexivity|].
  now rewrite execs_app, map_app, IH, process_batch_execs.
Qed.

(** One sleep for each batch. *)
Lemma run_batches_sleeps (packages : list string) :
  sleeps (fst (run_batches sh device class_path minutes throttle packages))
  = repeat delay (length (batches packages)).
Proof.
  rewrite run_batches_over_batches, for_each_batches. cbn [fst].
  induction (batches packages) as [|b bs IH]; simpl; [reflexivity|].
  now rewrite sleeps_app, IH, process_batch_sleeps.
Qed.

(** The events of each call are part of the trace of the loop. *)
Lemma run_batches_contains (packages : list string) (package : string) (e : event) :
  In package packages -> In e (fst (call package)) ->
  In e (fst (run_batches sh device class_path minutes throttle packages)).
Proof.
  intros Hp He.
  rewrite run_batches_over_batches, for_each_batches. cbn [fst].
  rewrite <- (concat_batches_of batch_size ltac:(unfold batch_size; lia) packages)
    in Hp.
  fold (batches packages) in Hp.
  apply in_concat in Hp as [b [Hb Hpb]].
  apply in_concat. exists (fst (process_batch sh device class_path minutes throttle b)).
  split.
  { now apply (in_map (fun batch =>
      fst (process_batch sh device class_path minutes throttle batch))). }
  rewrite process_batch_trace. cbn [fst].
  apply in_or_app; right. apply in_or_app; left.
  apply in_concat. exists (fst (call package)). split; [|assumption].
  now apply (in_map (fun package => fst (call package))).
Qed.

(** The trace of the loop ends with the sleep of the last batch. *)
Lemma run_batches_ends_asleep (packages : list string) :
  packages <> [] ->
  exists tr,
    fst (run_batches sh device class_path minutes throttle packages)
    = tr ++ [Sleep delay].
Proof.
  intros Hne.
  rewrite run_batches_over_batches, for_each_batches. cbn [fst].
  assert (Hb : batches packages <> []).
  { intros E. apply Hne.
    rewrite <- (concat_batches_of batch_size ltac:(unfold batch_size; lia) packages).
    fold (batches packages). now rewrite E. }
  destruct (exists_last Hb) as [bs [b ->]].
  rewrite map_app, concat_app. simpl.
  rewrite process_batch_trace. cbn [fst].
  rewrite app_nil_r.
  eexists. now rewrite !app_assoc.
Qed.

End Loop.

(** ** Failures of single runs *)

Example one_failure_among_two :
  execute_adb_command two_packages "D1" "A:B:C" "all" 5 500 1
  = ([Exec "adb -s D1 shell pm list packages";
      Log INFO "设备上共安装了 2 个包";
      Log INFO "正在执行包名：com.a";
      Log INFO "正在执行包名：com.b";
      Log INFO ("执行命令: " ++ monkey_cmd "D1" "A:B:C" "com.a" 5 500);
      Log INFO "脚本运行时长(分): 5, 执行间隔(秒): 0.5";
      Exec (monkey_cmd "D1" "A:B:C" "com.a" 5 500);
      Log INFO "// Monkey";
      Log INFO "boom";
      Log ERROR "未知错误: 'NoneType' object has no attribute 'read'";
      Log INFO ("执行命令: " ++ monkey_cmd "D1" "A:B:C" "com.b" 5 500);
      Log INFO "脚本运行时长(分): 5, 执行间隔(秒): 0.5";
      Exec (monkey_cmd "D1" "A:B:C" "com.b" 5 500);
      Log INFO "// Monkey";
      Log INFO "包名 com.b 执行完成";
      Sleep 10],
     Ok tt).
Proof. vm_compute. reflexivity. Qed.

(** An exception does leave [execute_adb_command] when it arises outside
    [run_monkey_command]: here the pool refuses its bound. *)
Example pool_bound_zero_raises :
  execute_adb_command two_packages "D1" "A:B:C" "all" 5 500 0
  = ([], Raise (Exn ValueError "max_workers must be greater than 0")).
Proof. reflexivity. Qed.

(** When [throttle / 1000] is beyond the floats no run is launched: the
    call raises at line 272, before its [try]; [future.result()] raises the
    exception again and it leaves [execute_adb_command]. *)
Example overflow_leaves_the_loop :
  Py.div1000 (10 ^ 400) = None
  /\ execute_adb_command two_packages "D1" "A:B:C" "com.x" 5 (10 ^ 400) 1
     = ([Log INFO "设备上共安装了 1 个包";
         Log INFO "正在执行包名：com.x";
         Log INFO ("执行命令: " ++ monkey_cmd "D1" "A:B:C" "com.x" 5 (10 ^ 400))],
        Raise (Exn OverflowError
                 "integer division result too large for a float")).
Proof. split; vm_compute; reflexivity. Qed.

(** C3. A run presupposes that lines 269-272 went through, that is that
    [throttle / 1000] is a float.  Then a run that fails (the command cannot
    be launched, the reading of its output breaks, or the exit status is not
    0) raises nothing out of [run_monkey_command]: the call returns, with
    one line logged at ERROR.  So the loop goes through every batch: it
    returns normally and has launched the command of every package of the
    list, in order, whatever the single runs did; and the events of every
    call, among them the line that reports a run that ended well, are in the
    trace of the loop. *)
Theorem failure_isolation (sh : shell) (device class_path : string)
    (minutes throttle : Z) (interval : Py.float) :
  Py.div1000 throttle = Some interval ->
  (forall package,
     snd (run_monkey_command sh device class_path package minutes throttle)
     = Ok tt)
  /\ (forall package,
        run_fails (sh (monkey_cmd device class_path package minutes throttle)) ->
        exists msg,
          error_lines
            (fst (run_monkey_command sh device class_path package minutes throttle))
          = [msg])
  /\ (forall packages,
        snd (run_batches sh device class_path minutes throttle packages) = Ok tt
        /\ execs (fst (run_batches sh device class_path minutes throttle packages))
           = map (fun package =>
                    monkey_cmd device class_path package minutes throttle)
                 packages
        /\ forall package e,
             In package packages ->
             In e (fst (run_monkey_command sh device class_path package
                          minutes throttle)) ->
             In e (fst (run_batches sh device class_path minutes throttle
                          packages))).
Proof.
  intros Hdiv. split; [|split].
  - intros package. exact (run_monkey_command_returns _ _ _ _ _ _ _ Hdiv).
  - intros package Hfail.
    rewrite (run_monkey_command_trace _ _ _ _ _ _ _ Hdiv).
    cbn [fst error_lines flat_map app].
    now apply outcome_events_error.
  - intros packages. split; [|split].
    + exact (run_batches_returns _ _ _ _ _ _ Hdiv packages).
    + exact (run_batches_execs _ _ _ _ _ _ Hdiv packages).
    + intros package e.
      exact (run_batches_contains _ _ _ _ _ _ Hdiv packages package e).
Qed.

Lemma failure_isolation_witness :
  run_fails (two_packages (monkey_cmd "D1" "A:B:C" "com.a" 5 500))
  /\ snd (run_monkey_command two_packages "D1" "A:B:C" "com.a" 5 500) = Ok tt
  /\ (exists msg,
        error_lines (fst (run_monkey_command two_packages "D1" "A:B:C" "com.a"
                            5 500))
        = [msg])
  /\ execs (fst (run_batches two_packages "D1" "A:B:C" 5 500 ["com.a"; "com.b"]))
     = [monkey_cmd "D1" "A:B:C" "com.a" 5 500;
        monkey_cmd "D1" "A:B:C" "com.b" 5 500].
Proof.
  assert (Hfail : run_fails (two_packages (monkey_cmd "D1" "A:B:C" "com.a" 5 500))).
  { vm_compute. right. discriminate. }
  destruct (failure_isolation two_packages "D1" "A:B:C" 5 500 _ eq_refl)
    as [H1 [H2 H3]].
  split; [exact Hfail|]. split; [apply H1|]. split; [exact (H2 _ Hfail)|].
  exact (proj1 (proj2 (H3 ["com.a"; "com.b"]))).
Defined.

(** ** A run that exits with a status other than 0 *)

(** C4. When the child exits with a status other than 0 (the command was
    launched: lines 269-272 went through, [throttle / 1000] is a float), the
    one line that
    [run_monkey_command] logs at ERROR is the report of the [AttributeError]
    that [process.stderr.read()] raises, [stderr] being [None] under
    [stderr=STDOUT]; the line of line 286, with the package name and the
    error text, is never logged. *)
Theorem nonzero_exit_logs_attribute_error (sh : shell)
    (device class_path package : string) (minutes throttle : Z)
    (interval : Py.float) (c : child) :
  Py.div1000 throttle = Some interval ->
  sh (monkey_cmd device class_path package minutes throttle) = Spawns c ->
  child_fault c = None ->
  child_returncode c <> 0%Z ->
  error_lines
    (fst (run_monkey_command sh device class_path package minutes throttle))
  = ["未知错误: 'NoneType' object has no attribute 'read'"].
Proof.
  intros Hdiv Hsh Hfault Hrc.
  rewrite (run_monkey_command_trace _ _ _ _ _ _ _ Hdiv).
  cbn [fst error_lines flat_map app].
  rewrite Hsh. unfold outcome_events. rewrite Hfault.
  fold (error_lines
          (map (fun line => Log INFO (Py.strip line))
               (Py.text_lines (String.concat "" (piped_stdout STDOUT c)))
           ++ (if (child_returncode c =? 0)%Z
               then [Log INFO ("包名 " ++ package ++ " 执行完成")]
               else [Log ERROR (report (none_has_no "read"))]))).
  rewrite error_lines_app.
  destruct (info_lines_quiet Py.strip
              (Py.text_lines (String.concat "" (piped_stdout STDOUT c))))
    as [_ [_ ->]].
  destruct (Z.eqb_spec (child_returncode c) 0) as [E|_]; [now elim Hrc|].
  reflexivity.
Qed.

Lemma nonzero_exit_logs_attribute_error_witness :
  error_lines
    (fst (run_monkey_command two_packages "D1" "A:B:C" "com.a" 5 500))
  = ["未知错误: 'NoneType' object has no attribute 'read'"].
Proof.
  apply (nonzero_exit_logs_attribute_error two_packages "D1" "A:B:C" "com.a" 5 500
           (Py.Float false 4503599627370496 (-53))
           (Child [(Out, ("// Monkey" ++ nl)%string); (Err, ("boom" ++ nl)%string)]
                  None 1)).
  - reflexivity.
  - reflexivity.
  - reflexivity.
  - discriminate.
Defined.

(** ** The delay between the batches *)

(** One package, one batch: the loop sleeps once, after the only batch,
    where [k - 1] sleeps would be none. *)
Lemma one_package_one_sleep :
  let run := execute_adb_command bare_device "D1" "A:B:C" "com.x" 5 500 1 in
  snd run = Ok tt
  /\ length (batches ["com.x"]) = 1
  /\ sleeps (fst run) = [10%Z]
  /\ length (sleeps (fst run)) <> length (batches ["com.x"]) - 1
  /\ exists tr, fst run = tr ++ [Sleep 10].
Proof.
  cbv zeta. split; [|split; [|split; [|split]]].
  - vm_compute. reflexivity.
  - reflexivity.
  - vm_compute. reflexivity.
  - vm_compute. discriminate.
  - exists (removelast
              (fst (execute_adb_command bare_device "D1" "A:B:C" "com.x" 5 500 1))).
    vm_compute. reflexivity.
Qed.

(** C7, as the code has it. The loop sleeps once for each batch, the last
    one included ([throttle / 1000] being a float, so that the calls
    return): [k] batches give [k] sleeps of [delay] seconds, and the trace
    of a loop over a list that is not empty ends with a sleep. *)
Theorem sleep_after_every_batch (sh : shell) (device class_path : string)
    (minutes throttle : Z) (interval : Py.float) (packages : list string) :
  Py.div1000 throttle = Some interval ->
  sleeps (fst (run_batches sh device class_path minutes throttle packages))
  = repeat delay (length (batches packages))
  /\ (packages <> [] ->
      exists tr,
        fst (run_batches sh device class_path minutes throttle packages)
        = tr ++ [Sleep delay]).
Proof.
  intros Hdiv. split.
  - exact (run_batches_sleeps _ _ _ _ _ _ Hdiv packages).
  - exact (run_batches_ends_asleep _ _ _ _ _ _ Hdiv packages).
Qed.

Lemma sleep_after_every_batch_witness :
  sleeps (fst (run_batches bare_device "D1" "A:B:C" 5 500
                 ["a"; "b"; "c"; "d"; "e"]))
  = [10%Z; 10%Z]
  /\ length (batches ["a"; "b"; "c"; "d"; "e"]) = 2.
Proof.
  split; [|reflexivity].
  exact (proj1 (sleep_after_every_batch bare_device "D1" "A:B:C" 5 500 _
                  ["a"; "b"; "c"; "d"; "e"] eq_refl)).
Defined.

(** ** The command line (line 269) *)

Lemma string_app_assoc (a b c : string) :
  ((a ++ b) ++ c)%string = (a ++ (b ++ c))%string.
Proof.
  induction a as [|x a IH]; simpl; [reflexivity|].
  now rewrite IH.
Qed.

Lemma occurs_in_middle (pre sub post : string) :
  occurs_in sub (pre ++ sub ++ post).
Proof. now exists pre, post. Qed.

Lemma occurs_in_append_l (a sub s : string) :
  occurs_in sub s -> occurs_in sub (a ++ s).
Proof.
  intros [pre [post ->]]. exists (a ++ pre)%string, post.
  now rewrite string_app_assoc.
Qed.

Example monkey_cmd_example :
  monkey_cmd "D1" "A:B:C" "com.x" 5 500
  = "adb -s D1 shell CLASSPATH=A:B:C exec app_process /system/bin com.android.commands.monkey.Monkey -p com.x --agent reuseq --running-minutes 5 --throttle 500 --pct-touch 30 -v -v".
Proof. reflexivity. Qed.

(** C8. The command line is a function of the device, the class path, the
    package name, the minutes and the throttle: equal arguments give the
    same string; each of the five values occurs in it as it is (the two
    numbers in decimal), and it ends with the flags [--pct-touch 30 -v -v]. *)
Theorem command_line_fixed_by_arguments (device class_path package_name : string)
    (minutes throttle : Z) :
  let cmd := monkey_cmd device class_path package_name minutes throttle in
  (forall device' class_path' package_name' minutes' throttle',
     (device, class_path, package_name, minutes, throttle)
     = (device', class_path', package_name', minutes', throttle') ->
     cmd = monkey_cmd device' class_path' package_name' minutes' throttle')
  /\ occurs_in device cmd
  /\ occurs_in class_path cmd
  /\ occurs_in package_name cmd
  /\ occurs_in (Py.str_int minutes) cmd
  /\ occurs_in (Py.str_int throttle) cmd
  /\ occurs_in "--pct-touch 30 -v -v" cmd
  /\ (exists pre, cmd = (pre ++ " --pct-touch 30 -v -v")%string).
Proof.
  intros cmd. subst cmd. unfold monkey_cmd.
  split; [|repeat split].
  - intros d c p m t E. now inversion E.
  - apply occurs_in_middle.
  - do 2 apply occurs_in_append_l. apply occurs_in_middle.
  - do 4 apply occurs_in_append_l. apply occurs_in_middle.
  - do 6 apply occurs_in_append_l. apply occurs_in_middle.
  - do 8 apply occurs_in_append_l. apply occurs_in_middle.
  - do 9 apply occurs_in_append_l.
    exists (Py.str_int throttle ++ " ")%string, ""%string.
    now rewrite string_app_assoc.
  - eexists. rewrite <- !string_app_assoc. reflexivity.
Qed.

(** ** The package list (lines 296-302) *)

Lemma split_char_length_cons (sep c : ascii) (s : string) :
  length (Py.split_char sep (String c s))
  = if Ascii.eqb c sep
    then S (length (Py.split_char sep s))
    else length (Py.split_char sep s).
Proof.
  simpl. destruct (Ascii.eqb c sep); [reflexivity|].
  destruct (Py.split_char sep s) eqn:E; [|reflexivity].
  destruct s; simpl in E; [discriminate|].
  destruct (Ascii.eqb a sep); [discriminate|].
  destruct (Py.split_char sep s); discriminate.
Qed.

Lemma split_char_nonempty (sep : ascii) (s : string) :
  1 <= length (Py.split_char sep s).
Proof.
  induction s as [|c s IH]; [simpl; lia|].
  rewrite split_char_length_cons. destruct (Ascii.eqb c sep); lia.
Qed.

Lemma prefix_append (p s : string) :
  String.prefix p s = true -> exists rest, s = (p ++ rest)%string.
Proof.
  revert s. induction p as [|a p IH]; intros s H.
  - now exists s.
  - destruct s as [|b s]; [discriminate|]. simpl in H.
    destruct (ascii_dec a b) as [->|]; [|discriminate].
    destruct (IH s H) as [rest ->]. now exists rest.
Qed.

(** A line that starts with [package:] has a second field: [[1]] never
    raises [IndexError] in the comprehension of line 300. *)
Lemma package_line_second_field (line : string) :
  Py.startswith "package:" line = true ->
  nth_error (Py.split_char ":" line) 1 = Some (second_field line).
Proof.
  intros H. apply prefix_append in H as [rest ->].
  unfold second_field. apply nth_error_nth'.
  cbn [append].
  rewrite !split_char_length_cons. cbn [Ascii.eqb Bool.eqb].
  pose proof (split_char_nonempty ":" rest). lia.
Qed.

Lemma list_comp_second_field (lines : list string) :
  Forall (fun line => Py.startswith "package:" line = true) lines ->
  list_comp lines (fun line => index (Py.split_char ":" line) 1)
  = ([], Ok (map second_field lines)).
Proof.
  induction 1 as [|line lines Hline _ IH]; [reflexivity|].
  cbn [list_comp map]. rewrite IH.
  unfold index. rewrite (package_line_second_field _ Hline).
  reflexivity.
Qed.

Lemma filter_all {A : Type} (f : A -> bool) (l : list A) :
  Forall (fun x => f x = true) (filter f l).
Proof.
  apply Forall_forall. intros x Hx. now apply filter_In in Hx.
Qed.

(** The comprehension of line 300 on a decoded listing. *)
Lemma comprehension_eq (text : string) :
  list_comp (filter (Py.startswith "package:") (Py.splitlines text))
            (fun line => index (Py.split_char ":" line) 1)
  = ([], Ok (listed_packages text)).
Proof.
  unfold listed_packages. apply list_comp_second_field, filter_all.
Qed.

Lemma resolve_other (sh : shell) (device package_name : string) :
  package_name <> "all"%string ->
  resolve_packages sh device package_name = ret [package_name].
Proof.
  intros H. unfold resolve_packages.
  now apply String.eqb_neq in H as ->.
Qed.

(** The sentinel: the listing command is launched, and the list is read
    from its standard output. *)
Lemma resolve_all (sh : shell) (device : string) :
  resolve_packages sh device "all"
  = ([Exec (list_cmd device)],
     match sh (list_cmd device) with
     | SpawnFails e => Raise e
     | Spawns c =>
         if Py.utf8_valid (listing_stdout c)
         then Ok (listed_packages (listing_stdout c))
         else Raise (Exn UnicodeDecodeError "'utf-8' codec can't decode byte")
     end).
Proof.
  unfold resolve_packages. cbn [String.eqb Ascii.eqb Bool.eqb].
  unfold Popen. destruct (sh (list_cmd device)) as [e|c].
  - reflexivity.
  - rewrite bind_Ok. unfold communicate, ret. rewrite bind_Ok.
    cbn [fst snd proc_stdout option_map decode].
    fold (listing_stdout c).
    destruct (Py.utf8_valid (listing_stdout c)).
    + unfold ret. rewrite bind_Ok, comprehension_eq. reflexivity.
    + reflexivity.
Qed.

(** *** The lines of a text and the fields of a line *)

Lemma prefix_String (a b : ascii) (s t : string) :
  String.prefix (String a s) (String b t) = Ascii.eqb a b && String.prefix s t.
Proof.
  cbn [String.prefix]. destruct (ascii_dec a b) as [->|N].
  - now rewrite Ascii.eqb_refl.
  - apply Ascii.eqb_neq in N. now rewrite N.
Qed.

Lemma prefix_empty (s : string) : String.prefix "" s = true.
Proof. now destruct s. Qed.

Lemma prefix_app_same (p s : string) : String.prefix p (p ++ s) = true.
Proof.
  induction p as [|a p IH]; [apply prefix_empty|].
  cbn [append]. now rewrite prefix_String, Ascii.eqb_refl, IH.
Qed.

Lemma byte_eqb (a c : ascii) : (Py.byte c =? Py.byte a) = Ascii.eqb a c.
Proof.
  unfold Py.byte. destruct (Ascii.eqb_spec a c) as [->|N].
  - apply Nat.eqb_refl.
  - apply Nat.eqb_neq. intros E. apply N.
    rewrite <- (ascii_nat_embedding a), <- (ascii_nat_embedding c).
    now rewrite E.
Qed.

(** What it is for no boundary to begin at a byte. *)
Lemma not_boundary_facts (c : ascii) (tail : string) :
  starts_with_boundary (String c tail) = false ->
  Py.is_line_break c = false
  /\ (Py.byte c =? 13) = false
  /\ ((Py.byte c =? 194) = true ->
      String.prefix (String "133" "") tail = false)
  /\ ((Py.byte c =? 226) = true ->
      String.prefix (String "128" (String "168" "")) tail = false
      /\ String.prefix (String "128" (String "169" "")) tail = false).
Proof.
  unfold starts_with_boundary, line_boundaries. cbn [existsb].
  rewrite !prefix_String, !prefix_empty, !andb_true_r, orb_false_r.
  intros H.
  repeat match type of H with
         | (_ || _) = false => apply orb_false_elim in H as [? H]
         end.
  unfold Py.is_line_break. cbv zeta.
  change 226 with (Py.byte "226"). change 194 with (Py.byte "194").
  change 30 with (Py.byte "030"). change 29 with (Py.byte "029").
  change 28 with (Py.byte "028"). change 13 with (Py.byte "013").
  change 12 with (Py.byte "012"). change 11 with (Py.byte "011").
  change 10 with (Py.byte "010").
  rewrite !byte_eqb.
  repeat match goal with
         | E : Ascii.eqb _ c = false |- _ => rewrite E; clear E
         end.
  split; [reflexivity|]. split; [reflexivity|]. split.
  - intros E. now rewrite E in *.
  - intros E. rewrite E in *. split; assumption.
Qed.

(** A byte at which no boundary begins goes to the line that follows. *)
Lemma splitlines_keep (c : ascii) (tail : string) :
  starts_with_boundary (String c tail) = false ->
  Py.splitlines (String c tail)
  = match Py.splitlines tail with
    | [] => [String c EmptyString]
    | l :: ls => String c l :: ls
    end.
Proof.
  intros H. destruct (not_boundary_facts c tail H) as (Hlb & H13 & H194 & H226).
  cbn [Py.splitlines]. rewrite Hlb, H13.
  destruct (Py.byte c =? 194) eqn:E194.
  - destruct tail as [|c1 s2]; [reflexivity|].
    specialize (H194 eq_refl).
    rewrite prefix_String, prefix_empty, andb_true_r in H194.
    rewrite <- byte_eqb in H194. change (Py.byte "133") with 133 in H194.
    now rewrite H194.
  - destruct (Py.byte c =? 226) eqn:E226; [|reflexivity].
    destruct tail as [|c1 [|c2 s3]]; try reflexivity.
    destruct (H226 eq_refl) as [Ha Hb].
    rewrite !prefix_String, prefix_empty, andb_true_r in Ha, Hb.
    rewrite <- !byte_eqb in Ha, Hb.
    change (Py.byte "128") with 128 in Ha, Hb.
    change (Py.byte "168") with 168 in Ha. change (Py.byte "169") with 169 in Hb.
    destruct (Py.byte c1 =? 128); [|reflexivity].
    cbn [andb] in Ha, Hb |- *. now rewrite Ha, Hb.
Qed.

(** A boundary ends the line before it. *)
Lemma splitlines_boundary (b rest : string) :
  In b line_boundaries ->
  (b = String "013" "" -> String.prefix (String "010" "") rest = false) ->
  Py.splitlines (b ++ rest) = EmptyString :: Py.splitlines rest.
Proof.
  intros Hin Hcr. unfold line_boundaries in Hin. cbn [In] in Hin.
  repeat destruct Hin as [<-|Hin]; try contradiction; try reflexivity.
  destruct rest as [|c1 s2]; [reflexivity|].
  specialize (Hcr eq_refl).
  rewrite prefix_String, prefix_empty, andb_true_r in Hcr.
  rewrite <- byte_eqb in Hcr. change (Py.byte "010") with 10 in Hcr.
  cbn [append Py.splitlines].
  change (Py.is_line_break "013") with false.
  change (Py.byte "013" =? 13) with true. cbv iota.
  now rewrite Hcr.
Qed.

Lemma after_line_first (ext : string) :
  after_line ext ->
  String.prefix (String "133" "") ext = false
  /\ String.prefix (String "168" "") ext = false
  /\ String.prefix (String "169" "") ext = false
  /\ String.prefix (String "128" (String "168" "")) ext = false
  /\ String.prefix (String "128" (String "169" "")) ext = false.
Proof.
  intros [->|[b [rest [Hin ->]]]]; [repeat split|].
  unfold line_boundaries in Hin. cbn [In] in Hin.
  repeat destruct Hin as [<-|Hin]; try contradiction;
    cbn [append]; rewrite !prefix_String; repeat split.
Qed.

Lemma prefix1_app (a : ascii) (l ext : string) :
  String.prefix (String a "") l = false ->
  String.prefix (String a "") ext = false ->
  String.prefix (String a "") (l ++ ext) = false.
Proof.
  destruct l as [|c l]; intros Hl Hext; [exact Hext|].
  cbn [append]. rewrite prefix_String, prefix_empty in *. exact Hl.
Qed.

Lemma prefix2_app (a b : ascii) (l ext : string) :
  String.prefix (String a (String b "")) l = false ->
  String.prefix (String a (String b "")) ext = false ->
  String.prefix (String b "") ext = false ->
  String.prefix (String a (String b "")) (l ++ ext) = false.
Proof.
  destruct l as [|c1 [|c2 l]]; intros Hl Hext Hb; [exact Hext| |].
  - cbn [append]. rewrite prefix_String, Hb. apply andb_false_r.
  - cbn [append]. rewrite !prefix_String, prefix_empty in *. exact Hl.
Qed.

(** No boundary begins at a byte of a line because of what follows the
    line. *)
Lemma starts_with_boundary_app (c : ascii) (l ext : string) :
  after_line ext ->
  starts_with_boundary (String c l) = false ->
  starts_with_boundary (String c (l ++ ext)) = false.
Proof.
  intros Hext. destruct (after_line_first ext Hext) as (E1 & E2 & E3 & E4 & E5).
  unfold starts_with_boundary, line_boundaries. cbn [existsb].
  rewrite !prefix_String, !prefix_empty, !andb_true_r, !orb_false_r.
  intros H.
  repeat match type of H with
         | (_ || _) = false => apply orb_false_elim in H as [? H]
         end.
  repeat match goal with
         | E : Ascii.eqb _ c = false |- _ => rewrite E; clear E
         end.
  cbn [andb orb].
  repeat match goal with
         | E : Ascii.eqb ?x c && _ = false |- _ =>
             destruct (Ascii.eqb x c); cbn [andb] in E |- *
         end;
    cbn [orb];
    rewrite ?prefix1_app, ?prefix2_app by assumption; reflexivity.
Qed.

Lemma splitlines_line_boundary (line b rest : string) :
  no_boundary line = true ->
  In b line_boundaries ->
  (b = String "013" "" -> String.prefix (String "010" "") rest = false) ->
  Py.splitlines (line ++ b ++ rest) = line :: Py.splitlines rest.
Proof.
  intros Hline Hin Hcr. induction line as [|c l IH].
  - exact (splitlines_boundary b rest Hin Hcr).
  - cbn [no_boundary] in Hline. apply andb_prop in Hline as [H1 H2].
    apply negb_true_iff in H1.
    change (String c l ++ b ++ rest)%string with (String c (l ++ b ++ rest)).
    rewrite splitlines_keep.
    + now rewrite (IH H2).
    + apply starts_with_boundary_app; [|assumption].
      right. now exists b, rest.
Qed.

Lemma splitlines_last_line (line : string) :
  line <> ""%string -> no_boundary line = true -> Py.splitlines line = [line].
Proof.
  induction line as [|c l IH]; intros Hne Hline; [congruence|].
  cbn [no_boundary] in Hline. apply andb_prop in Hline as [H1 H2].
  apply negb_true_iff in H1. rewrite (splitlines_keep c l H1).
  destruct l as [|c' l']; [reflexivity|].
  now rewrite IH.
Qed.

(** [str.splitlines] gives the lines of a text. *)
Lemma splitlines_lines_of (text : string) (lines : list string) :
  lines_of text lines -> Py.splitlines text = lines.
Proof.
  induction 1 as [|line Hne Hline|line b rest lines Hline Hin Hcr _ IH].
  - reflexivity.
  - now apply splitlines_last_line.
  - rewrite splitlines_line_boundary by assumption. now rewrite IH.
Qed.

Lemma split_char_name (name rest : string) :
  entry_ok (PackageLine name rest) = true ->
  exists fields, Py.split_char ":" (name ++ rest) = name :: fields.
Proof.
  cbn [entry_ok]. intros H. apply andb_prop in H as [Hname Hrest].
  induction name as [|c n IH].
  - destruct rest as [|c r]; [now exists []|].
    apply Ascii.eqb_eq in Hrest as ->.
    now exists (Py.split_char ":" r).
  - cbn [no_colon] in Hname. apply andb_prop in Hname as [Hc Hn].
    apply negb_true_iff in Hc.
    destruct (IH Hn) as [fields E]. exists fields.
    cbn [append Py.split_char]. now rewrite Hc, E.
Qed.

Lemma second_field_name (name rest : string) :
  entry_ok (PackageLine name rest) = true ->
  second_field ("package:" ++ name ++ rest) = name.
Proof.
  intros H. destruct (split_char_name name rest H) as [fields E].
  unfold second_field. cbn [append Py.split_char Ascii.eqb Bool.eqb].
  now rewrite E.
Qed.

(** The comprehension of line 300 on the lines of a listing. *)
Lemma listed_entries (entries : list entry) :
  Forall (fun e => entry_ok e = true) entries ->
  map second_field (filter (Py.startswith "package:") (map entry_line entries))
  = names entries.
Proof.
  induction 1 as [|e entries He _ IH]; [reflexivity|].
  cbn [map filter names flat_map]. fold (names entries).
  destruct e as [name rest|line]; cbn [entry_line].
  - unfold Py.startswith at 1. rewrite prefix_app_same.
    cbn [map app]. now rewrite IH, second_field_name.
  - cbn [entry_ok] in He. apply negb_true_iff in He.
    unfold Py.startswith at 1. rewrite He. exact IH.
Qed.

Lemma listed_packages_names (text : string) (entries : list entry) :
  lines_of text (map entry_line entries) ->
  Forall (fun e => entry_ok e = true) entries ->
  listed_packages text = names entries.
Proof.
  intros Hlines Hok. unfold listed_packages.
  rewrite (splitlines_lines_of _ _ Hlines). now apply listed_entries.
Qed.

Lemma string_length_app (a b : string) :
  String.length (a ++ b) = String.length a + String.length b.
Proof.
  induction a as [|c a IH]; [reflexivity|].
  cbn [append String.length]. now rewrite IH.
Qed.

(** *** Every text is made of lines, and every line is an entry *)

Lemma append_empty_r (s : string) : (s ++ "")%string = s.
Proof. induction s as [|c s IH]; [reflexivity|]. cbn [append]. now rewrite IH. Qed.

Lemma prefix_extends (p a b : string) :
  String.prefix p a = true -> String.prefix p (a ++ b) = true.
Proof.
  intros H. apply prefix_append in H as [rest ->].
  rewrite string_app_assoc. apply prefix_app_same.
Qed.

Lemma starts_with_boundary_extends (a b : string) :
  starts_with_boundary a = true -> starts_with_boundary (a ++ b) = true.
Proof.
  unfold starts_with_boundary. rewrite !existsb_exists.
  intros [bd [Hin Hp]]. exists bd. split; [assumption|].
  now apply prefix_extends.
Qed.

(** The first line of a text: what comes before the first boundary. *)
Lemma first_line_exists (s : string) :
  exists l r,
    s = (l ++ r)%string /\ no_boundary l = true
    /\ (r = ""%string \/ starts_with_boundary r = true).
Proof.
  induction s as [|c s (l & r & E & Hl & Hr)].
  - exists ""%string, ""%string. repeat split. now left.
  - destruct (starts_with_boundary (String c s)) eqn:Hb.
    + exists ""%string, (String c s). repeat split. now right.
    + exists (String c l), r. subst s. split; [reflexivity|]. split; [|assumption].
      cbn [no_boundary]. rewrite Hl, andb_true_r. apply negb_true_iff.
      destruct (starts_with_boundary (String c l)) eqn:Hb'; [|reflexivity].
      apply (starts_with_boundary_extends _ r) in Hb'.
      cbn [append] in Hb'. congruence.
Qed.

(** The boundary at which a text begins: CR LF rather than CR. *)
Lemma boundary_exists (r : string) :
  starts_with_boundary r = true ->
  exists b rest,
    In b line_boundaries /\ r = (b ++ rest)%string /\ 1 <= String.length b
    /\ (b = String "013" "" -> String.prefix (String "010" "") rest = false).
Proof.
  intros H.
  destruct (String.prefix (String "013" (String "010" "")) r) eqn:Hcrlf.
  - apply prefix_append in Hcrlf as [rest ->].
    exists (String "013" (String "010" "")), rest.
    split; [cbn; tauto|]. split; [reflexivity|]. split; [cbn; lia|].
    discriminate.
  - unfold starts_with_boundary in H. apply existsb_exists in H as [b [Hin Hp]].
    apply prefix_append in Hp as [rest ->]. exists b, rest.
    split; [assumption|]. split; [reflexivity|]. split.
    + unfold line_boundaries in Hin. cbn [In] in Hin.
      repeat destruct Hin as [<-|Hin]; try contradiction; cbn; lia.
    + intros ->. cbn [append] in Hcrlf.
      rewrite prefix_String in Hcrlf. exact Hcrlf.
Qed.

Lemma lines_of_exists_fuel (n : nat) (text : string) :
  String.length text <= n -> exists lines, lines_of text lines.
Proof.
  revert text. induction n as [|n IH]; intros text Hlen.
  - destruct text; [|cbn in Hlen; lia]. exists []. constructor.
  - destruct (first_line_exists text) as (l & r & -> & Hl & [->|Hr]).
    + destruct l as [|c l].
      * exists []. constructor.
      * exists [String c l]. rewrite append_empty_r.
        now apply lines_of_last.
    + destruct (boundary_exists r Hr) as (b & rest & Hin & -> & Hb & Hcr).
      rewrite !string_length_app in Hlen.
      destruct (IH rest ltac:(lia)) as [lines Hlines].
      exists (l :: lines). now apply lines_of_cons.
Qed.

(** Every text is made of lines. *)
Lemma lines_of_exists (text : string) : exists lines, lines_of text lines.
Proof. now apply (lines_of_exists_fuel (String.length text)). Qed.

Lemma until_colon (s : string) :
  exists name rest,
    s = (name ++ rest)%string
    /\ entry_ok (PackageLine name rest) = true.
Proof.
  induction s as [|c s (name & rest & E & Hok)].
  - now exists ""%string, ""%string.
  - destruct (Ascii.eqb c ":") eqn:Hc.
    + exists ""%string, (String c s). split; [reflexivity|].
      cbn [entry_ok no_colon andb]. exact Hc.
    + exists (String c name), rest. subst s. split; [reflexivity|].
      cbn [entry_ok no_colon] in *. now rewrite Hc.
Qed.

(** Every line is a package line or another line. *)
Lemma entry_exists (line : string) :
  exists e, entry_line e = line /\ entry_ok e = true.
Proof.
  destruct (String.prefix "package:" line) eqn:Hp.
  - apply prefix_append in Hp as [tail ->].
    destruct (until_colon tail) as (name & rest & -> & Hok).
    now exists (PackageLine name rest).
  - exists (OtherLine line). split; [reflexivity|].
    cbn [entry_ok]. now rewrite Hp.
Qed.

Lemma entries_exist (lines : list string) :
  exists entries,
    map entry_line entries = lines
    /\ Forall (fun e => entry_ok e = true) entries.
Proof.
  induction lines as [|line lines (entries & E & Hok)].
  - exists []. split; [reflexivity|constructor].
  - destruct (entry_exists line) as (e & El & He).
    exists (e :: entries). split; [cbn [map]; now rewrite El, E|].
    now constructor.
Qed.

(** Every text reads as a listing. *)
Lemma listing_exists (text : string) :
  exists entries,
    lines_of text (map entry_line entries)
    /\ Forall (fun e => entry_ok e = true) entries.
Proof.
  destruct (lines_of_exists text) as [lines Hlines].
  destruct (entries_exist lines) as (entries & <- & Hok).
  now exists entries.
Qed.

(** The sentinel on a listing: the list is the names of its package
    lines. *)
Lemma resolve_all_listing (sh : shell) (device : string) (c : child)
    (entries : list entry) :
  sh ("adb -s " ++ device ++ " shell pm list packages")%string = Spawns c ->
  Py.utf8_valid (listing_stdout c) = true ->
  lines_of (listing_stdout c) (map entry_line entries) ->
  Forall (fun e => entry_ok e = true) entries ->
  resolve_packages sh device "all"
  = ([Exec ("adb -s " ++ device ++ " shell pm list packages")%string],
     Ok (names entries)).
Proof.
  intros Hsh Hvalid Hlines Hok. rewrite resolve_all.
  unfold list_cmd. rewrite Hsh, Hvalid.
  now rewrite (listed_packages_names _ _ Hlines Hok).
Qed.

Lemma execute_adb_command_eq (sh : shell) (device class_path package_name : string)
    (minutes throttle max_workers : Z) (tr : list event) (packages : list string) :
  (0 < max_workers)%Z ->
  resolve_packages sh device package_name = (tr, Ok packages) ->
  execute_adb_command sh device class_path package_name minutes throttle max_workers
  = (tr ++ Log INFO ("设备上共安装了 " ++ Py.str_nat (length packages) ++ " 个包")
        :: fst (run_batches sh device class_path minutes throttle packages),
     snd (run_batches sh device class_path minutes throttle packages)).
Proof.
  intros HW Hres. unfold execute_adb_command, ThreadPoolExecutor.
  destruct (Z.leb_spec max_workers 0) as [|_]; [lia|].
  unfold ret at 1. rewrite bind_Ok, Hres, bind_Ok.
  rewrite logger_info_then.
  reflexivity.
Qed.

(** ** The sentinel [all] *)

(** On a device with two packages, the call for [all] launches the listing
    itself and then one command for each listed package; no command is
    launched for a package named [all]. *)
Lemma sentinel_is_expanded_by_the_runner :
  execs (fst (execute_adb_command two_packages "D1" "A:B:C" "all" 5 500 1))
  = [list_cmd "D1";
     monkey_cmd "D1" "A:B:C" "com.a" 5 500;
     monkey_cmd "D1" "A:B:C" "com.b" 5 500]
  /\ execs (fst (execute_adb_command two_packages "D1" "A:B:C" "all" 5 500 1))
     <> execs (fst (run_batches two_packages "D1" "A:B:C" 5 500 ["all"]))
  /\ resolve_packages two_packages "D1" "all"
     <> resolve_packages two_packages "D1" "com.x".
Proof.
  split; [|split].
  - vm_compute. reflexivity.
  - vm_compute. discriminate.
  - vm_compute. discriminate.
Qed.

Lemma sample_output_lines :
  lines_of sample_output (map entry_line sample_listing).
Proof.
  apply (lines_of_cons "WARNING: linker" (String "013" (String "010" ""))
           ("package:com.a" ++ String "010" ""
            ++ "package:com.b:x" ++ String "010" "")
           ["package:com.a"; "package:com.b:x"]);
    [reflexivity | cbn; tauto | discriminate |].
  apply (lines_of_cons "package:com.a" (String "010" "")
           ("package:com.b:x" ++ String "010" "") ["package:com.b:x"]);
    [reflexivity | cbn; tauto | discriminate |].
  apply (lines_of_cons "package:com.b:x" (String "010" "") "" []);
    [reflexivity | cbn; tauto | discriminate |].
  apply lines_of_nil.
Qed.

(** C5, as the code has it. [execute_adb_command] itself reads the
    sentinel.  For [all] it launches [adb -s <device> shell pm list
    packages] and runs the loop on the names of the package lines of its
    output: the commands launched are the listing and then one for each of
    these names.  For any other name it launches no listing and runs the
    loop on that name alone.  [run_monkey_command] does not read the
    sentinel: whatever the package name is, [all] included, it launches the
    one command line built from it.  ([throttle / 1000] is a float: the
    calls return.) *)
Theorem sentinel_read_by_execute_adb_command (sh : shell)
    (device class_path : string) (minutes throttle max_workers : Z)
    (interval : Py.float) :
  (0 < max_workers)%Z ->
  Py.div1000 throttle = Some interval ->
  (forall c entries,
     sh ("adb -s " ++ device ++ " shell pm list packages")%string = Spawns c ->
     Py.utf8_valid (listing_stdout c) = true ->
     lines_of (listing_stdout c) (map entry_line entries) ->
     Forall (fun e => entry_ok e = true) entries ->
     execute_adb_command sh device class_path "all" minutes throttle max_workers
     = (Exec ("adb -s " ++ device ++ " shell pm list packages")
        :: Log INFO ("设备上共安装了 " ++ Py.str_nat (length (names entries))
                     ++ " 个包")
        :: fst (run_batches sh device class_path minutes throttle
                  (names entries)),
        Ok tt)
     /\ execs (fst (execute_adb_command sh device class_path "all" minutes
                      throttle max_workers))
        = ("adb -s " ++ device ++ " shell pm list packages")%string
          :: map (fun package =>
                    monkey_cmd device class_path package minutes throttle)
                 (names entries))
  /\ (forall package_name,
        package_name <> "all"%string ->
        execute_adb_command sh device class_path package_name minutes throttle
          max_workers
        = (Log INFO "设备上共安装了 1 个包"
           :: fst (run_batches sh device class_path minutes throttle
                     [package_name]),
           Ok tt)
        /\ execs (fst (execute_adb_command sh device class_path package_name
                         minutes throttle max_workers))
           = [monkey_cmd device class_path package_name minutes throttle])
  /\ (forall package_name,
        execs (fst (run_monkey_command sh device class_path package_name
                      minutes throttle))
        = [monkey_cmd device class_path package_name minutes throttle]).
Proof.
  intros HW Hdiv. split; [|split].
  - intros c entries Hsh Hvalid Hlines Hok.
    pose proof (resolve_all_listing sh device c entries Hsh Hvalid Hlines Hok)
      as Hres.
    rewrite (execute_adb_command_eq sh device class_path "all" minutes throttle
               max_workers _ _ HW Hres).
    rewrite (run_batches_returns _ _ _ _ _ _ Hdiv).
    split; [reflexivity|].
    cbn [fst app execs flat_map].
    fold (execs (fst (run_batches sh device class_path minutes throttle
                        (names entries)))).
    now rewrite (run_batches_execs _ _ _ _ _ _ Hdiv).
  - intros package_name Hname.
    rewrite (execute_adb_command_eq sh device class_path package_name minutes
               throttle max_workers [] [package_name] HW
               (resolve_other sh device package_name Hname)).
    rewrite (run_batches_returns _ _ _ _ _ _ Hdiv).
    split; [reflexivity|].
    cbn [fst app execs flat_map].
    fold (execs (fst (run_batches sh device class_path minutes throttle
                        [package_name]))).
    now rewrite (run_batches_execs _ _ _ _ _ _ Hdiv).
  - intros package_name. exact (run_monkey_command_execs _ _ _ _ _ _ _ Hdiv).
Qed.

Lemma sentinel_read_by_execute_adb_command_witness :
  execs (fst (execute_adb_command listing_device "D1" "A:B:C" "all" 5 500 5))
  = ["adb -s D1 shell pm list packages";
     monkey_cmd "D1" "A:B:C" "com.a" 5 500;
     monkey_cmd "D1" "A:B:C" "com.b" 5 500]
  /\ execs (fst (run_monkey_command listing_device "D1" "A:B:C" "all" 5 500))
     = [monkey_cmd "D1" "A:B:C" "all" 5 500].
Proof.
  destruct (sentinel_read_by_execute_adb_command listing_device "D1" "A:B:C"
              5 500 5 _ eq_refl eq_refl) as [Hall [_ Hrun]].
  split; [|exact (Hrun "all")].
  exact (proj2 (Hall (Child [(Err, ("package:com.err" ++ String "010" "")%string);
                             (Out, sample_output)] None 0) sample_listing
                  eq_refl eq_refl sample_output_lines
                  ltac:(repeat constructor))).
Defined.

(** ** An empty package list *)

(** On a device without packages the call for [all] still logs the count. *)
Lemma empty_list_logs_the_count :
  snd (resolve_packages bare_device "D1" "all") = Ok []
  /\ log_lines (fst (execute_adb_command bare_device "D1" "A:B:C" "all" 5 500 1))
     = [(INFO, "设备上共安装了 0 个包")]
  /\ log_lines (fst (execute_adb_command bare_device "D1" "A:B:C" "all" 5 500 1))
     <> [].
Proof.
  split; [|split].
  - vm_compute. reflexivity.
  - vm_compute. reflexivity.
  - vm_compute. discriminate.
Qed.

(** C6, as the code has it. When the package list is empty, the call
    returns normally with no batch, no call of [run_monkey_command] (the
    only command launched is the listing), no sleep, and exactly one line of
    log: the count of line 304, at INFO. *)
Theorem empty_list_one_log_line (sh : shell) (device class_path package_name : string)
    (minutes throttle max_workers : Z) :
  (0 < max_workers)%Z ->
  snd (resolve_packages sh device package_name) = Ok [] ->
  let run := execute_adb_command sh device class_path package_name
               minutes throttle max_workers in
  run = ([Exec (list_cmd device); Log INFO "设备上共安装了 0 个包"], Ok tt)
  /\ batches (@nil string) = []
  /\ execs (fst run) = [list_cmd device]
  /\ sleeps (fst run) = []
  /\ log_lines (fst run) = [(INFO, "设备上共安装了 0 个包"%string)].
Proof.
  intros HW Hres run.
  assert (Hall : package_name = "all"%string).
  { destruct (String.eqb_spec package_name "all") as [E|N]; [assumption|].
    rewrite (resolve_other _ _ _ N) in Hres. discriminate. }
  subst package_name.
  assert (Hrun : run
    = ([Exec (list_cmd device); Log INFO "设备上共安装了 0 个包"], Ok tt)).
  { subst run.
    rewrite (execute_adb_command_eq sh device class_path "all" minutes throttle
               max_workers [Exec (list_cmd device)] [] HW).
    - reflexivity.
    - rewrite resolve_all in Hres |- *. cbn [snd] in Hres. now rewrite Hres. }
  rewrite Hrun. repeat split.
Qed.

Lemma empty_list_one_log_line_witness :
  execute_adb_command bare_device "D1" "A:B:C" "all" 5 500 1
  = ([Exec (list_cmd "D1"); Log INFO "设备上共安装了 0 个包"], Ok tt).
Proof.
  apply (empty_list_one_log_line bare_device "D1" "A:B:C" "all" 5 500 1).
  - reflexivity.
  - vm_compute. reflexivity.
Defined.

(** ** How the package list is made *)

Example listing_example :
  resolve_packages two_packages "D1" "all"
  = ([Exec "adb -s D1 shell pm list packages"], Ok ["com.a"; "com.b"]).
Proof. vm_compute. reflexivity. Qed.

Example listed_packages_example :
  listed_packages ("package:com.a" ++ nl ++ "WARNING: linker" ++ nl
                   ++ "package:com.b:x" ++ nl ++ "package:" ++ nl)
  = ["com.a"; "com.b"; ""].
Proof. vm_compute. reflexivity. Qed.

(** C10. For [all], the list is read from the output of [adb -s <device>
    shell pm list packages], once it is decoded.  The output is always made
    of lines, each of them [package:<name>] with perhaps more fields after
    the name, or a line that does not begin with [package:]; and however it
    is read so, the list is the names of the package lines, in the order of
    the output.  For any other name the list is that name alone: one batch
    of one package, and the loop launches one command. *)
Theorem package_list_resolution (sh : shell) (device : string) :
  (forall c,
     sh ("adb -s " ++ device ++ " shell pm list packages")%string = Spawns c ->
     Py.utf8_valid (listing_stdout c) = true ->
     (exists entries,
        lines_of (listing_stdout c) (map entry_line entries)
        /\ Forall (fun e => entry_ok e = true) entries)
     /\ (forall entries,
           lines_of (listing_stdout c) (map entry_line entries) ->
           Forall (fun e => entry_ok e = true) entries ->
           resolve_packages sh device "all"
           = ([Exec ("adb -s " ++ device ++ " shell pm list packages")%string],
              Ok (names entries))))
  /\ (forall package_name,
        package_name <> "all"%string ->
        resolve_packages sh device package_name = ([], Ok [package_name])
        /\ batches [package_name] = [[package_name]]
        /\ forall class_path minutes throttle interval,
             Py.div1000 throttle = Some interval ->
             execs (fst (run_batches sh device class_path minutes throttle
                           [package_name]))
             = [monkey_cmd device class_path package_name minutes throttle]).
Proof.
  split.
  - intros c Hsh Hvalid. split; [apply listing_exists|].
    intros entries. now apply resolve_all_listing.
  - intros package_name H. split; [|split].
    + now apply resolve_other.
    + reflexivity.
    + intros class_path minutes throttle interval Hdiv.
      now rewrite (run_batches_execs _ _ _ _ _ _ Hdiv).
Qed.

Lemma package_list_resolution_witness :
  resolve_packages listing_device "D1" "all"
  = ([Exec "adb -s D1 shell pm list packages"], Ok ["com.a"; "com.b"]).
Proof.
  exact (proj2 (proj1 (package_list_resolution listing_device "D1")
                  (Child [(Err, ("package:com.err" ++ String "010" "")%string);
                          (Out, sample_output)] None 0) eq_refl eq_refl)
           sample_listing sample_output_lines ltac:(repeat constructor)).
Defined.

(** ** The thread pool *)

Section PoolFacts.

Import Pool.

(** *** Running a schedule *)

Lemma task_eqb_eq (t u : task) : task_eqb t u = true -> t = u.
Proof.
  unfold task_eqb. intros H.
  apply andb_prop in H as [H Hp]. apply andb_prop in H as [Hb Hs].
  apply Nat.eqb_eq in Hb, Hs. apply String.eqb_eq in Hp.
  destruct t, u. cbn in *. now subst.
Qed.

Lemma ending_of_In (u : task) (tr : list pevent) (how : ending) :
  ending_of u tr = Some how -> In (EvFinish u how) tr.
Proof.
  induction tr as [|e tr IH]; [discriminate|].
  destruct e as [t|t|t h|t|t|]; cbn [ending_of]; intros H;
    try (right; now apply IH).
  destruct (task_eqb t u) eqn:E.
  - apply task_eqb_eq in E as ->. injection H as ->. now left.
  - right. now apply IH.
Qed.

Lemma nth_error_split_at {A : Type} (l : list A) (i : nat) (x : A) :
  nth_error l i = Some x -> l = firstn i l ++ x :: skipn (S i) l.
Proof.
  revert i. induction l as [|y l IH]; intros [|i] H; try discriminate.
  - injection H as ->. reflexivity.
  - cbn [firstn skipn app]. f_equal. now apply IH.
Qed.

(** A step of a schedule is a step of the pool. *)
Lemma exec_step (W : nat) (c : choice) (s s' : state) :
  exec W c s = Some s' -> step W s s'.
Proof.
  destruct s as [ct up q r tr]. destruct c; cbn [exec]; intros H.
  - destruct ct; try discriminate. destruct up as [|b bs]; [discriminate|].
    injection H as <-. constructor.
  - destruct ct; try discriminate. destruct up as [|b bs]; [|discriminate].
    injection H as <-. constructor.
  - destruct ct as [|b ts js| |]; try discriminate.
    destruct ts as [|t ts]; [discriminate|].
    injection H as <-. constructor.
  - destruct q as [|t q]; [discriminate|].
    destruct (Nat.ltb_spec (length r) W) as [Hlt|]; [|discriminate].
    injection H as <-. now constructor.
  - destruct (nth_error r i) as [t|] eqn:E; [|discriminate].
    injection H as <-.
    rewrite (nth_error_split_at r i t E) at 1. constructor.
  - destruct ct as [|b ts js| |]; try discriminate.
    destruct ts as [|t ts]; [|discriminate].
    destruct js as [|u js]; [discriminate|].
    destruct (ending_of u tr) as [how|] eqn:E; [|discriminate].
    apply ending_of_In in E.
    destruct how; injection H as <-.
    + now apply (step_join W b u js up q r Completed).
    + now apply (step_join W b u js up q r Failed).
    + now apply step_abort.
  - destruct ct as [|b ts js| |]; try discriminate.
    destruct ts as [|t ts]; [|discriminate].
    destruct js as [|u js]; [|discriminate].
    injection H as <-. constructor.
  - destruct ct; try discriminate.
    destruct q; [|discriminate]. destruct r; [|discriminate].
    injection H as <-. constructor.
Qed.

Lemma run_reachable (W : nat) (packages : list string) (cs : list choice)
    (s s' : state) :
  reachable W packages s -> run W cs s = Some s' -> reachable W packages s'.
Proof.
  revert s. induction cs as [|c cs IH]; intros s Hs H; cbn [run] in H.
  - now injection H as <-.
  - destruct (exec W c s) as [s1|] eqn:E; [|discriminate].
    apply (IH s1); [|assumption].
    apply (reach_step W packages s s1 Hs). exact (exec_step W c s s1 E).
Qed.

(** *** The batches of calls *)

Lemma batch_tasks_In (b : nat) (batch : list string) (t : task) :
  In t (batch_tasks b batch) -> t_batch t = b.
Proof.
  unfold batch_tasks. intros H. apply in_map_iff in H as [sp [<- _]].
  reflexivity.
Qed.

Lemma combine_seq_fst {A : Type} (l : list A) (start : nat) :
  map fst (combine (seq start (length l)) l) = seq start (length l).
Proof.
  revert start. induction l as [|x l IH]; intros start; [reflexivity|].
  cbn [length seq combine map fst]. now rewrite IH.
Qed.

Lemma batch_tasks_NoDup (b : nat) (batch : list string) :
  NoDup (batch_tasks b batch).
Proof.
  apply (NoDup_map_inv t_slot). unfold batch_tasks. rewrite map_map.
  cbn [t_slot]. rewrite combine_seq_fst. apply seq_NoDup.
Qed.

Lemma batch_tasks_length (b : nat) (batch : list string) :
  length (batch_tasks b batch) = length batch.
Proof.
  unfold batch_tasks. rewrite length_map, length_combine, length_seq. lia.
Qed.

Lemma number_from_nth (b : nat) (bs : list (list string)) (i : nat)
    (tb : list task) :
  nth_error (number_from b bs) i = Some tb ->
  exists batch, nth_error bs i = Some batch /\ tb = batch_tasks (b + i) batch.
Proof.
  revert b i. induction bs as [|batch bs IH]; intros b [|i] H;
    cbn [number_from nth_error] in *; try discriminate.
  - injection H as <-. exists batch. now rewrite Nat.add_0_r.
  - destruct (IH (S b) i H) as [batch' [E ->]].
    exists batch'. split; [assumption|]. f_equal. lia.
Qed.

Lemma task_batches_numbered (packages : list string) :
  numbered (task_batches packages).
Proof.
  unfold task_batches. split.
  - intros i b t Hb Ht.
    destruct (number_from_nth 0 _ i b Hb) as [batch [_ ->]].
    now apply batch_tasks_In in Ht.
  - intros b Hb. apply In_nth_error in Hb as [i Hb].
    destruct (number_from_nth 0 _ i b Hb) as [batch [_ ->]].
    apply batch_tasks_NoDup.
Qed.

Lemma task_batches_bound (packages : list string) (i : nat) (b : list task) :
  nth_error (task_batches packages) i = Some b -> 1 <= length b <= batch_size.
Proof.
  intros Hb. destruct (number_from_nth 0 _ i b Hb) as [batch [E ->]].
  rewrite batch_tasks_length.
  apply nth_error_In in E.
  pose proof (batches_of_bounds batch_size ltac:(unfold batch_size; lia) packages)
    as Hall.
  rewrite Forall_forall in Hall. now apply Hall.
Qed.

(** *** The invariant *)

Lemma finished_cons (u : task) (e : pevent) (tr : list pevent) :
  finished u tr -> finished u (e :: tr).
Proof. intros [how H]. exists how. now right. Qed.

Lemma all_finished_cons (tbs : list (list task)) (m : nat) (e : pevent)
    (tr : list pevent) :
  all_finished tbs m tr -> all_finished tbs m (e :: tr).
Proof. intros H i b u Hi Hb Hu. apply finished_cons. now apply (H i b). Qed.

Lemma barrier_cons (univ : list task) (e : pevent) (tr : list pevent) :
  barrier univ tr ->
  (forall t u, e = EvSubmit t \/ e = EvStart t ->
               In u univ -> t_batch u < t_batch t -> finished u tr) ->
  barrier univ (e :: tr).
Proof.
  intros Hbar Hnew tr2 e0 t tr1 u Heq He Hu Hlt.
  destruct tr2 as [|x tr2]; cbn [app] in Heq; injection Heq as -> ->.
  - now apply (Hnew t u).
  - now apply (Hbar tr2 e0 t tr1 u).
Qed.

Lemma skipn_cons_nth {A : Type} (l : list A) (n : nat) (x : A) (rest : list A) :
  skipn n l = x :: rest -> nth_error l n = Some x /\ skipn (S n) l = rest.
Proof.
  revert n. induction l as [|y l IH]; intros [|n] H; cbn [skipn] in H;
    try discriminate.
  - injection H as -> ->. now split.
  - now apply IH.
Qed.

Section Invariant.

Variable tbs : list (list task).
Hypothesis Hnum : numbered tbs.

(** The calls of the batches before the one of [t] have ended. *)
Lemma earlier_finished (k : nat) (b : list task) (t u : task)
    (tr : list pevent) :
  nth_error tbs k = Some b -> In t b -> all_finished tbs k tr ->
  In u (concat tbs) -> t_batch u < t_batch t -> finished u tr.
Proof.
  intros Hb Ht Hall Hu Hlt. destruct Hnum as [Hn _].
  apply in_concat in Hu as [b' [Hb' Hu]].
  apply In_nth_error in Hb' as [i Hb'].
  rewrite (Hn k b t Hb Ht), (Hn i b' u Hb' Hu) in Hlt.
  now apply (Hall i b').
Qed.

Lemma perm_submit (t : task) (ts q r : list task) :
  Permutation ((t :: ts) ++ q ++ r) (ts ++ (q ++ [t]) ++ r).
Proof.
  cbn [app]. rewrite <- (app_assoc q [t] r). cbn [app].
  rewrite (app_assoc ts q (t :: r)).
  apply Permutation_cons_app. now rewrite app_assoc.
Qed.

Lemma perm_start (x : list task) (t : task) (q r : list task) :
  Permutation (x ++ (t :: q) ++ r) (x ++ q ++ t :: r).
Proof.
  apply Permutation_app_head. cbn [app].
  apply Permutation_cons_app. reflexivity.
Qed.

Lemma invariant_init : invariant tbs (State LoopHead tbs [] [] []).
Proof.
  exists 0. unfold pending; cbn [ctrl upcoming queue running trace skipn app].
  split; [reflexivity|]. split; [intros t how []|].
  split; [constructor|]. split; [intros t []|].
  split.
  - intros tr2 e t tr1 u H. destruct tr2; discriminate.
  - split; [|split; reflexivity]. intros i b u Hi. lia.
Qed.

Lemma step_invariant (W : nat) (s s' : state) :
  invariant tbs s -> step W s s' -> invariant tbs s'.
Proof.
  intros [n (Hup & Hfin & Hnd & Hpend & Hbar & Hc)] Hstep.
  destruct Hnum as [Hn Hdup].
  destruct Hstep as [b bs q r tr|q r tr|b t ts js up q r tr|c up t q r tr Hlt
                    |c up q r1 t r2 how tr|b u js up q r how tr Hu Hhow
                    |b u js up q r tr Hu|b up q r tr|up tr];
    unfold pending in *; cbn [ctrl upcoming queue running trace] in *.
  - (* the next batch *)
    destruct Hc as (Hall & -> & ->).
    symmetry in Hup. apply skipn_cons_nth in Hup as [Hb Hbs].
    exists (S n). unfold pending; cbn [ctrl upcoming queue running trace].
    rewrite !app_nil_r.
    split; [now symmetry|].
    split; [intros t how Ht; apply Hfin in Ht; lia|].
    split; [apply Hdup; now apply nth_error_In in Hb|].
    split.
    { intros t Ht [how Hf]. apply Hfin in Hf. rewrite (Hn n b t Hb Ht) in Hf. lia. }
    split; [assumption|].
    exists n. split; [reflexivity|]. split; [assumption|].
    split; [assumption|]. split; [now left|]. apply incl_refl.
  - (* the end of the loop *)
    destruct Hc as (Hall & -> & ->).
    exists n. unfold pending; cbn [ctrl upcoming queue running trace].
    repeat (split; [assumption|]). now split.
  - (* submit *)
    destruct Hc as (k & -> & Hb & Hall & Hjs & Hincl).
    pose proof (perm_submit t ts q r) as Hperm.
    assert (Ht : In t b) by (apply Hincl; now left).
    exists (S k). unfold pending; cbn [ctrl upcoming queue running trace].
    split; [assumption|].
    split.
    { intros t0 how [H|H]; [discriminate|]. now apply (Hfin t0 how). }
    split; [now apply (Permutation_NoDup Hperm)|].
    split.
    { intros t0 Ht0 [how [H|H]]; [discriminate|].
      apply (Hpend t0); [|now exists how].
      now apply (Permutation_in t0 (Permutation_sym Hperm)). }
    split.
    { apply barrier_cons; [assumption|].
      intros t0 u0 [E|E] Hu0 Hlt; [|discriminate]. injection E as <-.
      now apply (earlier_finished k b t u0). }
    exists k. split; [reflexivity|]. split; [assumption|].
    split; [now apply all_finished_cons|].
    split.
    { intros u0 Hu0. destruct (Hjs u0 Hu0) as [H|H]; [now left|].
      right. now apply finished_cons. }
    intros t0 Ht0. apply Hincl.
    now apply (Permutation_in t0 (Permutation_sym Hperm)).
  - (* start *)
    set (x := match c with InBatch _ ts _ => ts | _ => [] end) in *.
    pose proof (perm_start x t q r) as Hperm.
    assert (Hnew : forall u0, In u0 (concat tbs) -> t_batch u0 < t_batch t ->
                              finished u0 tr).
    { intros u0 Hu0 Hlt0.
      assert (Htp : In t (x ++ (t :: q) ++ r)).
      { apply in_or_app. right. now left. }
      destruct c as [|b ts js| |].
      - destruct Hc as (_ & Hq & _). discriminate.
      - destruct Hc as (k & -> & Hb & Hall & _ & Hincl).
        apply (earlier_finished k b t u0); auto.
      - destruct Hc as (k & b & -> & Hb & Hall & Hincl).
        apply (earlier_finished k b t u0); auto.
      - destruct Hc as (Hq & _). discriminate. }
    exists n. unfold pending; cbn [ctrl upcoming queue running trace]. fold x.
    split; [assumption|].
    split.
    { intros t0 how [H|H]; [discriminate|]. now apply (Hfin t0 how). }
    split; [now apply (Permutation_NoDup Hperm)|].
    split.
    { intros t0 Ht0 [how [H|H]]; [discriminate|].
      apply (Hpend t0); [|now exists how].
      now apply (Permutation_in t0 (Permutation_sym Hperm)). }
    split.
    { apply barrier_cons; [assumption|].
      intros t0 u0 [E|E] Hu0 Hlt0; [discriminate|]. injection E as <-.
      now apply Hnew. }
    destruct c as [|b ts js| |].
    + destruct Hc as (_ & Hq & _). discriminate.
    + destruct Hc as (k & -> & Hb & Hall & Hjs & Hincl).
      exists k. split; [reflexivity|]. split; [assumption|].
      split; [now apply all_finished_cons|].
      split.
      { intros u0 Hu0. destruct (Hjs u0 Hu0) as [H|H]; [now left|].
        right. now apply finished_cons. }
      intros t0 Ht0. apply Hincl.
      now apply (Permutation_in t0 (Permutation_sym Hperm)).
    + destruct Hc as (k & b & -> & Hb & Hall & Hincl).
      exists k, b. split; [reflexivity|]. split; [assumption|].
      split; [now apply all_finished_cons|].
      intros t0 Ht0. apply Hincl.
      now apply (Permutation_in t0 (Permutation_sym Hperm)).
    + destruct Hc as (Hq & _). discriminate.
  - (* a call ends *)
    set (x := match c with InBatch _ ts _ => ts | _ => [] end) in *.
    assert (Hsub : forall t0, In t0 (x ++ q ++ r1 ++ r2) ->
                              In t0 (x ++ q ++ r1 ++ t :: r2)).
    { intros t0 H. rewrite !in_app_iff in *. cbn [In]. tauto. }
    assert (Htp : In t (x ++ q ++ r1 ++ t :: r2)).
    { rewrite !in_app_iff. cbn [In]. tauto. }
    assert (Hnd2 : NoDup (x ++ q ++ r1 ++ r2) /\ ~ In t (x ++ q ++ r1 ++ r2)).
    { rewrite !app_assoc in Hnd |- *. split.
      - now apply NoDup_remove_1 in Hnd.
      - now apply NoDup_remove_2 in Hnd. }
    destruct Hnd2 as [Hnd2 Hnot].
    assert (Hbatch : t_batch t < n).
    { destruct c as [|b ts js| |].
      - destruct Hc as (_ & _ & Hr). now destruct r1.
      - destruct Hc as (k & -> & Hb & _ & _ & Hincl).
        rewrite (Hn k b t Hb (Hincl t Htp)). lia.
      - destruct Hc as (k & b & -> & Hb & _ & Hincl).
        rewrite (Hn k b t Hb (Hincl t Htp)). lia.
      - destruct Hc as (_ & Hr). now destruct r1. }
    exists n. unfold pending; cbn [ctrl upcoming queue running trace]. fold x.
    split; [assumption|].
    split.
    { intros t0 how0 [H|H]; [now injection H as <- <-|]. now apply (Hfin t0 how0). }
    split; [assumption|].
    split.
    { intros t0 Ht0 [how0 [H|H]].
      - injection H as <- <-. now apply Hnot.
      - apply (Hpend t0); [now apply Hsub|now exists how0]. }
    split.
    { apply barrier_cons; [assumption|].
      intros t0 u0 [E|E]; discriminate. }
    destruct c as [|b ts js| |].
    + destruct Hc as (_ & _ & Hr). now destruct r1.
    + destruct Hc as (k & -> & Hb & Hall & Hjs & Hincl).
      exists k. split; [reflexivity|]. split; [assumption|].
      split; [now apply all_finished_cons|].
      split.
      { intros u0 Hu0. destruct (Hjs u0 Hu0) as [H|H]; [now left|].
        right. now apply finished_cons. }
      intros t0 Ht0. now apply Hincl, Hsub.
    + destruct Hc as (k & b & -> & Hb & Hall & Hincl).
      exists k, b. split; [reflexivity|]. split; [assumption|].
      split; [now apply all_finished_cons|].
      intros t0 Ht0. now apply Hincl, Hsub.
    + destruct Hc as (_ & Hr). now destruct r1.
  - (* join *)
    destruct Hc as (k & -> & Hb & Hall & Hjs & Hincl).
    exists (S k). unfold pending; cbn [ctrl upcoming queue running trace].
    split; [assumption|].
    split.
    { intros t0 how0 [H|H]; [discriminate|]. now apply (Hfin t0 how0). }
    split; [assumption|].
    split.
    { intros t0 Ht0 [how0 [H|H]]; [discriminate|].
      apply (Hpend t0 Ht0). now exists how0. }
    split.
    { apply barrier_cons; [assumption|]. intros t0 u0 [E|E]; discriminate. }
    exists k. split; [reflexivity|]. split; [assumption|].
    split; [now apply all_finished_cons|].
    split; [|assumption].
    intros u0 Hu0. destruct (Hjs u0 Hu0) as [[<-|H]|H].
    + right. exists how. now right.
    + now left.
    + right. now apply finished_cons.
  - (* the exception goes up *)
    destruct Hc as (k & -> & Hb & Hall & Hjs & Hincl).
    exists (S k). unfold pending; cbn [ctrl upcoming queue running trace].
    split; [assumption|].
    split.
    { intros t0 how0 [H|H]; [discriminate|]. now apply (Hfin t0 how0). }
    split; [assumption|].
    split.
    { intros t0 Ht0 [how0 [H|H]]; [discriminate|].
      apply (Hpend t0 Ht0). now exists how0. }
    split.
    { apply barrier_cons; [assumption|]. intros t0 u0 [E|E]; discriminate. }
    exists k, b. split; [reflexivity|]. split; [assumption|].
    split; [now apply all_finished_cons|]. assumption.
  - (* sleep *)
    destruct Hc as (k & -> & Hb & Hall & Hjs & Hincl).
    assert (Hempty : q = [] /\ r = []).
    { destruct q as [|t0 q].
      - destruct r as [|t0 r]; [now split|].
        exfalso. apply (Hpend t0); [now left|].
        destruct (Hjs t0 (Hincl t0 ltac:(now left))) as [[]|H]. exact H.
      - exfalso. apply (Hpend t0); [now left|].
        destruct (Hjs t0 (Hincl t0 ltac:(now left))) as [[]|H]. exact H. }
    destruct Hempty as [-> ->].
    exists (S k). unfold pending; cbn [ctrl upcoming queue running trace].
    split; [assumption|].
    split.
    { intros t0 how0 [H|H]; [discriminate|]. now apply (Hfin t0 how0). }
    split; [constructor|].
    split; [intros t0 []|].
    split.
    { apply barrier_cons; [assumption|]. intros t0 u0 [E|E]; discriminate. }
    split; [|now split].
    intros i b' u0 Hi Hb' Hu0. apply finished_cons.
    destruct (Nat.eq_dec i k) as [->|Hne].
    + rewrite Hb in Hb'. injection Hb' as <-.
      destruct (Hjs u0 Hu0) as [[]|H]. exact H.
    + apply (Hall i b' u0); [lia|assumption|assumption].
  - (* the with block lets the exception go *)
    destruct Hc as (k & b & -> & Hb & Hall & Hincl).
    exists (S k). unfold pending; cbn [ctrl upcoming queue running trace].
    repeat (split; [assumption|]). now split.
Qed.

End Invariant.

Lemma reachable_invariant (W : nat) (packages : list string) (s : state) :
  reachable W packages s -> invariant (task_batches packages) s.
Proof.
  induction 1 as [|s s' _ IH Hstep].
  - apply invariant_init.
  - exact (step_invariant _ (task_batches_numbered packages) W s s' IH Hstep).
Qed.

(** *** From one batch to the next *)

Example all_at_once_runs :
  option_map (fun s => (ctrl s, queue s, running s, length (trace s)))
    (run 5 all_at_once (init ["a"; "b"; "c"; "d"; "e"]))
  = Some (Returned, [], [], 22)
  /\ option_map (fun s => length (running s))
       (run 5 (firstn 9 all_at_once) (init ["a"; "b"; "c"; "d"; "e"]))
     = Some 4.
Proof. split; reflexivity. Qed.

(** A call that raises: [future.result()] raises, no other batch is taken,
    and the call that was queued still runs before the [with] block lets
    the exception go. *)
Example both_raise_runs :
  option_map (fun s => (ctrl s, rev (trace s)))
    (run 1 both_raise (init ["a"; "b"]))
  = Some (Returned,
          [EvSubmit (Task 0 0 "a"); EvSubmit (Task 0 1 "b");
           EvStart (Task 0 0 "a"); EvFinish (Task 0 0 "a") Raised;
           EvAbort (Task 0 0 "a");
           EvStart (Task 0 1 "b"); EvFinish (Task 0 1 "b") Raised]).
Proof. reflexivity. Qed.

(** C2. On every schedule of the pool, whatever its bound, and whatever
    the calls do (end well, fail, or raise): when a call is submitted or
    starts, every call of every earlier batch has ended.  The main thread
    takes the next batch only after [future.result()] has returned for every
    call of the current one. *)
Theorem batches_run_one_after_the_other (W : nat) (packages : list string)
    (s : state) :
  reachable W packages s ->
  barrier (all_tasks packages) (trace s)
  /\ (forall b ts js,
        ctrl s = InBatch b ts js ->
        forall t, In t (ts ++ queue s ++ running s) -> In t b)
  /\ (ctrl s = LoopHead -> queue s = [] /\ running s = []).
Proof.
  intros Hs. apply reachable_invariant in Hs.
  destruct Hs as [n (_ & _ & _ & _ & Hbar & Hc)].
  split; [exact Hbar|]. split.
  - intros b ts js E. rewrite E in Hc.
    destruct Hc as (k & _ & _ & _ & _ & Hincl).
    unfold pending in Hincl. rewrite E in Hincl. exact Hincl.
  - intros E. rewrite E in Hc. tauto.
Qed.

Lemma batches_run_one_after_the_other_witness :
  exists s,
    run 5 all_at_once (init ["a"; "b"; "c"; "d"; "e"]) = Some s
    /\ ctrl s = Returned
    /\ barrier (all_tasks ["a"; "b"; "c"; "d"; "e"]) (trace s).
Proof.
  eexists. split; [reflexivity|]. split; [reflexivity|].
  apply (batches_run_one_after_the_other 5 ["a"; "b"; "c"; "d"; "e"]).
  apply (run_reachable 5 _ all_at_once (init ["a"; "b"; "c"; "d"; "e"]));
    [apply reach_init | reflexivity].
Defined.

(** *** Within a batch *)

(** With the default bound of 5 workers and a batch of two packages, the
    first call may end before the second is even submitted: the lifetimes of
    the calls of a batch need not overlap. *)
Lemma a_call_may_end_before_its_sibling_starts :
  exists s,
    run 5 one_after_the_other (init ["a"; "b"]) = Some s
    /\ reachable 5 ["a"; "b"] s
    /\ ctrl s = Returned
    /\ task_batches ["a"; "b"] = [[Task 0 0 "a"; Task 0 1 "b"]]
    /\ ~ lifetimes_overlap (all_tasks ["a"; "b"]) (trace s).
Proof.
  eexists. split; [reflexivity|]. split; [|split; [reflexivity|split; [reflexivity|]]].
  - apply (run_reachable 5 _ one_after_the_other (init ["a"; "b"]));
      [apply reach_init | reflexivity].
  - intros H.
    specialize (H [EvSleep; EvJoin (Task 0 1 "b"); EvJoin (Task 0 0 "a");
                   EvFinish (Task 0 1 "b") Failed; EvStart (Task 0 1 "b");
                   EvSubmit (Task 0 1 "b")]
                  (Task 0 0 "a") Completed
                  [EvStart (Task 0 0 "a"); EvSubmit (Task 0 0 "a")]
                  (Task 0 1 "b") eq_refl).
    destruct H as [H|[H|[]]]; try discriminate.
    + right. now left.
    + now left.
    + reflexivity.
Qed.

(** C9, as the code has it. A batch has at most four calls.  When the
    bound of the pool is at least the size of the current batch, no call of
    the batch waits for another call to end: whenever a call is queued,
    fewer than [W] calls are running, and a worker can start it at once. *)
Theorem no_call_waits_for_a_sibling (W : nat) (packages : list string)
    (s : state) (b ts js : list task) :
  reachable W packages s ->
  ctrl s = InBatch b ts js ->
  length b <= batch_size
  /\ (length b <= W ->
      forall t q,
        queue s = t :: q ->
        length (running s) < W
        /\ step W s (State (ctrl s) (upcoming s) q (t :: running s)
                           (EvStart t :: trace s))).
Proof.
  intros Hs E. apply reachable_invariant in Hs.
  destruct Hs as [n (_ & _ & Hnd & _ & _ & Hc)].
  rewrite E in Hc. destruct Hc as (k & _ & Hb & _ & _ & Hincl).
  split; [now apply (task_batches_bound packages k b)|].
  intros HW t q Hq.
  pose proof (NoDup_incl_length Hnd Hincl) as Hlen.
  unfold pending in Hlen. rewrite E, Hq, !length_app in Hlen.
  cbn [length] in Hlen.
  assert (Hlt : length (running s) < W) by lia.
  split; [exact Hlt|].
  destruct s as [c up q0 r tr]. cbn [ctrl upcoming queue running trace] in *.
  subst q0. now constructor.
Qed.

Lemma no_call_waits_for_a_sibling_witness :
  exists s,
    run 5 two_submitted (init ["a"; "b"]) = Some s
    /\ queue s = [Task 0 0 "a"; Task 0 1 "b"]
    /\ length (running s) < 5.
Proof.
  eexists. split; [reflexivity|].
  match goal with
  | |- queue ?s = _ /\ _ =>
      split; [reflexivity|];
      refine (proj1 (proj2 (no_call_waits_for_a_sibling 5 ["a"; "b"] s _ _ _
                              _ eq_refl) _ _ _ eq_refl))
  end.
  - apply (run_reachable 5 _ two_submitted (init ["a"; "b"]));
      [apply reach_init | reflexivity].
  - cbn. lia.
Defined.

End PoolFacts.

(** ** The functions around the runner *)

Section HostFacts.

Import Host.

(** *** The monad of the script *)

Lemma hbind_Done {A B : Type} (m : H A) (k : A -> H B) (a : A) :
  snd m = Done a -> bind m k = (fst m ++ fst (k a), snd (k a)).
Proof. unfold bind; intros ->; reflexivity. Qed.

Lemma hbind_Raised {A B : Type} (m : H A) (k : A -> H B) (e : exn) :
  snd m = Raised e -> bind m k = (fst m, Raised e).
Proof. unfold bind; intros ->; reflexivity. Qed.

Lemma hbind_Exited {A B : Type} (m : H A) (k : A -> H B) (c : Z) :
  snd m = Exited c -> bind m k = (fst m, Exited c).
Proof. unfold bind; intros ->; reflexivity. Qed.

Lemma htry_Done {A : Type} (body : H A) (handler : exn -> H A) (a : A) :
  snd body = Done a -> try_except body handler = body.
Proof. unfold try_except; intros ->; reflexivity. Qed.

Lemma htry_Raised {A : Type} (body : H A) (handler : exn -> H A) (e : exn) :
  snd body = Raised e ->
  try_except body handler = (fst body ++ fst (handler e), snd (handler e)).
Proof. unfold try_except; intros ->; reflexivity. Qed.

Lemma hbind_ret {A B : Type} (a : A) (k : A -> H B) : bind (ret a) k = k a.
Proof. unfold bind, ret. cbn [fst snd app]. now destruct (k a). Qed.

Lemma hbind_pair_Done {A B : Type} (t : list hevent) (a : A) (k : A -> H B) :
  bind (t, Done a) k = (t ++ fst (k a), snd (k a)).
Proof. reflexivity. Qed.

Lemma hbind_pair_Raised {A B : Type} (t : list hevent) (e : exn) (k : A -> H B) :
  bind (t, Raised e) k = (t, Raised e).
Proof. reflexivity. Qed.

Lemma htry_pair_Done {A : Type} (t : list hevent) (a : A) (handler : exn -> H A) :
  try_except (t, Done a) handler = (t, Done a).
Proof. reflexivity. Qed.

Lemma htry_pair_Raised {A : Type} (t : list hevent) (e : exn)
    (handler : exn -> H A) :
  try_except (t, Raised e) handler = (t ++ fst (handler e), snd (handler e)).
Proof. reflexivity. Qed.

Lemma hbind_info {B : Type} (msg : string) (k : unit -> H B) :
  bind (logger_info msg) k = (HLog INFO msg :: fst (k tt), snd (k tt)).
Proof. reflexivity. Qed.

Lemma hbind_error {B : Type} (msg : string) (k : unit -> H B) :
  bind (logger_error msg) k = (HLog ERROR msg :: fst (k tt), snd (k tt)).
Proof. reflexivity. Qed.

Lemma runs_app (t1 t2 : list hevent) : runs (t1 ++ t2) = runs t1 ++ runs t2.
Proof. apply flat_map_app. Qed.

Lemma hlog_lines_app (t1 t2 : list hevent) :
  hlog_lines (t1 ++ t2) = hlog_lines t1 ++ hlog_lines t2.
Proof. apply flat_map_app. Qed.

Lemma runs_map_Run (cs : list call) : runs (map Run cs) = cs.
Proof. induction cs as [|c cs IH]; simpl; [reflexivity|]. now rewrite IH. Qed.

Lemma hlog_lines_map_Run (cs : list call) : hlog_lines (map Run cs) = [].
Proof. induction cs as [|c cs IH]; simpl; [reflexivity|]. exact IH. Qed.

(** *** [subprocess.run] *)

(** With captured output and no [check]: the launch and the decoding are the
    only ways to fail. *)
Lemma run_captured (py : pylib) (h : host) (c : call) :
  subprocess_run py h c true false
  = ([Run c],
     match launch h c with
     | SpawnFails e => Raised e
     | Spawns ch =>
         match child_fault ch with
         | Some e => Raised e
         | None => Done {| cp_returncode := child_returncode ch;
                           cp_stdout := Some (captured ch) |}
         end
     end).
Proof.
  unfold subprocess_run. destruct (launch h c) as [e|ch]; [reflexivity|].
  destruct (child_fault ch); reflexivity.
Qed.

(** With neither: only the launch can fail. *)
Lemma run_plain (py : pylib) (h : host) (c : call) :
  subprocess_run py h c false false
  = ([Run c],
     match launch h c with
     | SpawnFails e => Raised e
     | Spawns ch => Done {| cp_returncode := child_returncode ch;
                            cp_stdout := None |}
     end).
Proof.
  unfold subprocess_run. destruct (launch h c) as [e|ch]; reflexivity.
Qed.

(** With [check]: the launch, or an exit status other than 0. *)
Lemma run_checked (py : pylib) (h : host) (c : call) :
  subprocess_run py h c false true
  = ([Run c],
     match launch h c with
     | SpawnFails e => Raised e
     | Spawns ch =>
         if (child_returncode ch =? 0)%Z
         then Done {| cp_returncode := child_returncode ch; cp_stdout := None |}
         else Raised (Exn CalledProcessError (cpe_str py c (child_returncode ch)))
     end).
Proof.
  unfold subprocess_run. destruct (launch h c) as [e|ch]; [reflexivity|].
  destruct (child_returncode ch =? 0)%Z; reflexivity.
Qed.

Lemma run_checked_ok (py : pylib) (h : host) (c : call) :
  launch_ok h c = true ->
  exists r, subprocess_run py h c false true = ([Run c], Done r).
Proof.
  intros Hok. rewrite run_checked. unfold launch_ok in Hok.
  destruct (launch h c) as [e|ch]; [discriminate|].
  rewrite Hok. eauto.
Qed.

Lemma run_checked_fails (py : pylib) (h : host) (c : call) :
  launch_ok h c = false ->
  exists e, subprocess_run py h c false true = ([Run c], Raised e).
Proof.
  intros Hok. rewrite run_checked. unfold launch_ok in Hok.
  destruct (launch h c) as [e|ch]; [eauto|].
  rewrite Hok. eauto.
Qed.

(** *** [get_connected_devices] and [check_device_online] *)

Lemma get_connected_devices_eq (py : pylib) (h : host) :
  get_connected_devices py h
  = ([Run adb_devices],
     match launch h adb_devices with
     | SpawnFails e => Raised e
     | Spawns ch =>
         match child_fault ch with
         | Some e => Raised e
         | None => Done (parse_devices (captured ch))
         end
     end).
Proof.
  unfold get_connected_devices. rewrite run_captured.
  destruct (launch h adb_devices) as [e|ch]; [reflexivity|].
  destruct (child_fault ch); reflexivity.
Qed.

Lemma get_connected_devices_never_exits (py : pylib) (h : host) (code : Z) :
  snd (get_connected_devices py h) <> Exited code.
Proof.
  rewrite get_connected_devices_eq. cbn [snd].
  destruct (launch h adb_devices) as [e|ch]; [discriminate|].
  destruct (child_fault ch); discriminate.
Qed.

Lemma inb_In (x : string) (l : list string) : inb x l = true <-> In x l.
Proof.
  unfold inb. rewrite existsb_exists. split.
  - intros [y [Hy E]]. apply String.eqb_eq in E. now subst.
  - intros Hx. exists x. split; [assumption|]. apply String.eqb_refl.
Qed.

Lemma check_device_online_listed (py : pylib) (h : host) (d : string)
    (l : list string) :
  snd (get_connected_devices py h) = Done l ->
  check_device_online py h d = ([Run adb_devices], Done (inb d l)).
Proof.
  intros Hl. unfold check_device_online.
  rewrite (hbind_Done _ _ l Hl).
  rewrite get_connected_devices_eq. cbn [fst snd ret app].
  reflexivity.
Qed.

Lemma check_device_online_failed (py : pylib) (h : host) (d : string) (e : exn) :
  snd (get_connected_devices py h) = Raised e ->
  check_device_online py h d
  = ([Run adb_devices; HLog ERROR ("检查设备状态时发生错误: " ++ exn_str e)],
     Done false).
Proof.
  intros He. unfold check_device_online.
  rewrite (hbind_Raised _ _ e He).
  rewrite get_connected_devices_eq. reflexivity.
Qed.

Lemma check_device_online_runs (py : pylib) (h : host) (d : string) :
  runs (fst (check_device_online py h d)) = [adb_devices].
Proof.
  destruct (snd (get_connected_devices py h)) as [l|e|code] eqn:E.
  - now rewrite (check_device_online_listed py h d l E).
  - now rewrite (check_device_online_failed py h d e E).
  - exfalso. exact (get_connected_devices_never_exits py h code E).
Qed.

(** X1. [check_device_online] never raises and runs one command,
    [adb devices].  It returns [True] exactly when [get_connected_devices]
    returns a list that holds the device; when [get_connected_devices] raises
    (adb cannot be launched, its output cannot be decoded), it logs one error
    line with the text of the exception and returns [False]; otherwise it
    logs nothing. *)
Theorem check_device_online_never_raises (py : pylib) (h : host) (d : string) :
  exists b,
    snd (check_device_online py h d) = Done b
    /\ runs (fst (check_device_online py h d)) = [adb_devices]
    /\ (b = true <->
        exists l, snd (get_connected_devices py h) = Done l /\ In d l)
    /\ (forall l, snd (get_connected_devices py h) = Done l ->
          hlog_lines (fst (check_device_online py h d)) = [])
    /\ (forall e, snd (get_connected_devices py h) = Raised e ->
          b = false
          /\ hlog_lines (fst (check_device_online py h d))
             = [(ERROR, ("检查设备状态时发生错误: " ++ exn_str e)%string)]).
Proof.
  destruct (snd (get_connected_devices py h)) as [l|e|code] eqn:E.
  - rewrite (check_device_online_listed py h d l E).
    exists (inb d l). split; [reflexivity|]. split; [reflexivity|].
    split; [|split].
    + split.
      * intros Hb. exists l. split; [reflexivity|]. now apply inb_In.
      * intros [l' [El' Hin]]. injection El' as <-. now apply inb_In.
    + reflexivity.
    + discriminate.
  - rewrite (check_device_online_failed py h d e E).
    exists false. split; [reflexivity|]. split; [reflexivity|].
    split; [|split].
    + split; [discriminate|]. intros [l [El _]]. discriminate.
    + discriminate.
    + intros e' He'. injection He' as <-. split; reflexivity.
  - exfalso. exact (get_connected_devices_never_exits py h code E).
Qed.

(** *** [push_library] *)

Lemma until_failure_all_ok (h : host) (cs : list call) :
  forallb (launch_ok h) cs = true -> until_failure h cs = cs.
Proof.
  induction cs as [|c cs IH]; simpl; [reflexivity|].
  intros Hok. apply andb_prop in Hok as [Hc Hcs].
  rewrite Hc. now rewrite IH.
Qed.

Lemma until_failure_app_fails (h : host) (cs cs' : list call) :
  forallb (launch_ok h) cs = false ->
  until_failure h (cs ++ cs') = until_failure h cs.
Proof.
  induction cs as [|c cs IH]; simpl; [discriminate|].
  destruct (launch_ok h c); simpl; [|reflexivity].
  intros Hcs. now rewrite IH.
Qed.

Lemma until_failure_app_ok (h : host) (cs cs' : list call) :
  forallb (launch_ok h) cs = true ->
  until_failure h (cs ++ cs') = cs ++ until_failure h cs'.
Proof.
  induction cs as [|c cs IH]; simpl; [reflexivity|].
  intros Hok. apply andb_prop in Hok as [Hc Hcs].
  rewrite Hc. now rewrite IH.
Qed.

(** The loop of lines 331-334 stops at the first push that fails. *)
Lemma for_each_pushes (py : pylib) (h : host) (f : string -> call)
    (l : list string) :
  if forallb (launch_ok h) (map f l)
  then for_each l (fun x =>
         bind (subprocess_run py h (f x) false true) (fun _ => ret tt))
       = (map Run (map f l), Done tt)
  else exists e,
       for_each l (fun x =>
         bind (subprocess_run py h (f x) false true) (fun _ => ret tt))
       = (map Run (until_failure h (map f l)), Raised e).
Proof.
  induction l as [|x l IH]; [reflexivity|].
  cbn [map forallb until_failure for_each].
  destruct (launch_ok h (f x)) eqn:Hx; cbn [andb].
  - destruct (run_checked_ok py h (f x) Hx) as [r Er]. rewrite Er.
    destruct (forallb (launch_ok h) (map f l)).
    + rewrite IH. reflexivity.
    + destruct IH as [e IH]. exists e. rewrite IH. reflexivity.
  - destruct (run_checked_fails py h (f x) Hx) as [e Ee]. rewrite Ee.
    exists e. reflexivity.
Qed.

(** What [push_library] does once the directory is listed. *)
Lemma push_library_listed (py : pylib) (h : host) (dir_path d : string)
    (names : list string) :
  listdir h (path_join py dir_path "FastBot") = Ok names ->
  let pushes :=
    map (jar_push_call py (path_join py dir_path "FastBot") d)
        (filter (endswith ".jar") names)
    ++ [libs_push_call py dir_path d] in
  if forallb (launch_ok h) pushes
  then push_library py h dir_path d
       = (map Run pushes ++ [HLog INFO "成功推送库文件"], Done true)
  else exists e,
       push_library py h dir_path d
       = (map Run (until_failure h pushes)
          ++ [HLog ERROR ("推送库文件失败: " ++ exn_str e)], Done false).
Proof.
  intros Hnames pushes. subst pushes. unfold push_library. rewrite Hnames.
  pose proof (for_each_pushes py h
                (jar_push_call py (path_join py dir_path "FastBot") d)
                (filter (endswith ".jar") names)) as Hjars.
  rewrite forallb_app. cbn [forallb]. rewrite andb_true_r.
  rewrite hbind_ret.
  destruct (forallb (launch_ok h)
              (map (jar_push_call py (path_join py dir_path "FastBot") d)
                   (filter (endswith ".jar") names))) eqn:Hall; cbn [andb].
  - rewrite (until_failure_app_ok _ _ _ Hall). cbn [until_failure].
    rewrite Hjars, hbind_pair_Done.
    destruct (launch_ok h (libs_push_call py dir_path d)) eqn:Hlibs.
    + destruct (run_checked_ok py h _ Hlibs) as [r Er]. rewrite Er.
      rewrite hbind_pair_Done, !hbind_info. cbn [fst snd ret app].
      rewrite htry_pair_Done, map_app. cbn [map].
      rewrite <- app_assoc. reflexivity.
    + destruct (run_checked_fails py h _ Hlibs) as [e Ee]. rewrite Ee.
      exists e. rewrite hbind_pair_Raised. cbn [fst snd].
      rewrite htry_pair_Raised, !hbind_error. cbn [fst snd ret app].
      rewrite map_app. cbn [map].
      rewrite <- app_assoc. reflexivity.
  - rewrite (until_failure_app_fails _ _ _ Hall).
    destruct Hjars as [e Hjars]. exists e.
    rewrite Hjars, hbind_pair_Raised, htry_pair_Raised, !hbind_error.
    reflexivity.
Qed.

Lemma push_library_unlisted (py : pylib) (h : host) (dir_path d : string)
    (e : exn) :
  listdir h (path_join py dir_path "FastBot") = Raise e ->
  push_library py h dir_path d
  = ([HLog ERROR ("推送库文件失败: " ++ exn_str e)], Done false).
Proof.
  intros He. unfold push_library. rewrite He.
  unfold raise. rewrite hbind_pair_Raised, htry_pair_Raised, !hbind_error.
  reflexivity.
Qed.

(** X2. Once [os.listdir] has listed the directory, [push_library] launches
    the pushes of the [.jar] files, in the order of the listing, and then
    the push of [libs]; it stops at the first push that cannot be launched
    or exits with a status other than 0, and launches nothing after it.  It
    returns [True] exactly when every push went through. *)
Theorem push_library_stops_at_first_failure (py : pylib) (h : host)
    (dir_path d : string) (names : list string) :
  listdir h (path_join py dir_path "FastBot") = Ok names ->
  let pushes :=
    map (jar_push_call py (path_join py dir_path "FastBot") d)
        (filter (endswith ".jar") names)
    ++ [libs_push_call py dir_path d] in
  runs (fst (push_library py h dir_path d)) = until_failure h pushes
  /\ snd (push_library py h dir_path d) = Done (forallb (launch_ok h) pushes).
Proof.
  intros Hnames pushes.
  pose proof (push_library_listed py h dir_path d names Hnames) as Hp.
  cbv zeta in Hp. fold pushes in Hp.
  destruct (forallb (launch_ok h) pushes) eqn:Hall.
  - rewrite Hp. cbn [fst snd]. split; [|reflexivity].
    rewrite runs_app, runs_map_Run, (until_failure_all_ok _ _ Hall).
    apply app_nil_r.
  - destruct Hp as [e Hp]. rewrite Hp. cbn [fst snd]. split; [|reflexivity].
    rewrite runs_app, runs_map_Run. apply app_nil_r.
Qed.

Lemma push_library_stops_at_first_failure_witness :
  runs (fst (push_library posix lab "/opt" device_id))
  = [Shell "adb -s 7NH26450903CG push /opt/FastBot/a.jar /sdcard/";
     Shell "adb -s 7NH26450903CG push /opt/FastBot/b.jar /sdcard/"]
  /\ snd (push_library posix lab "/opt" device_id) = Done false.
Proof.
  exact (push_library_stops_at_first_failure posix lab "/opt" device_id
           ["a.jar"; "notes.txt"; "b.jar"; "c.jar"] eq_refl).
Defined.

(** X3. [push_library] never raises: it returns [True] after one line of
    log at level INFO, or [False] after one line at level ERROR, and it logs
    nothing else.  When [os.listdir] raises, it launches nothing: the error
    line, with the text of the exception, is all it does. *)
Theorem push_library_never_raises (py : pylib) (h : host) (dir_path d : string) :
  exists b,
    snd (push_library py h dir_path d) = Done b
    /\ (exists msg,
          hlog_lines (fst (push_library py h dir_path d))
          = [if b then (INFO, "成功推送库文件")
             else (ERROR, ("推送库文件失败: " ++ msg)%string)])
    /\ (forall e, listdir h (path_join py dir_path "FastBot") = Raise e ->
          b = false
          /\ fst (push_library py h dir_path d)
             = [HLog ERROR ("推送库文件失败: " ++ exn_str e)]).
Proof.
  destruct (listdir h (path_join py dir_path "FastBot")) as [names|e] eqn:El.
  - pose proof (push_library_listed py h dir_path d names El) as Hp.
    cbv zeta in Hp.
    destruct (forallb (launch_ok h) _) in Hp.
    + rewrite Hp. exists true. cbn [fst snd].
      split; [reflexivity|]. split; [|discriminate].
      exists "". rewrite hlog_lines_app, hlog_lines_map_Run. reflexivity.
    + destruct Hp as [e Hp]. rewrite Hp. exists false. cbn [fst snd].
      split; [reflexivity|]. split; [|discriminate].
      exists (exn_str e). rewrite hlog_lines_app, hlog_lines_map_Run.
      reflexivity.
  - rewrite (push_library_unlisted py h dir_path d e El).
    exists false. cbn [fst snd]. split; [reflexivity|]. split.
    + exists (exn_str e). reflexivity.
    + intros e' He'. injection He' as <-. split; reflexivity.
Qed.

(** *** [get_device_resolution] *)

Lemma py_int_cases (py : pylib) (digits : list nat) :
  (exists z, py_int py digits = ([], Done z))
  \/ (exists e, py_int py digits = ([], Raised e)).
Proof.
  unfold py_int, raise, ret. destruct (int_max_str_digits py) as [limit|].
  - destruct (limit <? length digits); [right|left]; eauto.
  - left. eauto.
Qed.

(** What [get_device_resolution] does with the captured output. *)
Lemma get_device_resolution_read (py : pylib) (h : host) (d : string)
    (ch : child) :
  launch h (wm_size_call d) = Spawns ch ->
  child_fault ch = None ->
  get_device_resolution py h d
  = try_except
      (bind ([Run (wm_size_call d)], Done tt) (fun _ =>
       match first_physical_size py (Py.split_char newline (captured ch)) with
       | Some (width, height) =>
           bind (py_int py width) (fun w =>
           bind (py_int py height) (fun h' =>
           ret (Some w, Some h')))
       | None =>
           bind (logger_error "无法解析设备的屏幕分辨率") (fun _ =>
           ret (None, None))
       end))
      (fun e =>
         bind (logger_error ("获取设备分辨率时发生错误: " ++ exn_str e)) (fun _ =>
         ret (None, None))).
Proof.
  intros Hl Hf. unfold get_device_resolution.
  rewrite run_captured, Hl, Hf, !hbind_pair_Done.
  cbn [cp_stdout str_attr]. rewrite hbind_ret. reflexivity.
Qed.

Lemma get_device_resolution_cases (py : pylib) (h : host) (d : string) :
  (exists msg,
     get_device_resolution py h d
     = ([Run (wm_size_call d); HLog ERROR msg], Done (None, None)))
  \/ (exists w ht,
       get_device_resolution py h d
       = ([Run (wm_size_call d)], Done (Some w, Some ht))).
Proof.
  destruct (launch h (wm_size_call d)) as [e|ch] eqn:Hl.
  - left. exists ("获取设备分辨率时发生错误: " ++ exn_str e)%string.
    unfold get_device_resolution.
    rewrite run_captured, Hl, hbind_pair_Raised, htry_pair_Raised, hbind_error.
    reflexivity.
  - destruct (child_fault ch) as [e|] eqn:Hf.
    + left. exists ("获取设备分辨率时发生错误: " ++ exn_str e)%string.
      unfold get_device_resolution.
      rewrite run_captured, Hl, Hf, hbind_pair_Raised, htry_pair_Raised,
        hbind_error.
      reflexivity.
    + rewrite (get_device_resolution_read py h d ch Hl Hf).
      rewrite hbind_pair_Done.
      destruct (first_physical_size py _) as [[width height]|].
      * destruct (py_int_cases py width) as [[w Ew]|[e Ee]].
        -- rewrite Ew, hbind_pair_Done.
           destruct (py_int_cases py height) as [[ht Eh]|[e Ee]].
           ++ right. exists w, ht. rewrite Eh, hbind_pair_Done. reflexivity.
           ++ left. exists ("获取设备分辨率时发生错误: " ++ exn_str e)%string.
              rewrite Ee, hbind_pair_Raised. cbn [fst snd app].
              rewrite htry_pair_Raised, hbind_error. reflexivity.
        -- left. exists ("获取设备分辨率时发生错误: " ++ exn_str e)%string.
           rewrite Ee, hbind_pair_Raised. cbn [fst snd app].
           rewrite htry_pair_Raised, hbind_error. reflexivity.
      * left. exists "无法解析设备的屏幕分辨率".
        rewrite hbind_error. reflexivity.
Qed.

(** X4. [get_device_resolution] never raises and runs one command,
    [adb -s <device> shell wm size].  It returns either both dimensions,
    having logged nothing, or [(None, None)], having logged exactly one
    error line: never one dimension without the other. *)
Theorem get_device_resolution_both_or_none (py : pylib) (h : host) (d : string) :
  runs (fst (get_device_resolution py h d)) = [wm_size_call d]
  /\ ((snd (get_device_resolution py h d) = Done (None, None)
       /\ exists msg,
            hlog_lines (fst (get_device_resolution py h d)) = [(ERROR, msg)])
      \/ (exists w ht,
           snd (get_device_resolution py h d) = Done (Some w, Some ht)
           /\ hlog_lines (fst (get_device_resolution py h d)) = [])).
Proof.
  destruct (get_device_resolution_cases py h d) as [[msg E]|[w [ht E]]];
    rewrite E; (split; [reflexivity|]).
  - left. split; [reflexivity|]. now exists msg.
  - right. exists w, ht. split; reflexivity.
Qed.

(** *** [unlock_device_slide] and [wake_up_and_unlock] *)

Lemma unlock_device_slide_launched (py : pylib) (h : host) (d : string)
    (w ht : Z) (ch : child) :
  launch h (swipe_call d (Z.min w ht)) = Spawns ch ->
  unlock_device_slide py h d (Some w) (Some ht)
  = ([Run (swipe_call d (Z.min w ht));
      HLog INFO ("设备 " ++ d ++ " 使用滑动解锁成功")], Done tt).
Proof.
  intros Hl. unfold unlock_device_slide. cbv zeta.
  rewrite run_plain, Hl, hbind_pair_Done. reflexivity.
Qed.

Lemma unlock_device_slide_not_launched (py : pylib) (h : host) (d : string)
    (w ht : Z) (e : exn) :
  launch h (swipe_call d (Z.min w ht)) = SpawnFails e ->
  unlock_device_slide py h d (Some w) (Some ht)
  = ([Run (swipe_call d (Z.min w ht));
      HLog ERROR ("解锁设备时发生错误: " ++ exn_str e)], Done tt).
Proof.
  intros Hl. unfold unlock_device_slide. cbv zeta.
  rewrite run_plain, Hl, hbind_pair_Raised. reflexivity.
Qed.

Lemma unlock_device_slide_done (py : pylib) (h : host) (d : string)
    (w ht : option Z) :
  snd (unlock_device_slide py h d w ht) = Done tt.
Proof.
  destruct w as [w|], ht as [ht|]; try reflexivity.
  destruct (launch h (swipe_call d (Z.min w ht))) as [e|ch] eqn:Hl.
  - now rewrite (unlock_device_slide_not_launched py h d w ht e Hl).
  - now rewrite (unlock_device_slide_launched py h d w ht ch Hl).
Qed.

(** X5. Once the swipe is launched, [unlock_device_slide] logs that the
    unlocking succeeded, whatever the exit status of the command: the swipe
    starts at [y = min(width, height) - 100], and nothing reads how it
    ended. *)
Theorem unlock_success_is_logged_whatever_the_exit_status (py : pylib)
    (h : host) (d : string) (w ht : Z) (ch : child) :
  launch h (swipe_call d (Z.min w ht)) = Spawns ch ->
  unlock_device_slide py h d (Some w) (Some ht)
  = ([Run (Argv ["adb"; "-s"; d; "shell"; "input"; "swipe";
                 "1"; Py.str_int (Z.min w ht - 100); "1"; "1"; "200"]);
      HLog INFO ("设备 " ++ d ++ " 使用滑动解锁成功")], Done tt).
Proof. apply unlock_device_slide_launched. Qed.

Lemma unlock_success_is_logged_whatever_the_exit_status_witness :
  launch locked (swipe_call "D1" (Z.min 1080 2400)) = Spawns (Child [] None 1)
  /\ hlog_lines (fst (unlock_device_slide posix locked "D1" (Some 1080%Z) (Some 2400%Z)))
     = [(INFO, "设备 D1 使用滑动解锁成功")].
Proof.
  split; [reflexivity|].
  rewrite (unlock_success_is_logged_whatever_the_exit_status
             posix locked "D1" 1080 2400 (Child [] None 1) eq_refl).
  reflexivity.
Defined.

(** [wake_up_and_unlock] after [get_device_resolution]. *)
Lemma wake_up_and_unlock_eq (py : pylib) (h : host) (d : string)
    (size : option Z * option Z) :
  snd (get_device_resolution py h d) = Done size ->
  wake_up_and_unlock py h d
  = (fst (get_device_resolution py h d)
     ++ fst (bind (subprocess_run py h (stayon_call d) true false) (fun _ =>
             bind (logger_info ("设备 " ++ d ++ " 已唤醒")) (fun _ =>
             unlock_device_slide py h d (fst size) (snd size)))),
     snd (bind (subprocess_run py h (stayon_call d) true false) (fun _ =>
          bind (logger_info ("设备 " ++ d ++ " 已唤醒")) (fun _ =>
          unlock_device_slide py h d (fst size) (snd size))))).
Proof.
  intros E. unfold wake_up_and_unlock. now rewrite (hbind_Done _ _ size E).
Qed.

Lemma get_device_resolution_runs (py : pylib) (h : host) (d : string) :
  runs (fst (get_device_resolution py h d)) = [wm_size_call d].
Proof.
  destruct (get_device_resolution_cases py h d) as [[msg E]|[w [ht E]]];
    rewrite E; reflexivity.
Qed.

Lemma get_device_resolution_done (py : pylib) (h : host) (d : string) :
  exists size, snd (get_device_resolution py h d) = Done size.
Proof.
  destruct (get_device_resolution_cases py h d) as [[msg E]|[w [ht E]]];
    rewrite E; cbn [snd]; eauto.
Qed.

(** X6. When the resolution could not be read, [wake_up_and_unlock] still
    runs the stay-on command and logs that the device is awake; it then
    logs one error line and launches no swipe. *)
Theorem wake_up_without_resolution_launches_no_swipe (py : pylib) (h : host)
    (d : string) (r : completed) :
  snd (get_device_resolution py h d) = Done (None, None) ->
  snd (subprocess_run py h (stayon_call d) true false) = Done r ->
  snd (wake_up_and_unlock py h d) = Done tt
  /\ runs (fst (wake_up_and_unlock py h d)) = [wm_size_call d; stayon_call d]
  /\ hlog_lines (fst (wake_up_and_unlock py h d))
     = hlog_lines (fst (get_device_resolution py h d))
       ++ [(INFO, ("设备 " ++ d ++ " 已唤醒")%string);
           (ERROR, ("设备 " ++ d ++ " 的屏幕宽度或高度无效，无法解锁")%string)].
Proof.
  intros Hsize Hrun.
  rewrite (wake_up_and_unlock_eq py h d (None, None) Hsize).
  rewrite (hbind_Done _ _ r Hrun), hbind_info. cbn [fst snd unlock_device_slide].
  unfold subprocess_run at 1 2. cbn [fst snd logger_error app].
  split; [reflexivity|].
  split.
  - rewrite runs_app, get_device_resolution_runs. reflexivity.
  - rewrite hlog_lines_app. reflexivity.
Qed.

Lemma wake_up_without_resolution_launches_no_swipe_witness :
  runs (fst (wake_up_and_unlock posix blank "D1"))
  = [wm_size_call "D1"; stayon_call "D1"].
Proof.
  exact (proj1 (proj2
           (wake_up_without_resolution_launches_no_swipe posix blank "D1"
              {| cp_returncode := 0; cp_stdout := Some "" |}
              eq_refl eq_refl))).
Defined.

(** *** The script *)

Lemma push_library_done (py : pylib) (h : host) (dir_path d : string) :
  exists b, snd (push_library py h dir_path d) = Done b.
Proof.
  destruct (listdir h (path_join py dir_path "FastBot")) as [names|e] eqn:El.
  - pose proof (push_library_listed py h dir_path d names El) as Hp.
    cbv zeta in Hp.
    destruct (forallb (launch_ok h) _) in Hp.
    + rewrite Hp. now exists true.
    + destruct Hp as [e Hp]. rewrite Hp. now exists false.
  - rewrite (push_library_unlisted py h dir_path d e El). now exists false.
Qed.

(** The script once the device is found online. *)
Lemma main_online (py : pylib) (h : host) (dir_path : string) :
  snd (check_device_online py h device_id) = Done true ->
  main py h dir_path
  = (fst (check_device_online py h device_id)
     ++ fst (push_library py h dir_path device_id)
     ++ fst (bind (wake_up_and_unlock py h device_id) (fun _ =>
             lift_core (execute_adb_command (shell_of h) device_id
                          main_class_path "all" 5 500 1))),
     snd (bind (wake_up_and_unlock py h device_id) (fun _ =>
          lift_core (execute_adb_command (shell_of h) device_id
                       main_class_path "all" 5 500 1)))).
Proof.
  intros Hon. unfold main. rewrite (hbind_Done _ _ true Hon). cbn [negb].
  destruct (push_library_done py h dir_path device_id) as [b Hb].
  rewrite (hbind_Done _ _ b Hb). reflexivity.
Qed.

(** X7. When [check_device_online] returns [False], the script logs that
    the device is not online and ends with [exit(0)]: the status of a run
    that went well.  It has run [adb devices] and nothing else: no push, no
    wake-up, no test. *)
Theorem main_exits_with_0_when_offline (py : pylib) (h : host)
    (dir_path : string) :
  snd (check_device_online py h device_id) = Done false ->
  snd (main py h dir_path) = Exited 0
  /\ runs (fst (main py h dir_path)) = [adb_devices]
  /\ hlog_lines (fst (main py h dir_path))
     = hlog_lines (fst (check_device_online py h device_id))
       ++ [(ERROR, "设备 7NH26450903CG 不在线")].
Proof.
  intros Hoff. unfold main. rewrite (hbind_Done _ _ false Hoff).
  cbn [negb]. rewrite hbind_error. cbn [fst snd exit].
  split; [reflexivity|].
  split.
  - rewrite runs_app, check_device_online_runs. reflexivity.
  - rewrite hlog_lines_app. reflexivity.
Qed.

Lemma main_exits_with_0_when_offline_witness :
  snd (main posix no_adb "/opt") = Exited 0.
Proof.
  exact (proj1 (main_exits_with_0_when_offline posix no_adb "/opt" eq_refl)).
Defined.

(** X8. The script does not read what [push_library] returns: once the
    device is online and [wake_up_and_unlock] returns, it goes on to
    [execute_adb_command], whether the libraries were pushed or not.  Its
    events are those of the four steps in order, and it ends as
    [execute_adb_command] ends. *)
Theorem main_goes_on_after_a_failed_push (py : pylib) (h : host)
    (dir_path : string) :
  snd (check_device_online py h device_id) = Done true ->
  snd (wake_up_and_unlock py h device_id) = Done tt ->
  fst (main py h dir_path)
  = fst (check_device_online py h device_id)
    ++ fst (push_library py h dir_path device_id)
    ++ fst (wake_up_and_unlock py h device_id)
    ++ map of_event
         (fst (execute_adb_command (shell_of h) device_id main_class_path
                 "all" 5 500 1))
  /\ snd (main py h dir_path)
     = snd (lift_core (execute_adb_command (shell_of h) device_id
                         main_class_path "all" 5 500 1)).
Proof.
  intros Hon Hwake. rewrite (main_online py h dir_path Hon).
  rewrite (hbind_Done _ _ tt Hwake). split; reflexivity.
Qed.

Lemma main_goes_on_after_a_failed_push_witness :
  snd (push_library posix lab "/opt" device_id) = Done false
  /\ In (Run (Shell (list_cmd device_id))) (fst (main posix lab "/opt")).
Proof.
  split; [reflexivity|].
  rewrite (proj1 (main_goes_on_after_a_failed_push posix lab "/opt"
                    eq_refl eq_refl)).
  vm_compute. tauto.
Defined.

(** X9. The stay-on command of [wake_up_and_unlock] runs outside every
    [try]: when it cannot be launched, or what it prints cannot be decoded,
    the exception ends the script.  The stay-on command is the last thing
    the script does: no swipe and no test follow. *)
Theorem main_raises_when_stayon_raises (py : pylib) (h : host)
    (dir_path : string) (e : exn) :
  snd (check_device_online py h device_id) = Done true ->
  snd (subprocess_run py h (stayon_call device_id) true false) = Raised e ->
  snd (main py h dir_path) = Raised e
  /\ fst (main py h dir_path)
     = fst (check_device_online py h device_id)
       ++ fst (push_library py h dir_path device_id)
       ++ fst (get_device_resolution py h device_id)
       ++ [Run (stayon_call device_id)].
Proof.
  intros Hon Hstay. rewrite (main_online py h dir_path Hon).
  destruct (get_device_resolution_done py h device_id) as [size Hsize].
  rewrite (wake_up_and_unlock_eq py h device_id size Hsize).
  rewrite (hbind_Raised _ _ e Hstay). cbn [fst snd].
  rewrite hbind_pair_Raised. cbn [fst snd subprocess_run].
  split; reflexivity.
Qed.

Lemma main_raises_when_stayon_raises_witness :
  exists e, snd (main posix garbled "/opt") = Raised e
            /\ exn_cls e = UnicodeDecodeError.
Proof.
  eexists. split.
  - exact (proj1 (main_raises_when_stayon_raises posix garbled "/opt" _
                    eq_refl eq_refl)).
  - reflexivity.
Defined.

End HostFacts.

(** ** Reading what adb prints *)

Section Reading.

Import Host.

(** *** [strip] *)

Lemma plain_char_range (c : ascii) :
  plain_char c = true -> 33 <= Py.byte c <= 126.
Proof.
  unfold plain_char. intros Hc. apply andb_prop in Hc as [H1 H2].
  apply Nat.leb_le in H1, H2. lia.
Qed.

Lemma is_space_range (c : ascii) : Py.is_space c = true -> Py.byte c <= 32.
Proof.
  unfold Py.is_space. cbv zeta. intros Hc.
  apply orb_prop in Hc as [Hc|Hc]; apply andb_prop in Hc as [H1 H2];
    apply Nat.leb_le in H1, H2; lia.
Qed.

Lemma plain_not_space (c : ascii) : plain_char c = true -> Py.is_space c = false.
Proof.
  intros Hc. apply plain_char_range in Hc.
  destruct (Py.is_space c) eqn:E; [|reflexivity].
  apply is_space_range in E. lia.
Qed.

Lemma eqb_above (c : ascii) (n : nat) :
  plain_char c = true -> 126 < n -> (Py.byte c =? n) = false.
Proof.
  intros Hc Hn. apply plain_char_range in Hc. apply Nat.eqb_neq. lia.
Qed.

(** Nothing is dropped in front of a printable character. *)
Lemma lstrip_plain (c : ascii) (s : string) :
  plain_char c = true -> Py.lstrip (String c s) = String c s.
Proof.
  intros Hc. cbn [Py.lstrip]. rewrite (plain_not_space c Hc).
  rewrite !(eqb_above c _ Hc) by lia.
  destruct s as [|c1 [|c2 s3]]; reflexivity.
Qed.

Lemma high_not_plain (c : ascii) : 127 <= Py.byte c -> plain_char c = false.
Proof.
  intros Hc. destruct (plain_char c) eqn:E; [|reflexivity].
  apply plain_char_range in E. lia.
Qed.

Lemma space_not_plain (c : ascii) : Py.is_space c = true -> plain_char c = false.
Proof.
  intros Hc. destruct (plain_char c) eqn:E; [|reflexivity].
  apply plain_not_space in E. congruence.
Qed.

Ltac bool_facts :=
  repeat match goal with
  | H : (_ && _)%bool = true |- _ => apply andb_prop in H; destruct H
  | H : (_ || _)%bool = true |- _ => apply orb_prop in H; destruct H
  | H : (_ =? _) = true |- _ => apply Nat.eqb_eq in H
  | H : (_ <=? _) = true |- _ => apply Nat.leb_le in H
  end.

(** What [lstrip] drops entirely holds no printable character. *)
Lemma lstrip_blank_fuel (n : nat) :
  forall s, String.length s <= n -> Py.lstrip s = "" ->
  all_chars (fun c => negb (plain_char c)) s = true.
Proof.
  induction n as [|n IH]; intros s Hn Hs.
  - destruct s; [reflexivity|]. cbn [String.length] in Hn. lia.
  - destruct s as [|c s1]; [reflexivity|].
    cbn [Py.lstrip] in Hs. cbn [String.length] in Hn.
    destruct (Py.is_space c) eqn:Hsp.
    + cbn [all_chars]. rewrite (space_not_plain c Hsp), IH by (trivial; lia).
      reflexivity.
    + destruct s1 as [|c1 s2]; [discriminate|]. cbn [String.length] in Hn.
      match type of Hs with (if ?b then _ else _) = _ => destruct b eqn:H2 end.
      * cbn [all_chars]. rewrite (IH s2) by (trivial; lia).
        bool_facts; rewrite !high_not_plain by lia; reflexivity.
      * destruct s2 as [|c2 s3]; [discriminate|]. cbn [String.length] in Hn.
        match type of Hs with (if ?b then _ else _) = _ => destruct b eqn:H3 end;
          [|discriminate].
        cbn [all_chars]. rewrite (IH s3) by (trivial; lia).
        bool_facts; rewrite !high_not_plain by lia; reflexivity.
Qed.

Lemma lstrip_blank (s : string) :
  Py.lstrip s = "" -> all_chars (fun c => negb (plain_char c)) s = true.
Proof. apply (lstrip_blank_fuel (String.length s)). lia. Qed.

Lemma all_chars_app (p : ascii -> bool) (a b : string) :
  all_chars p (a ++ b) = all_chars p a && all_chars p b.
Proof.
  induction a as [|c a IH]; [reflexivity|].
  cbn [append all_chars]. rewrite IH. apply andb_assoc.
Qed.

(** [lstrip] leaves something of a string that holds a printable
    character. *)
Lemma lstrip_keeps_plain (a : string) (c : ascii) (b : string) :
  plain_char c = true -> Py.lstrip (a ++ String c b) <> "".
Proof.
  intros Hc Hs. apply lstrip_blank in Hs.
  rewrite all_chars_app in Hs. cbn [all_chars] in Hs. rewrite Hc in Hs.
  cbn [negb andb] in Hs. rewrite andb_false_r in Hs. discriminate.
Qed.

(** *** [rstrip] *)

Lemma rstrip_blank (w : string) : Py.lstrip w = "" -> Py.rstrip w = "".
Proof.
  intros Hw. destruct w as [|c w]; [reflexivity|].
  cbn [Py.rstrip]. now rewrite Hw.
Qed.

Lemma rstrip_cons (c : ascii) (s : string) :
  Py.lstrip (String c s) <> "" ->
  Py.rstrip (String c s) = String c (Py.rstrip s).
Proof.
  intros Hs. cbn [Py.rstrip].
  destruct (Py.lstrip (String c s)); [contradiction|reflexivity].
Qed.

(** [rstrip] drops nothing before a printable character. *)
Lemma rstrip_app_plain (a : string) (c : ascii) (b : string) :
  plain_char c = true ->
  Py.rstrip (a ++ String c b) = (a ++ String c (Py.rstrip b))%string.
Proof.
  intros Hc. induction a as [|x a IH].
  - cbn [append]. apply rstrip_cons. rewrite (lstrip_plain c b Hc). discriminate.
  - cbn [append]. rewrite rstrip_cons.
    + now rewrite IH.
    + apply (lstrip_keeps_plain (String x a) c b Hc).
Qed.

(** A string that starts and ends with a printable character is what
    [strip] leaves of it and of the whitespace that follows. *)
Lemma strip_keeps (a c : ascii) (j s w : string) :
  plain_char a = true -> plain_char c = true ->
  String a j = (s ++ String c "")%string ->
  Py.lstrip w = "" ->
  Py.strip (String a j ++ w) = String a j.
Proof.
  intros Ha Hc Hj Hw. unfold Py.strip. cbn [append].
  rewrite (lstrip_plain a _ Ha).
  change (String a (j ++ w)) with (String a j ++ w)%string.
  rewrite Hj, string_app_assoc. cbn [append].
  now rewrite (rstrip_app_plain s c w Hc), (rstrip_blank w Hw).
Qed.

(** *** [split] *)

Lemma split_char_none (sep : ascii) (a : string) :
  all_chars (fun c => negb (Ascii.eqb c sep)) a = true ->
  Py.split_char sep a = [a].
Proof.
  induction a as [|c a IH]; [reflexivity|].
  cbn [all_chars Py.split_char]. intros Ha.
  apply andb_prop in Ha as [Hc Ha]. apply negb_true_iff in Hc.
  now rewrite Hc, IH.
Qed.

Lemma split_char_app (sep : ascii) (a b : string) :
  all_chars (fun c => negb (Ascii.eqb c sep)) a = true ->
  Py.split_char sep (a ++ String sep b) = a :: Py.split_char sep b.
Proof.
  induction a as [|c a IH].
  - intros _. cbn [append Py.split_char]. now rewrite Ascii.eqb_refl.
  - cbn [all_chars append Py.split_char]. intros Ha.
    apply andb_prop in Ha as [Hc Ha]. apply negb_true_iff in Hc.
    now rewrite Hc, IH.
Qed.

(** [sep.join(l).split(sep)] is [l], when [l] is not empty and [sep] is in
    none of its strings. *)
Lemma split_char_join (sep : ascii) (ls : list string) :
  forall x,
  all_chars (fun c => negb (Ascii.eqb c sep)) x = true ->
  Forall (fun l => all_chars (fun c => negb (Ascii.eqb c sep)) l = true) ls ->
  Py.split_char sep (String.concat (String sep "") (x :: ls)) = x :: ls.
Proof.
  induction ls as [|y ls IH]; intros x Hx Hls.
  - now apply split_char_none.
  - inversion Hls as [|? ? Hy Hls']; subst.
    change (String.concat (String sep "") (x :: y :: ls))
      with (x ++ String sep (String.concat (String sep "") (y :: ls)))%string.
    rewrite (split_char_app sep x _ Hx). now rewrite IH.
Qed.

(** *** The listing of [adb devices] *)

Lemma concat_empty_cons (a : string) (l : list string) :
  String.concat "" (a :: l) = (a ++ String.concat "" l)%string.
Proof.
  destruct l as [|b l]; [cbn; now rewrite append_empty_r|reflexivity].
Qed.

(** Lines that each end with a line feed, after a first line: the lines
    joined by line feeds, and a line feed. *)
Lemma lines_join (ls : list string) :
  forall x,
  (x ++ String newline (String.concat "" (map (fun l => l ++ String newline "") ls)))%string
  = (String.concat (String newline "") (x :: ls) ++ String newline "")%string.
Proof.
  induction ls as [|y ls IH]; intros x.
  - reflexivity.
  - cbn [map]. rewrite concat_empty_cons, string_app_assoc. cbn [append].
    rewrite IH.
    change (String.concat (String newline "") (x :: y :: ls))
      with (x ++ String newline (String.concat (String newline "") (y :: ls)))%string.
    now rewrite string_app_assoc.
Qed.

Lemma listing_shape (x : string) (ls : list string) :
  (x ++ String newline ""
   ++ String.concat "" (map (fun l => l ++ String newline "") ls)
   ++ String newline "")%string
  = (String.concat (String newline "") (x :: ls)
     ++ String newline (String newline ""))%string.
Proof.
  cbn [append].
  transitivity
    ((x ++ String newline
             (String.concat "" (map (fun l => l ++ String newline "") ls)))
     ++ String newline "")%string.
  - now rewrite string_app_assoc.
  - now rewrite lines_join, string_app_assoc.
Qed.

Lemma devices_listing_join (entries : list (string * string)) :
  devices_listing entries
  = (String.concat (String newline "")
       ("List of devices attached" :: map device_line entries)
     ++ String newline (String newline ""))%string.
Proof.
  unfold devices_listing.
  rewrite <- (map_map device_line (fun l => (l ++ String newline "")%string)).
  apply listing_shape.
Qed.

Lemma strip_keeps_ends (J w : string) :
  (exists a j, J = String a j /\ plain_char a = true) ->
  (exists s c, J = (s ++ String c "")%string /\ plain_char c = true) ->
  Py.lstrip w = "" ->
  Py.strip (J ++ w) = J.
Proof.
  intros [a [j [-> Ha]]] [s [c [Hj Hc]]] Hw.
  exact (strip_keeps a c j s w Ha Hc Hj Hw).
Qed.

Lemma all_plain_chars (p : ascii -> bool) (s : string) :
  (forall c, plain_char c = true -> p c = true) ->
  all_plain s = true -> all_chars p s = true.
Proof.
  intros Hp. unfold all_plain. induction s as [|c s IH]; [reflexivity|].
  cbn [all_chars]. intros Hs. apply andb_prop in Hs as [Hc Hs].
  now rewrite (Hp c Hc), IH.
Qed.

Lemma plain_is_not (sep c : ascii) :
  plain_char sep = false -> plain_char c = true -> negb (Ascii.eqb c sep) = true.
Proof.
  intros Hsep Hc. apply negb_true_iff.
  destruct (Ascii.eqb_spec c sep) as [->|]; [congruence|reflexivity].
Qed.

Lemma plain_ends (s : string) :
  plain s -> exists s' c, s = (s' ++ String c "")%string /\ plain_char c = true.
Proof.
  intros [Hne Hs]. unfold all_plain in Hs.
  induction s as [|c s IH]; [contradiction|].
  cbn [all_chars] in Hs. apply andb_prop in Hs as [Hc Hs].
  destruct s as [|c1 s1].
  - exists "", c. split; [reflexivity|assumption].
  - destruct (IH ltac:(discriminate) Hs) as [s' [c' [E Hc']]].
    exists (String c s'), c'. rewrite E. split; [reflexivity|assumption].
Qed.

Lemma ends_app (a t : string) :
  (exists s c, t = (s ++ String c "")%string /\ plain_char c = true) ->
  exists s c, (a ++ t)%string = (s ++ String c "")%string /\ plain_char c = true.
Proof.
  intros [s [c [-> Hc]]]. exists (a ++ s)%string, c.
  split; [now rewrite string_app_assoc|assumption].
Qed.

Lemma join_ends (ls : list string) :
  forall x,
  (exists s c, x = (s ++ String c "")%string /\ plain_char c = true) ->
  Forall (fun l => exists s c, l = (s ++ String c "")%string
                               /\ plain_char c = true) ls ->
  exists s c, String.concat (String newline "") (x :: ls)
              = (s ++ String c "")%string /\ plain_char c = true.
Proof.
  induction ls as [|y ls IH]; intros x Hx Hls; [exact Hx|].
  inversion Hls as [|? ? Hy Hls']; subst.
  change (String.concat (String newline "") (x :: y :: ls))
    with (x ++ String newline (String.concat (String newline "") (y :: ls)))%string.
  change (String newline (String.concat (String newline "") (y :: ls)))
    with (String newline "" ++ String.concat (String newline "") (y :: ls))%string.
  rewrite <- string_app_assoc. apply ends_app. now apply IH.
Qed.

(** The line of a device with printable fields: what the loop of lines
    354-357 makes of it. *)
Lemma device_of_device_line (e : string * string) :
  plain (fst e) -> plain (snd e) ->
  device_of_line (device_line e)
  = if String.eqb (snd e) "device" then [fst e] else [].
Proof.
  intros [_ Hserial] [_ Hstate]. unfold device_of_line, device_line. cbv zeta.
  rewrite split_char_app
    by (apply all_plain_chars;
        [intros c Hc; now apply (plain_is_not tab c)|assumption]).
  rewrite split_char_none
    by (apply all_plain_chars;
        [intros c Hc; now apply (plain_is_not tab c)|assumption]).
  reflexivity.
Qed.

Lemma devices_of_device_lines (entries : list (string * string)) :
  Forall (fun e => plain (fst e) /\ plain (snd e)) entries ->
  flat_map device_of_line (map device_line entries) = online entries.
Proof.
  unfold online. induction 1 as [|e entries [Hserial Hstate] _ IH];
    [reflexivity|].
  cbn [map flat_map filter]. rewrite IH, (device_of_device_line e Hserial Hstate).
  destruct (String.eqb (snd e) "device"); reflexivity.
Qed.

Lemma device_line_no_newline (e : string * string) :
  plain (fst e) -> plain (snd e) ->
  all_chars (fun c => negb (Ascii.eqb c newline)) (device_line e) = true.
Proof.
  intros [_ Hserial] [_ Hstate]. unfold device_line.
  rewrite all_chars_app. cbn [all_chars].
  rewrite !all_plain_chars
    by (try assumption; intros c Hc; now apply (plain_is_not newline c)).
  reflexivity.
Qed.

(** What [get_connected_devices] makes of a listing. *)
Lemma parse_devices_listing (entries : list (string * string)) :
  Forall (fun e => plain (fst e) /\ plain (snd e)) entries ->
  parse_devices (devices_listing entries) = online entries.
Proof.
  intros Hentries. unfold parse_devices. cbv zeta.
  rewrite devices_listing_join, strip_keeps_ends.
  - rewrite split_char_join.
    + cbn [tl]. now apply devices_of_device_lines.
    + reflexivity.
    + apply Forall_map. revert Hentries. apply Forall_impl.
      intros e [Hserial Hstate]. now apply device_line_no_newline.
  - destruct (map device_line entries) as [|l ls]; eexists _, _;
      (split; [reflexivity|reflexivity]).
  - apply join_ends.
    + exists "List of devices attache", "d"%char. split; reflexivity.
    + apply Forall_map. revert Hentries. apply Forall_impl.
      intros e [_ Hstate]. unfold device_line.
      change (String tab (snd e)) with (String tab "" ++ snd e)%string.
      rewrite <- string_app_assoc. apply ends_app. now apply plain_ends.
  - reflexivity.
Qed.

(** X10. When [adb devices] prints its header, one line
    [serial<TAB>state] for each device and an empty line, where the serials
    and the states are printable and hold no space, [get_connected_devices]
    returns the serials of the devices in state [device], and only these, in
    the order of the listing.  Line ends of the form CR LF are read as line
    feeds. *)
Theorem get_connected_devices_reads_the_listing (py : pylib) (h : host)
    (ch : child) (entries : list (string * string)) :
  launch h adb_devices = Spawns ch ->
  child_fault ch = None ->
  universal_newlines (String.concat "" (piped_stdout PIPE ch))
  = devices_listing entries ->
  Forall (fun e => plain (fst e) /\ plain (snd e)) entries ->
  get_connected_devices py h
  = ([Run adb_devices],
     Done (map fst (filter (fun e => String.eqb (snd e) "device") entries))).
Proof.
  intros Hl Hf Hout Hentries.
  rewrite get_connected_devices_eq, Hl, Hf. unfold captured. rewrite Hout.
  now rewrite (parse_devices_listing entries Hentries).
Qed.

Lemma get_connected_devices_reads_the_listing_witness :
  snd (get_connected_devices posix lab) = Done ["7NH26450903CG"].
Proof.
  rewrite (get_connected_devices_reads_the_listing posix lab
             (Child [(Out, devices_listing [("7NH26450903CG", "device");
                                            ("emulator-5554", "offline")])]
                    None 0)
             [("7NH26450903CG", "device"); ("emulator-5554", "offline")]).
  - reflexivity.
  - reflexivity.
  - reflexivity.
  - reflexivity.
  - repeat constructor; discriminate.
Defined.

(** *** The digits of a number *)

Lemma prefix_app (p s : string) : String.prefix p (p ++ s) = true.
Proof.
  induction p as [|a p IH]; cbn [append String.prefix].
  - now destruct s.
  - destruct (ascii_dec a a); [exact IH|contradiction].
Qed.

Lemma drop_app (p s : string) : drop (String.length p) (p ++ s) = s.
Proof. induction p as [|a p IH]; [now destruct s|exact IH]. Qed.

Lemma read_digits_stops (py : pylib) (n : nat) (rest : string) :
  reads_ascii py ->
  match rest with
  | EmptyString => True
  | String c _ => Py.byte c < 128 /\ ascii_digit c = None
  end ->
  read_digits py n rest = ([], rest).
Proof.
  intros Hpy Hrest. destruct n as [|n]; [now destruct rest|].
  destruct rest as [|c r]; [reflexivity|]. destruct Hrest as [Hc Hd].
  cbn [read_digits]. unfold char_width. cbv zeta.
  replace (Py.byte c <? 192) with true by (symmetry; apply Nat.ltb_lt; lia).
  cbn [take]. now rewrite (Hpy c Hc), Hd.
Qed.

(** One digit, read. *)
Lemma read_digits_digit (py : pylib) (n : nat) (c : ascii) (v : nat) (s : string) :
  reads_ascii py -> Py.byte c < 128 -> ascii_digit c = Some v ->
  read_digits py (S n) (String c s)
  = (v :: fst (read_digits py n s), snd (read_digits py n s)).
Proof.
  intros Hpy Hc Hv. cbn [read_digits]. unfold char_width. cbv zeta.
  replace (Py.byte c <? 192) with true by (symmetry; apply Nat.ltb_lt; lia).
  cbn [take drop]. now rewrite (Hpy c Hc), Hv.
Qed.

(** What [str] writes of a number is read back, digit by digit, as the
    number. *)
Lemma read_digits_uint (py : pylib) (u : Decimal.uint) (rest : string) :
  reads_ascii py ->
  match rest with
  | EmptyString => True
  | String c _ => Py.byte c < 128 /\ ascii_digit c = None
  end ->
  forall n, String.length (NilEmpty.string_of_uint u ++ rest) <= n ->
  exists ds,
    read_digits py n (NilEmpty.string_of_uint u ++ rest) = (ds, rest)
    /\ length ds = String.length (NilEmpty.string_of_uint u)
    /\ (forall p, fold_left (fun acc d => 10 * acc + d) ds (Pos.to_nat p)
                  = Pos.to_nat (Pos.of_uint_acc u p))
    /\ fold_left (fun acc d => 10 * acc + d) ds 0 = N.to_nat (Pos.of_uint u).
Proof.
  intros Hpy Hrest.
  induction u as [|u IH|u IH|u IH|u IH|u IH|u IH|u IH|u IH|u IH|u IH];
    intros n Hn.
  1: { exists []. cbn [NilEmpty.string_of_uint append].
       rewrite (read_digits_stops py n rest Hpy Hrest).
       repeat split; reflexivity. }
  all: cbn [NilEmpty.string_of_uint append String.length] in Hn |- *;
    destruct n as [|n]; [lia|];
    destruct (IH n ltac:(lia)) as [ds [Hread [Hlen [Hacc Hzero]]]];
    erewrite read_digits_digit
      by first [exact Hpy | vm_compute; reflexivity | cbn; lia];
    rewrite Hread; cbn [fst snd];
    eexists; split; [reflexivity|];
    split; [cbn [length]; now rewrite Hlen|];
    cbn [fold_left Pos.of_uint Pos.of_uint_acc]; split.
  all: try (intros p;
            match goal with
            | |- fold_left _ _ ?a = Pos.to_nat (Pos.of_uint_acc _ ?q) =>
                replace a with (Pos.to_nat q) by lia; apply Hacc
            end).
  - exact Hzero.
  - cbn [N.to_nat]. rewrite <- (Hacc 1%positive). reflexivity.
  - cbn [N.to_nat]. rewrite <- (Hacc 2%positive). reflexivity.
  - cbn [N.to_nat]. rewrite <- (Hacc 3%positive). reflexivity.
  - cbn [N.to_nat]. rewrite <- (Hacc 4%positive). reflexivity.
  - cbn [N.to_nat]. rewrite <- (Hacc 5%positive). reflexivity.
  - cbn [N.to_nat]. rewrite <- (Hacc 6%positive). reflexivity.
  - cbn [N.to_nat]. rewrite <- (Hacc 7%positive). reflexivity.
  - cbn [N.to_nat]. rewrite <- (Hacc 8%positive). reflexivity.
  - cbn [N.to_nat]. rewrite <- (Hacc 9%positive). reflexivity.
Qed.

Lemma str_int_uint (z : Z) :
  (0 <= z)%Z ->
  exists u,
    Py.str_int z = NilEmpty.string_of_uint u
    /\ 1 <= String.length (NilEmpty.string_of_uint u)
    /\ Z.of_N (Pos.of_uint u) = z.
Proof.
  intros Hz. destruct z as [|p|p]; [| |lia].
  - exists (Decimal.D0 Decimal.Nil). repeat split. reflexivity.
  - exists (Pos.to_uint p).
    pose proof (DecimalPos.Unsigned.to_uint_nonnil p) as Hnil.
    rewrite DecimalPos.Unsigned.of_to.
    unfold Py.str_int. cbn [Z.to_int NilZero.string_of_int].
    unfold NilZero.string_of_uint.
    destruct (Pos.to_uint p); [contradiction|..];
      (split; [reflexivity|]); (split; [|reflexivity]);
      cbn [NilEmpty.string_of_uint String.length]; lia.
Qed.

(** The digits of [str(z)], as [re.match] and [int] read them. *)
Lemma read_digits_str_int (py : pylib) (z : Z) (rest : string) :
  reads_ascii py -> (0 <= z)%Z ->
  match rest with
  | EmptyString => True
  | String c _ => Py.byte c < 128 /\ ascii_digit c = None
  end ->
  exists d ds,
    read_digits py (String.length (Py.str_int z ++ rest)) (Py.str_int z ++ rest)
    = (d :: ds, rest)
    /\ length (d :: ds) = String.length (Py.str_int z)
    /\ Z.of_nat (digits_value (d :: ds)) = z.
Proof.
  intros Hpy Hz Hrest.
  destruct (str_int_uint z Hz) as [u [Eu [Hlen Hval]]]. rewrite Eu.
  destruct (read_digits_uint py u rest Hpy Hrest _ (le_n _))
    as [ds [Hread [Hds [_ Hzero]]]].
  destruct ds as [|d ds]; [cbn [length] in Hds; lia|].
  exists d, ds. split; [exact Hread|]. split; [exact Hds|].
  unfold digits_value. rewrite Hzero, N_nat_Z. exact Hval.
Qed.

Lemma py_int_fits (py : pylib) (z : Z) (digits : list nat) :
  int_fits py z -> length digits = String.length (Py.str_int z) ->
  py_int py digits = ([], Done (Z.of_nat (digits_value digits))).
Proof.
  unfold int_fits, py_int. intros Hfit Hlen.
  destruct (int_max_str_digits py) as [limit|]; [|reflexivity].
  rewrite Hlen. destruct (Nat.ltb_spec limit (String.length (Py.str_int z)));
    [lia|reflexivity].
Qed.

(** The line that [wm size] prints for a screen of [w] by [ht]. *)
Lemma match_physical_size_line (py : pylib) (w ht : Z) :
  reads_ascii py -> (0 <= w)%Z -> (0 <= ht)%Z ->
  exists ws hs,
    match_physical_size py
      ("Physical size: " ++ Py.str_int w ++ "x" ++ Py.str_int ht)
    = Some (ws, hs)
    /\ length ws = String.length (Py.str_int w)
    /\ length hs = String.length (Py.str_int ht)
    /\ Z.of_nat (digits_value ws) = w
    /\ Z.of_nat (digits_value hs) = ht.
Proof.
  intros Hpy Hw Hht. unfold match_physical_size, Py.startswith.
  rewrite prefix_app. cbv zeta.
  change 15 with (String.length "Physical size: "). rewrite drop_app.
  change ("x" ++ Py.str_int ht)%string with (String "x" (Py.str_int ht)).
  destruct (read_digits_str_int py w (String "x" (Py.str_int ht)) Hpy Hw)
    as [d [ds [Hread [Hlen Hval]]]]; [split; [cbn; lia|reflexivity]|].
  rewrite Hread. cbn [fst snd]. rewrite Ascii.eqb_refl.
  destruct (read_digits_str_int py ht "" Hpy Hht I)
    as [d' [ds' [Hread' [Hlen' Hval']]]].
  rewrite append_empty_r in Hread'. rewrite Hread'. cbn [fst].
  exists (d :: ds), (d' :: ds'). repeat split; assumption.
Qed.

Lemma first_physical_size_skips (py : pylib) (pre rest : list string) :
  Forall (fun l => Py.startswith "Physical size: " l = false) pre ->
  first_physical_size py (pre ++ rest) = first_physical_size py rest.
Proof.
  induction 1 as [|l pre Hl _ IH]; [reflexivity|].
  cbn [app first_physical_size]. unfold match_physical_size at 1.
  now rewrite Hl.
Qed.

(** X11. When one of the lines that [wm size] prints is
    [Physical size: <w>x<h>], with the numbers as [str] writes them, and no
    line before it starts with [Physical size: ], [get_device_resolution]
    returns [(w, h)] and logs nothing: what follows the line, an override
    size for one, is not read. *)
Theorem get_device_resolution_reads_the_physical_size (py : pylib) (h : host)
    (d : string) (ch : child) (pre post : list string) (w ht : Z) :
  reads_ascii py ->
  launch h (wm_size_call d) = Spawns ch ->
  child_fault ch = None ->
  Py.split_char newline (captured ch)
  = pre ++ ("Physical size: " ++ Py.str_int w ++ "x" ++ Py.str_int ht)%string
           :: post ->
  Forall (fun l => Py.startswith "Physical size: " l = false) pre ->
  (0 <= w)%Z -> (0 <= ht)%Z ->
  int_fits py w -> int_fits py ht ->
  get_device_resolution py h d
  = ([Run (wm_size_call d)], Done (Some w, Some ht)).
Proof.
  intros Hpy Hl Hf Hlines Hpre Hw Hht Hfw Hfh.
  rewrite (get_device_resolution_read py h d ch Hl Hf), Hlines.
  rewrite (first_physical_size_skips py pre _ Hpre). cbn [first_physical_size].
  destruct (match_physical_size_line py w ht Hpy Hw Hht)
    as [ws [hs [Hm [Hlw [Hlh [Hvw Hvh]]]]]].
  rewrite Hm, hbind_pair_Done.
  rewrite (py_int_fits py w ws Hfw Hlw), hbind_pair_Done.
  rewrite (py_int_fits py ht hs Hfh Hlh), hbind_pair_Done.
  cbn [fst snd ret app]. now rewrite Hvw, Hvh.
Qed.

Lemma get_device_resolution_reads_the_physical_size_witness :
  get_device_resolution posix lab "D1"
  = ([Run (wm_size_call "D1")], Done (Some 1080%Z, Some 2400%Z)).
Proof.
  apply (get_device_resolution_reads_the_physical_size posix lab "D1"
           (Child [(Out, ("Physical size: 1080x2400" ++ String newline ""
                          ++ "Override size: 720x1600" ++ String newline "")%string)]
                  None 0)
           [] ["Override size: 720x1600"; ""] 1080 2400).
  - intros c Hc. reflexivity.
  - reflexivity.
  - reflexivity.
  - reflexivity.
  - constructor.
  - discriminate.
  - discriminate.
  - cbn. lia.
  - cbn. lia.
Defined.

End Reading.

(** ** The logger *)

Section LogFacts.

Import Logs.

(** *** The monad of the logger *)

Lemma lbind_pair_Ok {A B : Type} (t : list lev) (a : A) (k : A -> L B) :
  bind (t, Ok a) k = (t ++ fst (k a), snd (k a)).
Proof. reflexivity. Qed.

Lemma lbind_pair_Raise {A B : Type} (t : list lev) (e : exn) (k : A -> L B) :
  bind (t, Raise e) k = (t, Raise e).
Proof. reflexivity. Qed.

Lemma lbind_ret {A B : Type} (a : A) (k : A -> L B) : bind (ret a) k = k a.
Proof. unfold bind, ret. cbn [fst snd app]. now destruct (k a). Qed.

Lemma lbind_emits {B : Type} (e : lev) (k : unit -> L B) :
  bind (emits e) k = (e :: fst (k tt), snd (k tt)).
Proof. reflexivity. Qed.

(** A computation that returns, bound to another. *)
Lemma lbind_inv {A B : Type} (m : L A) (k : A -> L B) (tr : list lev) (b : B) :
  bind m k = (tr, Ok b) ->
  exists a t1 t2, m = (t1, Ok a) /\ k a = (t2, Ok b) /\ tr = t1 ++ t2.
Proof.
  unfold bind. destruct m as [t1 [a|e]]; cbn [fst snd]; intros E.
  - exists a, t1, (fst (k a)). injection E as <- E.
    split; [reflexivity|]. split; [|reflexivity].
    destruct (k a) as [t2 res]. cbn [snd] in E. now subst res.
  - discriminate.
Qed.

(** *** [_get_new_filename] *)

Lemma rsplit_dot_none (s : string) :
  Host.all_chars (fun c => negb (Ascii.eqb c ".")) s = true ->
  rsplit_dot s = [s].
Proof.
  induction s as [|c s IH]; [reflexivity|].
  cbn [Host.all_chars rsplit_dot]. intros Hs.
  apply andb_prop in Hs as [Hc Hs]. apply negb_true_iff in Hc.
  now rewrite (IH Hs), Hc.
Qed.

Lemma rsplit_dot_last (base ext : string) :
  Host.all_chars (fun c => negb (Ascii.eqb c ".")) ext = true ->
  rsplit_dot (base ++ String "." ext) = [base; ext].
Proof.
  intros Hext. induction base as [|c base IH].
  - cbn [append rsplit_dot]. now rewrite (rsplit_dot_none ext Hext).
  - cbn [append rsplit_dot]. now rewrite IH.
Qed.

(** X12. [_get_new_filename] cuts the name of the log file at its last dot
    and puts the time stamp before it: [base.ext] gives [base_<now>.ext].
    A name without a dot makes it raise [ValueError], and so the constructor
    of the handler, before any file is opened. *)
Theorem new_filename_by_the_last_dot :
  (forall base ext stamp,
     Host.all_chars (fun c => negb (Ascii.eqb c ".")) ext = true ->
     get_new_filename (base ++ "." ++ ext) stamp
     = ([], Ok (base ++ "_" ++ stamp ++ "." ++ ext)%string))
  /\ (forall log_file maxBytes maxFiles e,
        Host.all_chars (fun c => negb (Ascii.eqb c ".")) log_file = true ->
        init log_file maxBytes maxFiles e
        = ([], Raise (Exn ValueError
                        "not enough values to unpack (expected 2, got 1)"))).
Proof.
  split.
  - intros base ext stamp Hext. unfold get_new_filename.
    change ("." ++ ext)%string with (String "." ext).
    now rewrite (rsplit_dot_last base ext Hext).
  - intros log_file mb mf e Hlog. unfold init, get_new_filename.
    now rewrite (rsplit_dot_none log_file Hlog).
Qed.

(** *** [_manage_old_files] *)

Lemma insert_by_ctime_perm (x : string * Z) (l : list (string * Z)) :
  Permutation (insert_by_ctime x l) (x :: l).
Proof.
  induction l as [|y l IH]; [reflexivity|].
  cbn [insert_by_ctime]. destruct (snd x <=? snd y)%Z; [reflexivity|].
  rewrite IH. apply perm_swap.
Qed.

Lemma sorted_by_ctime_perm (l : list (string * Z)) :
  Permutation (sorted_by_ctime l) l.
Proof.
  induction l as [|x l IH]; [reflexivity|].
  unfold sorted_by_ctime in *. cbn [fold_right].
  rewrite insert_by_ctime_perm. now constructor.
Qed.

Lemma insert_by_ctime_sorted (x : string * Z) (l : list (string * Z)) :
  StronglySorted (fun a b => (snd a <= snd b)%Z) l ->
  StronglySorted (fun a b => (snd a <= snd b)%Z) (insert_by_ctime x l).
Proof.
  induction 1 as [|y l Hl IH Hy]; cbn [insert_by_ctime].
  - repeat constructor.
  - destruct (Z.leb_spec (snd x) (snd y)) as [Hle|Hgt].
    + constructor; [now constructor|].
      constructor; [assumption|].
      revert Hy. apply Forall_impl. intros z Hz. lia.
    + constructor; [assumption|].
      eapply Permutation_Forall; [symmetry; apply insert_by_ctime_perm|].
      constructor; [lia|assumption].
Qed.

Lemma sorted_by_ctime_sorted (l : list (string * Z)) :
  StronglySorted (fun a b => (snd a <= snd b)%Z) (sorted_by_ctime l).
Proof.
  induction l as [|x l IH]; [constructor|].
  unfold sorted_by_ctime in *. cbn [fold_right].
  now apply insert_by_ctime_sorted.
Qed.

Lemma sorted_app_le (a b : list (string * Z)) :
  StronglySorted (fun x y => (snd x <= snd y)%Z) (a ++ b) ->
  forall o k, In o a -> In k b -> (snd o <= snd k)%Z.
Proof.
  induction a as [|x a IH]; intros Hs o k Ho Hk; [contradiction|].
  cbn [app] in Hs. inversion Hs as [|? ? Hs' Hx]; subst.
  destruct Ho as [<-|Ho].
  - rewrite Forall_forall in Hx. apply Hx, in_or_app. now right.
  - now apply IH.
Qed.

(** The loop of lines 68-71 when every removal goes through: it removes
    the first files of the list, down to [maxFiles]. *)
Lemma remove_oldest_all (e : env) (maxFiles : Z) (l : list (string * Z)) :
  (forall n, remove_error e n = None) -> (0 <= maxFiles)%Z ->
  remove_oldest e maxFiles l
  = (map Remove (map fst (firstn (length l - Z.to_nat maxFiles) l)),
     Ok (length l - Z.to_nat maxFiles)).
Proof.
  intros Hrm Hmax. induction l as [|x l IH].
  { cbn [remove_oldest]. now destruct (Z.ltb_spec maxFiles 0) as [|_]; [lia|]. }
  cbn [remove_oldest].
  destruct (Z.ltb_spec maxFiles (Z.of_nat (length (x :: l)))) as [Hlt|Hge].
  - rewrite Hrm, lbind_emits, IH, lbind_pair_Ok. cbn [fst snd ret length] in *.
    replace (S (length l) - Z.to_nat maxFiles)
      with (S (length l - Z.to_nat maxFiles)) by lia.
    cbn [firstn map]. now rewrite app_nil_r.
  - cbn [length] in *.
    replace (S (length l) - Z.to_nat maxFiles) with 0 by lia.
    reflexivity.
Qed.

Lemma removed_map_Remove (names : list string) :
  removed (map Remove names) = names.
Proof.
  induction names as [|n names IH]; [reflexivity|].
  cbn [map]. unfold removed in *. cbn [flat_map app]. now rewrite IH.
Qed.

(** X13. When [os.remove] goes through and [maxFiles] is not negative,
    [_manage_old_files] removes the oldest of the files that the glob
    found, the oldest first, and keeps the [maxFiles] newest, or all of them
    when they are fewer: the files removed, in the order of their removal,
    and then the files kept are the files found in the order of their
    creation times; so no file that it keeps was created before one that it
    removes.  It does nothing else. *)
Theorem old_files_go_the_newest_stay (h : handler) (e : env) :
  (forall n, remove_error e n = None) ->
  (0 <= maxFiles h)%Z ->
  exists gone kept h',
    manage_old_files h e = (map Remove (map fst gone), Ok h')
    /\ Permutation (gone ++ kept) (found e)
    /\ StronglySorted (fun a b => (snd a <= snd b)%Z) (gone ++ kept)
    /\ length kept = Nat.min (length (found e)) (Z.to_nat (maxFiles h))
    /\ (forall o k, In o gone -> In k kept -> (snd o <= snd k)%Z).
Proof.
  intros Hrm Hmax.
  pose proof (sorted_by_ctime_perm (found e)) as Hperm.
  pose proof (sorted_by_ctime_sorted (found e)) as Hsorted.
  pose proof (Permutation_length Hperm) as Hlen.
  set (k := length (sorted_by_ctime (found e)) - Z.to_nat (maxFiles h)).
  exists (firstn k (sorted_by_ctime (found e))),
         (skipn k (sorted_by_ctime (found e))).
  unfold manage_old_files. cbv zeta.
  rewrite (remove_oldest_all e (maxFiles h) _ Hrm Hmax). fold k.
  rewrite firstn_skipn.
  destruct k as [|k'] eqn:Hk; eexists; (split; [reflexivity|]);
    (split; [exact Hperm|]); (split; [exact Hsorted|]); rewrite length_skipn;
    (split; [lia|]); apply sorted_app_le; now rewrite firstn_skipn.
Qed.

Lemma old_files_go_the_newest_stay_witness :
  exists gone kept,
    removed (fst (manage_old_files
                    {| log_file := "device_test.log"; maxBytes := 100;
                       maxFiles := 10; current_file := "device_test_T0.log";
                       current_size := 0; formatter := None;
                       root_has_handler := false |} (crowded "T0")))
    = map fst gone
    /\ Permutation (gone ++ kept) (found (crowded "T0"))
    /\ StronglySorted (fun a b => (snd a <= snd b)%Z) (gone ++ kept)
    /\ length kept = 10.
Proof.
  destruct (old_files_go_the_newest_stay
              {| log_file := "device_test.log"; maxBytes := 100;
                 maxFiles := 10; current_file := "device_test_T0.log";
                 current_size := 0; formatter := None;
                 root_has_handler := false |} (crowded "T0")
              (fun _ => eq_refl) ltac:(discriminate))
    as [gone [kept [h' [E [P [Hs [Hl _]]]]]]].
  exists gone, kept. rewrite E. cbn [fst].
  split; [apply removed_map_Remove|split; [exact P|split; [exact Hs|exact Hl]]].
Defined.

(** *** [emit] and the dispatch *)

Lemma remove_oldest_inv (e : env) (maxFiles : Z) (l : list (string * Z))
    (tr : list lev) (n : nat) :
  remove_oldest e maxFiles l = (tr, Ok n) ->
  exists names, tr = map Remove names /\ length names = n.
Proof.
  revert tr n. induction l as [|x l IH]; intros tr n E.
  - cbn [remove_oldest] in E. destruct (maxFiles <? 0)%Z; [discriminate|].
    injection E as <- <-. now exists [].
  - cbn [remove_oldest] in E.
    destruct (maxFiles <? Z.of_nat (length (x :: l)))%Z.
    + destruct (remove_error e (fst x)); [discriminate|].
      rewrite lbind_emits in E.
      destruct (remove_oldest e maxFiles l) as [t [m|err]] eqn:El.
      * rewrite lbind_pair_Ok in E. cbn [fst snd ret] in E.
        injection E as <- <-.
        destruct (IH t m eq_refl) as [names [-> <-]].
        exists (fst x :: names). now rewrite app_nil_r.
      * discriminate.
    + injection E as <- <-. now exists [].
Qed.

(** What [_manage_old_files] does when it returns: it removes files, and
    gives the root logger a handler if it removed one. *)
Lemma remove_oldest_some (e : env) (maxFiles : Z) (l : list (string * Z))
    (tr : list lev) (n : nat) :
  remove_oldest e maxFiles l = (tr, Ok n) ->
  (0 <= maxFiles < Z.of_nat (length l))%Z -> 1 <= n.
Proof.
  intros E Hlt. destruct l as [|x l]; [cbn [length] in Hlt; lia|].
  - cbn [remove_oldest] in E.
    destruct (Z.ltb_spec maxFiles (Z.of_nat (length (x :: l)))); [|lia].
    destruct (remove_error e (fst x)); [discriminate|].
    rewrite lbind_emits in E.
    destruct (remove_oldest e maxFiles l) as [t [m|err]]; [|discriminate].
    rewrite lbind_pair_Ok in E. injection E as <- <-. lia.
Qed.

Lemma manage_old_files_inv (h : handler) (e : env) (tr : list lev) (h' : handler) :
  manage_old_files h e = (tr, Ok h') ->
  exists names,
    tr = map Remove names
    /\ h' = match names with [] => h | _ :: _ => basicConfig h end
    /\ ((0 <= maxFiles h < Z.of_nat (length (found e)))%Z -> names <> []).
Proof.
  unfold manage_old_files. cbv zeta.
  destruct (remove_oldest e (maxFiles h) (sorted_by_ctime (found e)))
    as [t [n|err]] eqn:E; [|discriminate].
  pose proof (remove_oldest_some e _ _ t n E) as Hsome.
  rewrite (Permutation_length (sorted_by_ctime_perm (found e))) in Hsome.
  destruct (remove_oldest_inv e _ _ t n E) as [names [-> <-]].
  destruct names as [|x names]; cbn [length] in *; intros E';
    injection E' as <- <-.
  - exists []. split; [reflexivity|]. split; [reflexivity|].
    intros Hlt. specialize (Hsome Hlt). lia.
  - exists (x :: names). split; [reflexivity|]. split; [reflexivity|].
    discriminate.
Qed.

Lemma rotate_inv (h : handler) (e : env) (tr : list lev) (h' : handler) :
  rotate h e = (tr, Ok h') ->
  formatter h' = formatter h /\ maxBytes h' = maxBytes h
  /\ current_size h' = 0%Z
  /\ exists names,
       tr = Close (current_file h) :: Open (current_file h') :: map Remove names
       /\ root_has_handler h'
          = match names with
            | [] => root_has_handler h
            | _ :: _ => true
            end.
Proof.
  unfold rotate, get_new_filename. rewrite lbind_emits.
  destruct (rsplit_dot (log_file h)) as [|base [|ext [|x l]]];
    try discriminate.
  rewrite lbind_ret, lbind_emits. cbn [fst snd].
  match goal with
  | |- context [manage_old_files ?h0 e] =>
      destruct (manage_old_files h0 e) as [t res] eqn:Em
  end.
  cbn [fst snd]. intros E. injection E as <- ->.
  destruct (manage_old_files_inv _ _ _ _ Em) as [names [-> [-> _]]].
  destruct names as [|n names];
    cbn [formatter maxBytes current_file current_size root_has_handler
         basicConfig];
    repeat (split; [reflexivity|]).
  - now exists [].
  - now exists (n :: names).
Qed.

(** What [emit] does when it returns: one line appended to the current
    file, after a rotation if the line does not fit. *)
Lemma emit_inv (h : handler) (e : env) (r : record) (tr : list lev) (h' : handler) :
  emit h e r = (tr, Ok h') ->
  let size := (Z.of_nat (String.length (format h r)) + 1)%Z in
  let line := (Formatter_format r ++ String "010" "")%string in
  formatter h' = formatter h /\ maxBytes h' = maxBytes h
  /\ ((current_size h + size <= maxBytes h)%Z
       /\ tr = [Append (current_file h) line]
       /\ current_file h' = current_file h
       /\ current_size h' = (current_size h + size)%Z
       /\ root_has_handler h' = root_has_handler h
      \/ (maxBytes h < current_size h + size)%Z
         /\ (exists names,
               tr = Close (current_file h) :: Open (current_file h')
                    :: map Remove names ++ [Append (current_file h') line]
               /\ root_has_handler h'
                  = match names with
                    | [] => root_has_handler h
                    | _ :: _ => true
                    end)
         /\ current_size h' = size).
Proof.
  unfold emit. cbv zeta. intros E.
  destruct (Z.ltb_spec (maxBytes h)
              (current_size h + (Z.of_nat (String.length (format h r)) + 1)))
    as [Hlt|Hge].
  - destruct (rotate h e) as [t [h1|err]] eqn:Er; [|discriminate].
    rewrite lbind_pair_Ok, lbind_emits in E. cbn [fst snd ret] in E.
    injection E as <- <-.
    destruct (rotate_inv h e t h1 Er) as [Hf [Hm [Hs [names [-> Hroot]]]]].
    cbn [formatter maxBytes current_file current_size root_has_handler].
    split; [assumption|]. split; [assumption|]. right.
    split; [assumption|]. split; [|lia].
    exists names. split; [reflexivity|assumption].
  - rewrite lbind_ret, lbind_emits in E. cbn [fst snd ret] in E.
    injection E as <- <-.
    cbn [formatter maxBytes current_file current_size root_has_handler].
    split; [reflexivity|]. split; [reflexivity|]. left.
    repeat split; lia.
Qed.

(** What [log] does when it returns. *)
Lemma log_inv (lg : logger) (e : env) (r : record) (tr : list lev) (lg' : logger) :
  log lg e r = (tr, Ok lg') ->
  ((levelno r < 10)%Z /\ tr = [] /\ lg' = lg)
  \/ ((10 <= levelno r)%Z
      /\ file_level lg' = file_level lg
      /\ console_level lg' = console_level lg
      /\ exists t1,
           (if (levelno r <? file_level lg)%Z
            then t1 = [] /\ file_handler lg' = file_handler lg
            else emit (file_handler lg) e r = (t1, Ok (file_handler lg')))
           /\ tr = t1
                   ++ (if (levelno r <? console_level lg)%Z then []
                       else [Stderr (snd (ColorFormatter_format r)
                                     ++ String "010" "")])
                   ++ (if root_has_handler (file_handler lg')
                       then [Stderr (basic_format
                                       (if (levelno r <? console_level lg)%Z
                                        then r
                                        else fst (ColorFormatter_format r))
                                     ++ String "010" "")]
                       else [])).
Proof.
  unfold log. change (level_no DEBUG) with 10%Z.
  destruct (Z.ltb_spec (levelno r) 10) as [Hlow|Hhigh].
  - intros E. injection E as <- <-. left. repeat split. assumption.
  - intros E. right. split; [assumption|]. cbv zeta in E.
    apply lbind_inv in E as [h [t1 [t2 [Eh [E ->]]]]].
    apply lbind_inv in E as [r1 [t3 [t4 [Er1 [E ->]]]]].
    apply lbind_inv in E as [u [t5 [t6 [Eu [E ->]]]]].
    injection E as <- <-.
    cbn [file_handler file_level console_level].
    split; [reflexivity|]. split; [reflexivity|].
    exists t1. split.
    + destruct (levelno r <? file_level lg)%Z; [|assumption].
      injection Eh as <- <-. now split.
    + rewrite app_nil_r. f_equal.
      destruct (levelno r <? console_level lg)%Z.
      * injection Er1 as <- <-.
        destruct (root_has_handler h); injection Eu as <-; reflexivity.
      * rewrite lbind_emits in Er1. injection Er1 as <- <-.
        destruct (root_has_handler h); injection Eu as <-; reflexivity.
Qed.

(** *** The size that the handler counts *)

Lemma appended_since_open_app (name : string) (t1 t2 : list lev) (acc : Z) :
  appended_since_open name (t1 ++ t2) acc
  = appended_since_open name t2 (appended_since_open name t1 acc).
Proof.
  revert acc. induction t1 as [|x t1 IH]; intros acc; [reflexivity|].
  destruct x; cbn [app appended_since_open]; apply IH.
Qed.

Lemma appended_since_open_removes (name : string) (names : list string) (acc : Z) :
  appended_since_open name (map Remove names) acc = acc.
Proof.
  induction names as [|n names IH]; [reflexivity|exact IH].
Qed.

(** One record: the size counted follows the bytes appended. *)
Lemma log_counts (lg : logger) (e : env) (r : record) (tr : list lev)
    (lg' : logger) (name : string) (acc : Z) :
  formatter (file_handler lg) = Some Formatter_format ->
  log lg e r = (tr, Ok lg') ->
  (name = current_file (file_handler lg) ->
   acc = current_size (file_handler lg)) ->
  formatter (file_handler lg') = Some Formatter_format
  /\ maxBytes (file_handler lg') = maxBytes (file_handler lg)
  /\ (name = current_file (file_handler lg') ->
      appended_since_open name tr acc = current_size (file_handler lg'))
  /\ ((current_size (file_handler lg) <= maxBytes (file_handler lg))%Z ->
      (Z.of_nat (String.length (Formatter_format r)) + 1
       <= maxBytes (file_handler lg))%Z ->
      (current_size (file_handler lg') <= maxBytes (file_handler lg'))%Z).
Proof.
  intros Hfmt E Hacc.
  destruct (log_inv lg e r tr lg' E)
    as [[_ [-> ->]]|[_ [_ [_ [t1 [Hfile ->]]]]]].
  - split; [assumption|]. split; [reflexivity|]. split.
    + intros ->. now apply Hacc.
    + intros Hs _. exact Hs.
  - assert (Hquiet : forall a,
              appended_since_open name
                ((if (levelno r <? console_level lg)%Z then []
                  else [Stderr (snd (ColorFormatter_format r)
                                ++ String "010" "")])
                 ++ (if root_has_handler (file_handler lg')
                     then [Stderr (basic_format
                                     (if (levelno r <? console_level lg)%Z
                                      then r
                                      else fst (ColorFormatter_format r))
                                   ++ String "010" "")]
                     else [])) a = a).
    { intros a. destruct (levelno r <? console_level lg)%Z,
        (root_has_handler (file_handler lg')); reflexivity. }
    rewrite appended_since_open_app, Hquiet.
    destruct (levelno r <? file_level lg)%Z.
    + destruct Hfile as [-> ->].
      split; [assumption|]. split; [reflexivity|]. split.
      * intros ->. now apply Hacc.
      * intros Hs _. exact Hs.
    + destruct (emit_inv _ e r t1 _ Hfile) as [Hf [Hm Hcases]].
      unfold format in Hcases. rewrite Hfmt in Hcases.
      split; [now rewrite Hf|]. split; [assumption|].
      destruct Hcases as [[Hfit [-> [Hcf [Hcs _]]]]
                         |[Hover [[names [-> _]] Hcs]]].
      * split.
        -- intros Hname. rewrite Hcf in Hname.
           cbn [appended_since_open]. rewrite Hname, String.eqb_refl.
           rewrite (Hacc Hname), Hcs, string_length_app.
           cbn [String.length]. lia.
        -- intros _ _. rewrite Hcs, Hm. lia.
      * split.
        -- intros ->. cbn [appended_since_open]. rewrite String.eqb_refl.
           rewrite appended_since_open_app, appended_since_open_removes.
           cbn [appended_since_open]. rewrite String.eqb_refl.
           rewrite Hcs, string_length_app. cbn [String.length]. lia.
        -- intros _ Hfits. rewrite Hcs, Hm. lia.
Qed.

Lemma log_all_counts (l : list (env * record)) :
  forall (lg : logger) (tr : list lev) (lg' : logger) (name : string) (acc : Z),
  formatter (file_handler lg) = Some Formatter_format ->
  log_all lg l = (tr, Ok lg') ->
  (name = current_file (file_handler lg) ->
   acc = current_size (file_handler lg)) ->
  maxBytes (file_handler lg') = maxBytes (file_handler lg)
  /\ (name = current_file (file_handler lg') ->
      appended_since_open name tr acc = current_size (file_handler lg'))
  /\ ((current_size (file_handler lg) <= maxBytes (file_handler lg))%Z ->
      Forall (fun er => (Z.of_nat (String.length (Formatter_format (snd er))) + 1
                         <= maxBytes (file_handler lg))%Z) l ->
      (current_size (file_handler lg') <= maxBytes (file_handler lg'))%Z).
Proof.
  induction l as [|[e r] l IH]; intros lg tr lg' name acc Hfmt E Hacc.
  - injection E as <- <-. split; [reflexivity|]. split.
    + intros ->. now apply Hacc.
    + intros Hs _. exact Hs.
  - cbn [log_all] in E. apply lbind_inv in E as [lg1 [t1 [t2 [El [Ea ->]]]]].
    assert (Hstep : forall a,
              (name = current_file (file_handler lg) ->
               a = current_size (file_handler lg)) ->
              formatter (file_handler lg1) = Some Formatter_format
              /\ maxBytes (file_handler lg1) = maxBytes (file_handler lg)
              /\ (name = current_file (file_handler lg1) ->
                  appended_since_open name t1 a
                  = current_size (file_handler lg1))
              /\ ((current_size (file_handler lg)
                   <= maxBytes (file_handler lg))%Z ->
                  (Z.of_nat (String.length (Formatter_format r)) + 1
                   <= maxBytes (file_handler lg))%Z ->
                  (current_size (file_handler lg1)
                   <= maxBytes (file_handler lg1))%Z))
      by (intros a Ha; exact (log_counts lg e r t1 lg1 name a Hfmt El Ha)).
    destruct (Hstep acc Hacc) as [Hf1 [Hm1 [Hc1 Hb1]]].
    destruct (IH lg1 t2 lg' name (appended_since_open name t1 acc) Hf1 Ea Hc1)
      as [Hm' [Hc' Hb']].
    split; [congruence|]. split.
    + intros Hname. rewrite appended_since_open_app. now apply Hc'.
    + intros Hs Hall. inversion Hall as [|? ? Hr Hl]; subst. cbn [snd] in Hr.
      apply Hb'; [now apply Hb1|]. rewrite Hm1. assumption.
Qed.

Lemma init_inv (log_file : string) (maxBytes_ maxFiles_ : Z) (e : env)
    (tr : list lev) (h : handler) :
  init log_file maxBytes_ maxFiles_ e = (tr, Ok h) ->
  maxBytes h = maxBytes_ /\ current_size h = 0%Z
  /\ exists names,
       tr = Open (current_file h) :: map Remove names
       /\ root_has_handler h = match names with [] => false | _ :: _ => true end
       /\ ((0 <= maxFiles_ < Z.of_nat (length (found e)))%Z -> names <> []).
Proof.
  unfold init, get_new_filename.
  destruct (rsplit_dot log_file) as [|base [|ext [|x l]]]; try discriminate.
  rewrite lbind_ret, lbind_emits. cbn [fst snd].
  match goal with
  | |- context [manage_old_files ?h0 e] =>
      destruct (manage_old_files h0 e) as [t res] eqn:Em
  end.
  cbn [fst snd]. intros E. injection E as <- ->.
  destruct (manage_old_files_inv _ _ _ _ Em) as [names [-> [-> Hsome]]].
  cbn [maxFiles] in Hsome.
  destruct names as [|n names];
    cbn [maxBytes current_file current_size root_has_handler basicConfig];
    repeat (split; [reflexivity|]).
  - exists []. repeat (split; [reflexivity|]). exact Hsome.
  - exists (n :: names). repeat (split; [reflexivity|]). exact Hsome.
Qed.

(** X14. From [setup_logger] on, as long as no call raises, the size that
    the handler counts is the number of bytes that it appended to its
    current file since it opened it: each line with its line feed.  When
    every line fits in the 10 MiB, the handler never counts more than that:
    it opens another file first. *)
Theorem current_size_counts_what_was_appended (log_file : string)
    (console_level_ file_level_ : Z) (e0 : env) (l : list (env * record))
    (t0 tr : list lev) (lg lg' : logger) :
  setup_logger log_file console_level_ file_level_ e0 = (t0, Ok lg) ->
  log_all lg l = (tr, Ok lg') ->
  current_size (file_handler lg')
  = appended_since_open (current_file (file_handler lg')) (t0 ++ tr) 0
  /\ (Forall (fun er => (Z.of_nat (String.length (Formatter_format (snd er))) + 1
                         <= 10 * 1024 * 1024)%Z) l ->
      (current_size (file_handler lg') <= 10 * 1024 * 1024)%Z).
Proof.
  intros Es El. unfold setup_logger in Es.
  apply lbind_inv in Es as [h [ti [t2 [Ei [Es ->]]]]].
  injection Es as <- <-. rewrite app_nil_r.
  destruct (init_inv _ _ _ _ _ _ Ei) as [Hm [Hs [names [-> _]]]].
  rewrite appended_since_open_app.
  destruct (log_all_counts l
              {| file_handler := setFormatter h Formatter_format;
                 file_level := file_level_;
                 console_level := console_level_ |}
              tr lg' (current_file (file_handler lg'))
              (appended_since_open (current_file (file_handler lg'))
                 (Open (current_file h) :: map Remove names) 0)
              eq_refl El) as [Hm' [Hc Hb]].
  - intros _. cbn [appended_since_open file_handler setFormatter current_size].
    rewrite appended_since_open_removes, Hs.
    now destruct (String.eqb _ _).
  - cbn [file_handler setFormatter maxBytes current_size] in Hm', Hb.
    split; [symmetry; now apply Hc|].
    intros Hall. rewrite Hm' in Hb. rewrite Hm, Hs in Hb.
    apply Hb; [lia|assumption].
Qed.

Lemma current_size_counts_what_was_appended_witness :
  exists t0 lg tr lg',
    setup_logger "device_test.log" 20 10 (fresh "T0") = (t0, Ok lg)
    /\ log_all lg [(fresh "T1", hello); (fresh "T2", hello)] = (tr, Ok lg')
    /\ current_size (file_handler lg') = 78%Z
    /\ appended_since_open (current_file (file_handler lg')) (t0 ++ tr) 0
       = 78%Z.
Proof.
  do 4 eexists. split; [reflexivity|]. split; [reflexivity|].
  split; [reflexivity|].
  rewrite <- (proj1 (current_size_counts_what_was_appended
                       "device_test.log" 20 10 (fresh "T0")
                       [(fresh "T1", hello); (fresh "T2", hello)]
                       _ _ _ _ eq_refl eq_refl)).
  reflexivity.
Defined.

(** *** The root logger *)

Lemma stderr_lines_app (t1 t2 : list lev) :
  stderr_lines (t1 ++ t2) = stderr_lines t1 ++ stderr_lines t2.
Proof. apply flat_map_app. Qed.

Lemma appended_app (t1 t2 : list lev) :
  appended (t1 ++ t2) = appended t1 ++ appended t2.
Proof. apply flat_map_app. Qed.

Lemma stderr_lines_removes (names : list string) :
  stderr_lines (map Remove names) = [].
Proof. induction names as [|n names IH]; [reflexivity|exact IH]. Qed.

Lemma appended_removes (names : list string) : appended (map Remove names) = [].
Proof. induction names as [|n names IH]; [reflexivity|exact IH]. Qed.

(** X15. When the glob finds more than ten log files, [setup_logger]
    removes at least one, and the [logging.info] of line 71 gives the root
    logger a handler.  The line [Deleted old log file] itself goes
    nowhere: nothing is written to the log file or to the console. *)
Theorem deleting_an_old_file_gives_the_root_logger_a_handler
    (log_file : string) (console_level_ file_level_ : Z) (e : env)
    (t : list lev) (lg : logger) :
  setup_logger log_file console_level_ file_level_ e = (t, Ok lg) ->
  10 < length (found e) ->
  root_has_handler (file_handler lg) = true
  /\ removed t <> []
  /\ stderr_lines t = []
  /\ appended t = [].
Proof.
  intros Es Hmany. unfold setup_logger in Es.
  apply lbind_inv in Es as [h [ti [t2 [Ei [Es ->]]]]].
  injection Es as <- <-. rewrite app_nil_r.
  destruct (init_inv _ _ _ _ _ _ Ei) as [_ [_ [names [-> [Hroot Hsome]]]]].
  cbn [file_handler setFormatter root_has_handler].
  assert (Hne : names <> []) by (apply Hsome; lia).
  destruct names as [|n names]; [contradiction|].
  split; [assumption|]. split; [discriminate|].
  split.
  - change (stderr_lines (map Remove (n :: names)) = []).
    apply stderr_lines_removes.
  - change (appended (map Remove (n :: names)) = []).
    apply appended_removes.
Qed.

Lemma deleting_an_old_file_gives_the_root_logger_a_handler_witness :
  exists t lg,
    setup_logger "device_test.log" 20 10 (crowded "T0") = (t, Ok lg)
    /\ root_has_handler (file_handler lg) = true.
Proof.
  do 2 eexists. split; [reflexivity|].
  apply (deleting_an_old_file_gives_the_root_logger_a_handler
           "device_test.log" 20 10 (crowded "T0") _ _ eq_refl).
  cbn. lia.
Defined.

Lemma emit_keeps_root_handler (h : handler) (e : env) (r : record)
    (tr : list lev) (h' : handler) :
  emit h e r = (tr, Ok h') ->
  root_has_handler h = true -> root_has_handler h' = true.
Proof.
  intros E Hroot.
  destruct (emit_inv h e r tr h' E)
    as [_ [_ [[_ [_ [_ [_ ->]]]]|[_ [[names [_ ->]] _]]]]]; [assumption|].
  now destruct names.
Qed.

Lemma emit_appended (h : handler) (e : env) (r : record)
    (tr : list lev) (h' : handler) :
  emit h e r = (tr, Ok h') ->
  appended tr = [(current_file h', (Formatter_format r ++ String "010" "")%string)]
  /\ stderr_lines tr = [].
Proof.
  intros E.
  destruct (emit_inv h e r tr h' E)
    as [_ [_ [[_ [-> [-> _]]]|[_ [[names [-> _]] _]]]]].
  - split; reflexivity.
  - split.
    + change (appended (map Remove names ++ [Append (current_file h')
                                               (Formatter_format r ++ String "010" "")])
              = [(current_file h', (Formatter_format r ++ String "010" "")%string)]).
      now rewrite appended_app, appended_removes.
    + change (stderr_lines (map Remove names ++ [Append (current_file h')
                                                   (Formatter_format r ++ String "010" "")])
              = []).
      now rewrite stderr_lines_app, stderr_lines_removes.
Qed.

(** X16. Once the root logger has a handler, every record that the logger
    hands to its console handler is printed twice: by the console handler,
    and by the handler of the root logger, in the format of
    [basicConfig].  [ColorFormatter.format] assigns [record.msg], so the
    second line has the colour codes too; the line of the log file, which
    is written before, has the message as it was logged. *)
Theorem a_record_is_printed_twice_once_the_root_logger_has_a_handler
    (lg : logger) (e : env) (r : record) (tr : list lev) (lg' : logger) :
  root_has_handler (file_handler lg) = true ->
  (10 <= levelno r)%Z ->
  (file_level lg <= levelno r)%Z ->
  (console_level lg <= levelno r)%Z ->
  log lg e r = (tr, Ok lg') ->
  stderr_lines tr
  = [(snd (ColorFormatter_format r) ++ String "010" "")%string;
     (levelname (levelno r) ++ ":device_test_logger:"
      ++ msg (fst (ColorFormatter_format r)) ++ String "010" "")%string]
  /\ appended tr
     = [(current_file (file_handler lg'),
         (asctime r ++ " - " ++ levelname (levelno r) ++ " - " ++ msg r
          ++ String "010" "")%string)]
  /\ root_has_handler (file_handler lg') = true.
Proof.
  intros Hroot Hlevel Hfile Hconsole E.
  destruct (log_inv lg e r tr lg' E) as [[Hlow _]|[_ [_ [_ [t1 [Hemit ->]]]]]];
    [lia|].
  destruct (Z.ltb_spec (levelno r) (file_level lg)) as [|_]; [lia|].
  destruct (Z.ltb_spec (levelno r) (console_level lg)) as [|_]; [lia|].
  rewrite (emit_keeps_root_handler _ e r t1 _ Hemit Hroot).
  destruct (emit_appended _ e r t1 _ Hemit) as [Ha Hs].
  rewrite !stderr_lines_app, !appended_app, Ha, Hs.
  split; [|split; [|reflexivity]].
  - cbn [stderr_lines flat_map app]. unfold basic_format, logger_name.
    assert (Hlv : levelno (fst (ColorFormatter_format r)) = levelno r).
    { unfold ColorFormatter_format. cbv zeta. cbn [fst].
      repeat match goal with
             | |- context [if ?b then _ else _] => destruct b
             end; reflexivity. }
    rewrite Hlv, !string_app_assoc. reflexivity.
  - cbn [appended flat_map app]. unfold Formatter_format.
    now rewrite !string_app_assoc.
Qed.

Lemma a_record_is_printed_twice_once_the_root_logger_has_a_handler_witness :
  exists lg tr lg',
    snd (setup_logger "device_test.log" 20 10 (crowded "T0")) = Ok lg
    /\ log lg (fresh "T1") hello = (tr, Ok lg')
    /\ stderr_lines tr
       = [(asctime hello ++ " - INFO - " ++ Fore_GREEN ++ "hello"
           ++ Style_RESET_ALL ++ String "010" "")%string;
          ("INFO:device_test_logger:" ++ Fore_GREEN ++ "hello"
           ++ Style_RESET_ALL ++ String "010" "")%string].
Proof.
  do 3 eexists. split; [reflexivity|].
  match goal with
  | |- log ?lg _ _ = _ /\ _ =>
      split; [reflexivity|];
      refine (proj1 (a_record_is_printed_twice_once_the_root_logger_has_a_handler
                       lg (fresh "T1") hello _ _ _ _ _ _ eq_refl));
      first [reflexivity | vm_compute; discriminate]
  end.
Defined.

End LogFacts.
